(** * MCPDroid: a verification development

    A shallow embedding of the protocol core of the MCPDroid service:

    - [core/mcp_server.py]: the JSON-RPC dispatcher, the tool registry and
      the resource clean-up path of [MCPServer];
    - [tools/android_tools.py]: schema inference ([_build_input_schema]),
      the making of the tools ([create_tools]) and their registration
      ([register_android_tools]);
    - [core/multi_device_controller.py]: the named signals
      ([sync_operations]), the shared blackboard
      ([share_between_devices]), the mailboxes ([device_messaging]), the
      device groups ([device_group_actions]), the reading of the list of
      devices ([_list_all_devices]) and the clean-up of the controller.

    Python strings are modelled as [string], i.e. as their UTF-8 byte
    sequence; concatenation, prefix tests, splitting at a line feed and
    stripping ASCII white space act on the bytes exactly as they act on the
    code points. *)

From Stdlib Require Import ZArith Lia Ascii String.
From stdpp Require Import gmap strings list fin_maps pretty.

Set Warnings "-register-all".

Open Scope string_scope.
Open Scope list_scope.

(** ** Python values *)

Module Py.

(** The values that travel through the dispatcher: what [json.loads]
    produces, what handlers receive and return.  [PFloat] keeps a float by
    its Python [repr].  [PObj] is an object outside the JSON data model
    that the response model hands on as it is (a coroutine object, a set,
    bytes, an object of a class of the application, ...), known by the
    name of its type.  A value that [response.dict()] converts is kept as
    what it becomes there: a [pydantic] model as the [PDict] of its
    fields, a tuple as a [PList].  A generator, on which the conversion
    itself fails, is not among these values. *)
Inductive pyval : Type :=
  | PNone
  | PBool (b : bool)
  | PInt (n : Z)
  | PFloat (repr : string)
  | PStr (s : string)
  | PList (items : list pyval)
  | PDict (entries : list (string * pyval))
  | PObj (type_name : string).

(** Exceptions derived from [Exception]: the application error [MCPError]
    of [mcp_server.py], and every other class, kept with its class name and
    with the text [str(e)]. *)
Inductive exn : Type :=
  | MCPError (message : string) (code : Z)
  | PyException (cls : string) (detail : string).

(** [MCPError.__init__] hands [message] to [Exception.__init__], so
    [str(e)] is the message. *)
Definition exn_str (e : exn) : string :=
  match e with
  | MCPError message _ => message
  | PyException _ detail => detail
  end.

(** The default [code] of [MCPError.__init__]. *)
Definition MCPError_default_code : Z := (-32000)%Z.

Inductive outcome (A : Type) : Type :=
  | Returned (a : A)
  | Raised (e : exn).
Arguments Returned {A} a.
Arguments Raised {A} e.

(** *** Insertion-ordered dictionaries with string keys *)

Section odict.
Context {V : Type}.

Fixpoint od_get (d : list (string * V)) (k : string) : option V :=
  match d with
  | [] => None
  | (k', v) :: d' => if decide (k' = k) then Some v else od_get d' k
  end.

(** [d[k] = v]: an existing key keeps its position, a new key goes last. *)
Fixpoint od_set (d : list (string * V)) (k : string) (v : V)
  : list (string * V) :=
  match d with
  | [] => [(k, v)]
  | (k', v') :: d' =>
      if decide (k' = k) then (k, v) :: d' else (k', v') :: od_set d' k v
  end.

Definition od_mem (d : list (string * V)) (k : string) : bool :=
  match od_get d k with Some _ => true | None => false end.

End odict.

(** *** Built-in operations on values *)

Definition type_name_of (v : pyval) : string :=
  match v with
  | PNone => "NoneType"
  | PBool _ => "bool"
  | PInt _ => "int"
  | PFloat _ => "float"
  | PStr _ => "str"
  | PList _ => "list"
  | PDict _ => "dict"
  | PObj t => t
  end.

(** Truth value, as used by [not x] and [x or y]. *)
Definition truthy (v : pyval) : bool :=
  match v with
  | PNone => false
  | PBool b => b
  | PInt n => negb (n =? 0)%Z
  | PFloat r => negb (bool_decide (r = "0.0") || bool_decide (r = "-0.0"))
  | PStr s => negb (bool_decide (s = ""))
  | PList l => match l with [] => false | _ => true end
  | PDict d => match d with [] => false | _ => true end
  | PObj _ => true
  end.

Definition isinstance_dict (v : pyval) : bool :=
  match v with PDict _ => true | _ => false end.

Definition isinstance_list (v : pyval) : bool :=
  match v with PList _ => true | _ => false end.

(** [v == s] for a string literal [s]. *)
Definition eq_str (v : pyval) (s : string) : bool :=
  match v with PStr s' => bool_decide (s' = s) | _ => false end.

Definition attribute_error (v : pyval) (attr : string) : exn :=
  PyException "AttributeError"
    ("'" +:+ type_name_of v +:+ "' object has no attribute '" +:+ attr +:+ "'").

(** [v.get(k, default)]: only a dict has the method. *)
Definition py_get (v : pyval) (k : string) (dflt : pyval) : outcome pyval :=
  match v with
  | PDict d => Returned (default dflt (od_get d k))
  | _ => Raised (attribute_error v "get")
  end.

(** [json.dumps] fails on the first object outside the JSON data model that
    it meets, naming its type. *)
Fixpoint unserialisable (v : pyval) : option string :=
  match v with
  | PObj t => Some t
  | PList l =>
      (fix go (l : list pyval) : option string :=
         match l with
         | [] => None
         | x :: l' =>
             match unserialisable x with Some t => Some t | None => go l' end
         end) l
  | PDict d =>
      (fix go (d : list (string * pyval)) : option string :=
         match d with
         | [] => None
         | (_, x) :: d' =>
             match unserialisable x with Some t => Some t | None => go d' end
         end) d
  | _ => None
  end.

End Py.

(** ** What the server takes from the interpreter and its libraries *)

Module Runtime.
Import Py.

(** The dispatcher calls into the Python runtime, [json] and [pydantic];
    their behaviour is a parameter of the model.

    - [decode_utf8 b] is [b.decode("utf-8")]; it raises [UnicodeDecodeError];
    - [json_loads s] is [json.loads(s)]; on a text that is not JSON it raises
      the class [JSONDecodeError];
    - [validate_id v] is the validation [pydantic] runs on a value other than
      [None] given for the field [id: Optional[Union[int, str]]] of
      [MCPResponse]; it returns the integer or the string stored, or raises
      [ValidationError];
    - [repr_of v] is [str(v)] for a list, a dict or an object;
    - [frames] is the number of activations of [_handle_tools_call] that may
      still be nested inside a running one before the interpreter raises
      [RecursionError]. *)
Record runtime : Type := {
  decode_utf8 : list Byte.byte → outcome string;
  json_loads : string → outcome pyval;
  validate_id : pyval → outcome (Z + string);
  repr_of : pyval → string;
  frames : nat
}.

(** [str(v)], which is also what an f-string inserts for [{v}]. *)
Definition py_str (rt : runtime) (v : pyval) : string :=
  match v with
  | PNone => "None"
  | PBool true => "True"
  | PBool false => "False"
  | PInt n => pretty n
  | PFloat r => r
  | PStr s => s
  | PList _ | PDict _ | PObj _ => repr_of rt v
  end.

Definition id_value (v : Z + string) : pyval :=
  match v with inl n => PInt n | inr s => PStr s end.

Definition is_JSONDecodeError (e : exn) : bool :=
  match e with
  | PyException cls _ => bool_decide (cls = "JSONDecodeError")
  | MCPError _ _ => false
  end.

Definition RecursionError : exn :=
  PyException "RecursionError" "maximum recursion depth exceeded".

End Runtime.

(** ** [core/mcp_server.py] *)

Module Server.
Import Py Runtime.

Inductive level : Type := DEBUG | INFO | WARNING | ERROR.

Section server.
(** [W] is the state of everything the core treats as an external
    collaborator: the devices and the controllers that drive them. *)
Context {W : Type}.

(** The server's surroundings: the records written to the [logging]
    module, and the collaborators' state. *)
Record world : Type := World {
  logs : list (level * string);
  ext : W
}.

(** *** Computations that log, change the collaborators and may raise *)

Definition M (A : Type) : Type := world → outcome A * world.

Definition ret {A} (a : A) : M A := λ w, (Returned a, w).

Definition raise {A} (e : exn) : M A := λ w, (Raised e, w).

Definition bind {A B} (m : M A) (k : A → M B) : M B :=
  λ w, match m w with
       | (Returned a, w') => k a w'
       | (Raised e, w') => (Raised e, w')
       end.

(** [try: body / except Exception as e: handler e]; a handler that does not
    apply to [e] re-raises it. *)
Definition try_except {A} (body : M A) (handler : exn → M A) : M A :=
  λ w, match body w with
       | (Returned a, w') => (Returned a, w')
       | (Raised e, w') => handler e w'
       end.

Definition lift {A} (o : outcome A) : M A := λ w, (o, w).

Definition logger (lvl : level) (text : string) : M unit :=
  λ w, (Returned (), {| logs := logs w ++ [(lvl, text)]; ext := ext w |}).

(** A call into a collaborator. *)
Definition external {A} (f : W → outcome A * W) : M A :=
  λ w, let (o, x) := f (ext w) in (o, {| logs := logs w; ext := x |}).

End server.

Arguments world W : clear implicits.
Arguments M W A : clear implicits.

#[global] Instance M_ret {W} : MRet (M W) := λ A, ret.
#[global] Instance M_bind {W} : MBind (M W) := λ A B k m, bind m k.

Section tools.
Context {W : Type}.

(** *** Tools *)

(** What can stand as the [handler] of a tool: the two bound methods of the
    server itself, a function ([def]) of a collaborator, or a coroutine
    function ([async def]) of one. *)
Inductive callable : Type :=
  | tools_list_method
  | tools_call_method
  | Def (f : pyval → W → outcome pyval * W)
  | AsyncDef (f : pyval → W → outcome pyval * W).

Record MCPTool : Type := {
  name : string;
  description : string;
  handler : callable;
  input_schema : pyval;
  annotations : pyval
}.

(** [MCPTool.__init__]: a missing (or empty) schema or annotation becomes
    the empty dict. *)
Definition MCPTool_init (name description : string) (handler : callable)
    (input_schema annotations : pyval) : MCPTool :=
  {| name := name;
     description := description;
     handler := handler;
     input_schema := if truthy input_schema then input_schema else PDict [];
     annotations := if truthy annotations then annotations else PDict [] |}.

(** *** Responses *)

Record MCPResponse : Type := {
  jsonrpc : string;
  id : pyval;
  result : pyval;
  error : pyval
}.

(** Building an [MCPResponse] validates its fields; [result] is [Any],
    [error] is given a dict here, [None] passes for an [Optional] field. *)
Definition MCPResponse_init (rt : runtime) (id result error : pyval)
  : M W MCPResponse :=
  id' ← match id with
        | PNone => mret PNone
        | _ => v ← lift (validate_id rt id); mret (id_value v)
        end;
  ret {| jsonrpc := "2.0"; id := id'; result := result; error := error |}.

Definition field (k : string) (v : pyval) : list (string * pyval) :=
  match v with PNone => [] | _ => [(k, v)] end.

(** [response.dict(exclude_none=True)]: the fields in declaration order,
    without those that hold [None].  The values of the fields are the
    [pyval]s as they stand: what the library converts on the way is
    already kept in its converted form (see [pyval]). *)
Definition dict_exclude_none (r : MCPResponse) : pyval :=
  PDict ([("jsonrpc", PStr (jsonrpc r))]
         ++ field "id" (id r) ++ field "result" (result r)
         ++ field "error" (error r)).

(** [json.dumps(v)].  The text written is kept as the document [v] it
    denotes. *)
Definition json_dumps (v : pyval) : M W pyval :=
  match unserialisable v with
  | Some t =>
      raise (PyException "TypeError"
               ("Object of type " +:+ t +:+ " is not JSON serializable"))
  | None => ret v
  end.

Record Response : Type := {
  content : pyval;
  media_type : string
}.

Definition _create_success_response (rt : runtime) (request_id result : pyval)
  : M W Response :=
  response ← MCPResponse_init rt request_id result PNone;
  content ← json_dumps (dict_exclude_none response);
  ret {| content := content; media_type := "application/json" |}.

Definition _create_error_response (rt : runtime) (request_id : pyval)
    (message : string) (code : Z) : M W Response :=
  response ← MCPResponse_init rt request_id PNone
               (PDict [("code", PInt code); ("message", PStr message)]);
  content ← json_dumps (dict_exclude_none response);
  ret {| content := content; media_type := "application/json" |}.

End tools.

Arguments callable W : clear implicits.
Arguments MCPTool W : clear implicits.

Section dispatcher.
Context {W : Type}.
Variable rt : runtime.

(** *** The registry *)

(** [self.tools], a dict in insertion order. *)
Abbreviation registry := (list (string * MCPTool W)).

(** [register_core_tools]: the two meta-tools, stored under their full
    method names. *)
Definition register_core_tools (tools : registry) : registry :=
  let tools :=
    od_set tools "tools/list"
      (MCPTool_init "list" "列出所有可用工具" tools_list_method PNone PNone) in
  od_set tools "tools/call"
    (MCPTool_init "call" "调用指定工具" tools_call_method
       (PDict [("type", PStr "object");
               ("properties",
                PDict [("name",
                        PDict [("type", PStr "string");
                               ("description", PStr "工具名称")]);
                       ("parameters",
                        PDict [("type", PStr "object");
                               ("description", PStr "工具参数")])]);
               ("required", PList [PStr "name"])])
       PNone).

(** [register_tool]. *)
Definition register_tool (tools : registry) (tool : MCPTool W)
  : M W registry :=
  logger INFO ("注册MCP工具: " +:+ name tool);;
  let name := "tools/" +:+ name tool in
  mret (od_set tools name tool).

(** [method not in self.tools]: a list or a dict cannot be hashed; any
    other value that is not a string equals no key. *)
Definition registry_contains (tools : registry) (method : pyval)
  : outcome bool :=
  match method with
  | PStr s => Returned (od_mem tools s)
  | PList _ | PDict _ =>
      Raised (PyException "TypeError"
                ("unhashable type: '" +:+ type_name_of method +:+ "'"))
  | _ => Returned false
  end.

(** [self.tools[method]]. *)
Definition registry_item (tools : registry) (method : pyval)
  : outcome (MCPTool W) :=
  match method with
  | PStr s =>
      match od_get tools s with
      | Some tool => Returned tool
      | None => Raised (PyException "KeyError" ("'" +:+ s +:+ "'"))
      end
  | _ => Raised (PyException "KeyError" (py_str rt method))
  end.

(** *** The meta-tools *)

Definition tool_entry (tool : MCPTool W) : pyval :=
  PDict [("name", PStr (name tool));
         ("description", PStr (description tool));
         ("inputSchema", input_schema tool);
         ("annotations", annotations tool)].

Definition listed (key : string) : bool :=
  String.prefix "tools/" key
  && negb (bool_decide (key = "tools/list"))
  && negb (bool_decide (key = "tools/call")).

(** [_handle_tools_list]. *)
Definition _handle_tools_list (tools : registry) (params : pyval) : pyval :=
  let tools_list :=
    flat_map (λ '(name, tool), if listed name then [tool_entry tool] else [])
      tools in
  PDict [("tools", PList tools_list)].

(** [_handle_tools_call].  The handler found is called as
    [tool.handler(tool_params)]: a function runs, a coroutine function only
    makes its coroutine object.  [n] bounds the activations of this method
    nested inside this one. *)
Fixpoint _handle_tools_call (tools : registry) (n : nat) (params : pyval)
  : M W pyval :=
  tool_name ← lift (py_get params "name" PNone);
  tool_params ← lift (py_get params "parameters" (PDict []));
  let full_tool_name := "tools/" +:+ py_str rt tool_name in
  match od_get tools full_tool_name with
  | None => raise (MCPError ("工具未找到: " +:+ py_str rt tool_name) (-32601))
  | Some tool =>
      try_except
        (result ← match handler tool with
                  | Def f => external (f tool_params)
                  | AsyncDef f => mret (PObj "coroutine")
                  | tools_list_method =>
                      mret (_handle_tools_list tools tool_params)
                  | tools_call_method =>
                      match n with
                      | O => raise RecursionError
                      | S n' => _handle_tools_call tools n' tool_params
                      end
                  end;
         mret (PDict [("result", result)]))
        (λ e,
           logger ERROR ("调用工具 '" +:+ py_str rt tool_name
                         +:+ "' 时发生错误: " +:+ exn_str e);;
           raise (MCPError ("工具调用失败: " +:+ exn_str e)
                    MCPError_default_code))
  end.

(** [_call_handler]: [await handler(params)] for a coroutine function, which
    runs it to completion; [handler(params)] otherwise. *)
Definition _call_handler (tools : registry) (handler : callable W)
    (params : pyval) : M W pyval :=
  match handler with
  | AsyncDef f => external (f params)
  | Def f => external (f params)
  | tools_list_method => mret (_handle_tools_list tools params)
  | tools_call_method => _handle_tools_call tools (frames rt) params
  end.

(** *** Requests *)

(** The test that opens [_handle_single_request]:
    [not isinstance(data, dict) or data.get("jsonrpc") != "2.0" or
    "method" not in data]. *)
Definition invalid_request (data : pyval) : bool :=
  match data with
  | PDict d =>
      negb (eq_str (default PNone (od_get d "jsonrpc")) "2.0")
      || negb (od_mem d "method")
  | _ => true
  end.

(** [_handle_single_request]. *)
Definition _handle_single_request (tools : registry) (data : pyval)
  : M W Response :=
  if invalid_request data then
    request_id ← lift (py_get data "id" PNone);
    _create_error_response rt request_id "无效的请求" (-32600)
  else
    request_id ← lift (py_get data "id" PNone);
    method ← lift (py_get data "method" PNone);
    params ← lift (py_get data "params" (PDict []));
    found ← lift (registry_contains tools method);
    if negb found then
      _create_error_response rt request_id
        ("方法未找到: " +:+ py_str rt method) (-32601)
    else
      try_except
        (tool ← lift (registry_item tools method);
         result ← _call_handler tools (handler tool) params;
         _create_success_response rt request_id result)
        (λ e,
           match e with
           | MCPError message code =>
               logger WARNING ("处理请求 '" +:+ py_str rt method
                               +:+ "' 时发生MCP错误: " +:+ message
                               +:+ " (代码: " +:+ pretty code +:+ ")");;
               _create_error_response rt request_id message code
           | PyException _ _ =>
               logger ERROR ("处理请求 '" +:+ py_str rt method
                             +:+ "' 时发生错误: " +:+ exn_str e);;
               _create_error_response rt request_id
                 ("服务器内部错误: " +:+ exn_str e) (-32603)
           end).

(** [_handle_batch_request]. *)
Definition _handle_batch_request (batch : pyval) : M W Response :=
  _create_error_response rt PNone "不支持批量请求" (-32600).

(** The request id the two [except] clauses of [handle_jsonrpc] report:
    [None if data is None else (data.get("id") if isinstance(data, dict)
    else None)]. *)
Definition reported_id (data : option pyval) : pyval :=
  match data with
  | Some (PDict d) => default PNone (od_get d "id")
  | _ => PNone
  end.

Definition top_level_except (data : option pyval) (e : exn) : M W Response :=
  match e with
  | MCPError message code =>
      logger WARNING ("MCP错误: " +:+ message
                      +:+ " (代码: " +:+ pretty code +:+ ")");;
      _create_error_response rt (reported_id data) message code
  | PyException _ _ =>
      logger ERROR ("处理JSON-RPC请求时发生未捕获的异常: " +:+ exn_str e);;
      _create_error_response rt (reported_id data) "Internal error" (-32603)
  end.

(** [handle_jsonrpc], from the body of the HTTP request.  [data] is [None]
    until [json.loads] has returned; the outer [except] clauses see the
    value it has when the exception reaches them. *)
Definition handle_jsonrpc (tools : registry) (body : list Byte.byte)
  : M W Response :=
  match body with
  | [] =>
      try_except (_create_error_response rt PNone "无效的空请求" (-32600))
        (top_level_except None)
  | _ =>
      λ w,
        match (text ← lift (decode_utf8 rt body);
               lift (json_loads rt text) : M W pyval) w with
        | (Raised e, w') =>
            if is_JSONDecodeError e then
              try_except (_create_error_response rt PNone "无效的JSON" (-32700))
                (top_level_except None) w'
            else top_level_except None e w'
        | (Returned data, w') =>
            try_except
              (if isinstance_list data then _handle_batch_request data
               else _handle_single_request tools data)
              (top_level_except (Some data)) w'
        end
  end.

End dispatcher.

(** *** Exceptions that are not derived from [Exception] *)

Section endings.
Context {W : Type}.

(** How [cleanup] and the calls it makes can end: as any computation of
    the server does, or with an exception that derives from
    [BaseException] and not from [Exception] ([KeyboardInterrupt],
    [SystemExit], ...), kept with the name of its class and its text: the
    clause [except Exception] does not catch it. *)
Inductive ending (A : Type) : Type :=
  | Ended (o : outcome A)
  | Escaped (cls : string) (detail : string).
Arguments Ended {A} o.
Arguments Escaped {A} cls detail.

Definition L (A : Type) : Type := world W → ending A * world W.

Definition L_ret {A} (a : A) : L A := λ w, (Ended (Returned a), w).

Definition L_bind {A B} (m : L A) (k : A → L B) : L B :=
  λ w, match m w with
       | (Ended (Returned a), w') => k a w'
       | (Ended (Raised e), w') => (Ended (Raised e), w')
       | (Escaped cls detail, w') => (Escaped cls detail, w')
       end.

(** A computation of the server. *)
Definition of_M {A} (m : M W A) : L A :=
  λ w, let (o, w') := m w in (Ended o, w').

(** [try: body / except Exception as e: handler e]. *)
Definition except_Exception {A} (body : L A) (handler : exn → L A) : L A :=
  λ w, match body w with
       | (Ended (Raised e), w') => handler e w'
       | r => r
       end.

(** A call into a collaborator, and a call that only reads its state. *)
Definition invoke {A} (f : W → ending A * W) : L A :=
  λ w, let (o, x) := f (ext w) in (o, {| logs := logs w; ext := x |}).

Definition inspect {A} (f : W → ending A) : L A := λ w, (f (ext w), w).

Fixpoint for_each {A} (l : list A) (body : A → L unit) : L unit :=
  match l with
  | [] => L_ret ()
  | a :: l' => L_bind (body a) (λ _, for_each l' body)
  end.

End endings.

Arguments ending A : clear implicits.
Arguments Ended {A} o.
Arguments Escaped {A} cls detail.
Arguments L W A : clear implicits.

#[global] Instance L_mret {W} : MRet (L W) := λ A, L_ret.
#[global] Instance L_mbind {W} : MBind (L W) := λ A B k m, L_bind m k.

Section lifecycle.
Context {W : Type}.

(** *** Tracked resources *)

(** The attribute [cleanup] of a tracked controller, as [hasattr] and
    [callable] see it. *)
Inductive attribute : Type :=
  | absent
  | not_callable
  | bound_method (f : W → ending () * W).

(** A controller is an object: [oid] is its identity, which is what [in]
    compares for a class without [__eq__]. *)
Record controller : Type := {
  oid : nat;
  class_name : string;
  cleanup_attr : attribute
}.

(** What [register_thread] was given, a thread or any other object:
    [thread_name] is what reading [thread.name] gives, [is_alive] what the
    call [thread.is_alive()] gives in a state of the collaborators. *)
Record thread : Type := {
  thread_id : nat;
  thread_name : outcome string;
  is_alive : W → ending bool
}.

Record resources : Type := {
  running_threads : list thread;
  controllers : list controller
}.

(** [register_controller]. *)
Definition register_controller (res : resources) (c : controller)
  : resources :=
  if existsb (λ c', Nat.eqb (oid c') (oid c)) (controllers res) then res
  else {| running_threads := running_threads res;
          controllers := controllers res ++ [c] |}.

(** [register_thread]. *)
Definition register_thread (res : resources) (t : thread) : resources :=
  if existsb (λ t', Nat.eqb (thread_id t') (thread_id t)) (running_threads res)
  then res
  else {| running_threads := running_threads res ++ [t];
          controllers := controllers res |}.

(** The body of the loop over the tracked threads: [thread.is_alive()] is
    called before the [try]; a thread cannot be stopped from outside, the
    attempt is only logged. *)
Definition stop_thread (thread : thread) : L W () :=
  alive ← inspect (is_alive thread);
  if alive : bool then
    except_Exception
      (name ← of_M (lift (thread_name thread));
       of_M (logger DEBUG ("停止线程: " +:+ name)))
      (λ e, of_M (logger ERROR ("停止线程失败: " +:+ exn_str e)))
  else mret ().

(** The body of the loop over the tracked controllers. *)
Definition clean_controller (controller : controller) : L W () :=
  except_Exception
    (of_M (logger DEBUG ("清理控制器: " +:+ class_name controller));;
     match cleanup_attr controller with
     | bound_method f => invoke f
     | absent | not_callable => mret ()
     end)
    (λ e, of_M (logger ERROR ("清理控制器失败: " +:+ exn_str e))).

(** [cleanup]. *)
Definition cleanup (res : resources) : L W () :=
  of_M (logger INFO "清理资源...");;
  for_each (running_threads res) stop_thread;;
  for_each (controllers res) clean_controller;;
  of_M (logger INFO "资源清理完成").

(** [_handle_signal], installed for [SIGTERM] and [SIGINT]. *)
Definition _handle_signal (res : resources) (signum : Z) : L W () :=
  of_M (logger INFO ("收到信号 " +:+ pretty signum +:+ "，准备清理资源并退出"));;
  cleanup res.

(** *** The server object *)

Record MCPServer : Type := {
  tools : list (string * MCPTool W);
  server_resources : resources
}.

(** [MCPServer.__init__]: the core tools are registered in an empty
    registry, nothing is tracked yet. *)
Definition MCPServer_init : MCPServer :=
  {| tools := register_core_tools [];
     server_resources := {| running_threads := []; controllers := [] |} |}.

End lifecycle.

Arguments controller W : clear implicits.
Arguments thread W : clear implicits.
Arguments resources W : clear implicits.
Arguments attribute W : clear implicits.
Arguments MCPServer W : clear implicits.

End Server.

(** ** [tools/android_tools.py]: schema inference *)

Module Schema.
Import Py.

(** *** The string methods used on docstrings *)

(** [str.strip] removes the characters for which [str.isspace] holds.  On
    the UTF-8 bytes these are the ASCII ones (U+0009..U+000D,
    U+001C..U+0020) and the encodings of U+0085, U+00A0 (two bytes) and of
    U+1680, U+2000..U+200A, U+2028, U+2029, U+202F, U+205F, U+3000 (three
    bytes). *)
Definition space1 (a : ascii) : bool :=
  let n := nat_of_ascii a in
  (Nat.leb 9 n && Nat.leb n 13) || (Nat.leb 28 n && Nat.leb n 32).

Definition space2 (a b : ascii) : bool :=
  Nat.eqb (nat_of_ascii a) 194
  && (Nat.eqb (nat_of_ascii b) 133 || Nat.eqb (nat_of_ascii b) 160).

Definition space3 (a b c : ascii) : bool :=
  let '(x, y, z) := (nat_of_ascii a, nat_of_ascii b, nat_of_ascii c) in
  (Nat.eqb x 225 && Nat.eqb y 154 && Nat.eqb z 128)
  || (Nat.eqb x 226 && Nat.eqb y 128
      && ((Nat.leb 128 z && Nat.leb z 138)
          || Nat.eqb z 168 || Nat.eqb z 169 || Nat.eqb z 175))
  || (Nat.eqb x 226 && Nat.eqb y 129 && Nat.eqb z 159)
  || (Nat.eqb x 227 && Nat.eqb y 128 && Nat.eqb z 128).

(** Dropping the white space in front; with [back] the bytes come in
    reverse order, as when the end of a string is read backwards. *)
Fixpoint drop_space (back : bool) (s : string) : string :=
  match s with
  | "" => ""
  | String a s1 =>
      if space1 a then drop_space back s1
      else
        match s1 with
        | String b s2 =>
            if (if back then space2 b a else space2 a b) then
              drop_space back s2
            else
              match s2 with
              | String c s3 =>
                  if (if back then space3 c b a else space3 a b c) then
                    drop_space back s3
                  else s
              | "" => s
              end
        | "" => s
        end
  end.

Definition lstrip (s : string) : string := drop_space false s.

Definition rstrip (s : string) : string :=
  String.rev (drop_space true (String.rev s)).

Definition strip (s : string) : string := rstrip (lstrip s).

Definition newline : ascii := ascii_of_nat 10.

(** [s.split("\n")]. *)
Fixpoint split_lines (s : string) : list string :=
  match s with
  | "" => [""]
  | String a s' =>
      if Ascii.eqb a newline then "" :: split_lines s'
      else
        match split_lines s' with
        | line :: rest => String a line :: rest
        | [] => [String a ""]
        end
  end.

(** [s.split(":", 1)[1]]: what follows the first colon. *)
Fixpoint after_colon (s : string) : outcome string :=
  match s with
  | "" => Raised (PyException "IndexError" "list index out of range")
  | String a s' => if Ascii.eqb a ":"%char then Returned s' else after_colon s'
  end.

Definition startswith (s p : string) : bool := String.prefix p s.

(** *** Signatures *)

(** The annotations [_build_input_schema] tells apart: none, the four
    primitive types, [typing.List[...]] of an annotation, anything else. *)
Inductive annotation : Type :=
  | ann_empty
  | ann_str
  | ann_int
  | ann_float
  | ann_bool
  | ann_List (item : annotation)
  | ann_other (text : string).

(** A parameter of [inspect.signature(method)]; [default] is [None] for
    [inspect.Parameter.empty]. *)
Record parameter : Type := {
  param_name : string;
  param_annotation : annotation;
  param_default : option pyval
}.

Record method : Type := {
  parameters : list parameter;
  method_doc : option string
}.

(** The chain of comparisons on [param.annotation]: the JSON type and, for
    an array, the type of its items. *)
Definition param_type (a : annotation) : string * option string :=
  match a with
  | ann_empty => ("string", None)
  | ann_str => ("string", None)
  | ann_int => ("integer", None)
  | ann_float => ("number", None)
  | ann_bool => ("boolean", None)
  | ann_List ann_str => ("array", Some "string")
  | ann_List ann_int => ("array", Some "integer")
  | _ => ("string", None)
  end.

(** The loop over the lines of the docstring, left at the first line that
    starts with the parameter's name and a colon. *)
Fixpoint find_description (param_name : string) (lines : list string)
  : outcome (option string) :=
  match lines with
  | [] => Returned None
  | line :: rest =>
      let line := strip line in
      if startswith line (param_name +:+ ":") then
        match after_colon line with
        | Returned text => Returned (Some (strip text))
        | Raised e => Raised e
        end
      else find_description param_name rest
  end.

Definition doc_lines (doc : option string) : list string :=
  match doc with
  | Some d => if bool_decide (d = "") then [] else split_lines (strip d)
  | None => []
  end.

Definition param_property (m : method) (p : parameter) : outcome pyval :=
  let '(param_type, item_type) := param_type (param_annotation p) in
  let param_property := [("type", PStr param_type)] in
  let param_property :=
    match item_type with
    | Some t => od_set param_property "items" (PDict [("type", PStr t)])
    | None => param_property
    end in
  match find_description (param_name p) (doc_lines (method_doc m)) with
  | Returned (Some text) =>
      Returned (PDict (od_set param_property "description" (PStr text)))
  | Returned None => Returned (PDict param_property)
  | Raised e => Raised e
  end.

Definition skipped (p : parameter) : bool :=
  bool_decide (param_name p = "self") || bool_decide (param_name p = "params").

(** The loop over [sig.parameters]. *)
Fixpoint build_loop (m : method) (params : list parameter)
    (properties : list (string * pyval)) (required : list string)
  : outcome (list (string * pyval) * list string) :=
  match params with
  | [] => Returned (properties, required)
  | p :: rest =>
      if skipped p then build_loop m rest properties required
      else
        match param_property m p with
        | Raised e => Raised e
        | Returned prop =>
            build_loop m rest (od_set properties (param_name p) prop)
              (match param_default p with
               | None => required ++ [param_name p]
               | Some _ => required
               end)
        end
  end.

(** [_build_input_schema]. *)
Definition _build_input_schema (m : method) : outcome pyval :=
  match build_loop m (parameters m) [] [] with
  | Raised e => Raised e
  | Returned (properties, required) =>
      let schema := [("type", PStr "object");
                     ("properties", PDict properties)] in
      Returned
        (PDict (match required with
                | [] => schema
                | _ => od_set schema "required" (PList (PStr <$> required))
                end))
  end.

End Schema.

(** ** [core/multi_device_controller.py]: signals and the blackboard *)

Module Coordinator.
Import Py.

(** The two substructures of [MultiDeviceController] modelled here.
    [sync_locks] maps a name to a [threading.Event] object; the objects
    live in [events], an object's address is its index and its flag is the
    entry.  [shared_data] is the blackboard.

    Every call below runs alone from start to end: the map is read and
    written under [_sync_locks_lock] (or [_shared_data_lock]), and a wait on
    an event that is unset when the wait begins meets no [set] before its
    timeout. *)
Record state : Type := {
  sync_locks : gmap string nat;
  events : list bool;
  shared_data : gmap string pyval
}.

(** The maps as [MultiDeviceController.__init__] leaves them. *)
Definition init : state :=
  {| sync_locks := ∅; events := []; shared_data := ∅ |}.

Definition reply (success : bool) (message : string) : pyval :=
  PDict [("success", PBool success); ("message", PStr message)].

(** An optional string argument that passes the test [if not x: return
    ...]: it is neither [None] nor empty. *)
Definition given (x : option string) : option string :=
  match x with
  | Some s => if bool_decide (s = "") then None else Some s
  | None => None
  end.

(** [self.sync_locks[lock_name] = threading.Event()]. *)
Definition new_event (lock_name : string) (st : state) : state :=
  {| sync_locks := <[lock_name := length (events st)]> (sync_locks st);
     events := events st ++ [false];
     shared_data := shared_data st |}.

(** [if lock_name not in self.sync_locks: ... = threading.Event()], then
    [lock_obj = self.sync_locks[lock_name]]. *)
Definition lock_object (lock_name : string) (st : state) : nat * state :=
  match sync_locks st !! lock_name with
  | Some lock_obj => (lock_obj, st)
  | None => (length (events st), new_event lock_name st)
  end.

Definition write_flag (lock_obj : nat) (flag : bool) (st : state) : state :=
  {| sync_locks := sync_locks st;
     events := <[lock_obj := flag]> (events st);
     shared_data := shared_data st |}.

Definition is_set (lock_obj : nat) (st : state) : bool :=
  default false (events st !! lock_obj).

(** [sync_operations]. *)
Definition sync_operations (action : string) (lock_name : option string)
    (timeout : Z) (st : state) : pyval * state :=
  match given lock_name with
  | None => (reply false "未指定锁名称", st)
  | Some lock_name =>
      if bool_decide (action = "create") then
        (reply true ("已创建锁 " +:+ lock_name), new_event lock_name st)
      else if bool_decide (action = "wait") then
        let '(lock_obj, st) := lock_object lock_name st in
        if is_set lock_obj st then
          (reply true ("锁 " +:+ lock_name +:+ " 已触发"), st)
        else (reply false ("等待锁 " +:+ lock_name +:+ " 超时"), st)
      else if bool_decide (action = "set") then
        let '(lock_obj, st) := lock_object lock_name st in
        (reply true ("已设置锁 " +:+ lock_name), write_flag lock_obj true st)
      else if bool_decide (action = "release") then
        match sync_locks st !! lock_name with
        | Some lock_obj =>
            (reply true ("已释放锁 " +:+ lock_name),
             write_flag lock_obj false st)
        | None => (reply false ("锁 " +:+ lock_name +:+ " 不存在"), st)
        end
      else (reply false ("不支持的操作类型: " +:+ action), st)
  end.

Section blackboard.
(** The transfer of a file between two connected devices, through [adb]:
    the part of [copy_file] that follows the checks on its arguments. *)
Variable adb_copy : string → string → string → pyval.

(** [share_between_devices].  The [try] around the body catches nothing in
    the two blackboard actions: a string key can always be hashed. *)
Definition share_between_devices (action : string)
    (source_device target_device local_path device_path data_key
       : option string)
    (data_value : pyval) (st : state) : pyval * state :=
  if bool_decide (action = "copy_file") then
    match given source_device with
    | None => (reply false "未指定源设备ID", st)
    | Some source_device =>
        match given target_device with
        | None => (reply false "未指定目标设备ID", st)
        | Some target_device =>
            match given device_path with
            | None => (reply false "未指定设备文件路径", st)
            | Some device_path =>
                (adb_copy source_device target_device device_path, st)
            end
        end
    end
  else if bool_decide (action = "share_data") then
    match given data_key with
    | None => (reply false "未指定数据键", st)
    | Some data_key =>
        match data_value with
        | PNone => (reply false "未指定数据值", st)
        | _ =>
            (reply true ("数据已共享，键: " +:+ data_key),
             {| sync_locks := sync_locks st;
                events := events st;
                shared_data := <[data_key := data_value]> (shared_data st) |})
        end
    end
  else if bool_decide (action = "get_data") then
    match given data_key with
    | None => (reply false "未指定数据键", st)
    | Some data_key =>
        match shared_data st !! data_key with
        | None => (reply false ("共享数据中不存在键: " +:+ data_key), st)
        | Some value => (PDict [("success", PBool true); ("data", value)], st)
        end
    end
  else (reply false ("不支持的操作类型: " +:+ action), st).

End blackboard.

(** The [success] entry of a reply. *)
Definition success_of (r : pyval) : bool :=
  match r with
  | PDict d =>
      match od_get d "success" with Some (PBool b) => b | _ => false end
  | _ => false
  end.

Definition data_of (r : pyval) : option pyval :=
  match r with PDict d => od_get d "data" | _ => None end.

Definition message_of (r : pyval) : option string :=
  match r with
  | PDict d => match od_get d "message" with Some (PStr s) => Some s | _ => None end
  | _ => None
  end.

End Coordinator.

(** ** [tools/android_tools.py]: the tools of the service *)

Module Tools.
Import Py Server Schema.

(** [sub in s] for two strings. *)
Fixpoint contains (s sub : string) : bool :=
  startswith s sub
  || match s with
     | "" => false
     | String _ s' => contains s' sub
     end.

(** [s[n:]]. *)
Fixpoint slice_from (n : nat) (s : string) : string :=
  match n, s with
  | O, _ => s
  | S n', String _ s' => slice_from n' s'
  | S _, "" => ""
  end.

(** [docstring.strip().split("\n")[0] if docstring else ""], where
    [docstring] is [method.__doc__ or ""]. *)
Definition description_of (doc : option string) : string :=
  let docstring := default "" doc in
  if bool_decide (docstring = "") then ""
  else hd "" (split_lines (strip docstring)).

(** The hints read off the description. *)
Definition annotations_of (description : string) : list (string * pyval) :=
  let annotations := [] in
  if contains description "获取" || contains description "查询"
     || contains description "列出"
  then od_set annotations "readOnlyHint" (PBool true)
  else if contains description "删除" || contains description "卸载"
          || contains description "清除"
  then od_set annotations "destructiveHint" (PBool true)
  else annotations.

Section tools.
Context {W : Type}.

(** A bound method of the [AndroidTools] object, as [inspect.getmembers]
    lists it: its name, its signature and docstring, what a call of it
    does, and whether it is a coroutine function. *)
Record member : Type := {
  member_name : string;
  member_method : method;
  member_call : pyval → W → outcome pyval * W;
  member_async : bool
}.

(** The method as the server sees it once it is a handler. *)
Definition handler_of (m : member) : callable W :=
  if member_async m then AsyncDef (member_call m) else Def (member_call m).

(** The object: its five controllers and its bound methods, in the order
    of [inspect.getmembers]. *)
Record AndroidTools : Type := {
  device_controller : controller W;
  app_controller : controller W;
  system_controller : controller W;
  advanced_controller : controller W;
  multi_device_controller : controller W;
  members : list member
}.

(** The loop of [create_tools] over the members. *)
Fixpoint create_loop (ms : list member) (tools : list (MCPTool W))
  : outcome (list (MCPTool W)) :=
  match ms with
  | [] => Returned tools
  | m :: rest =>
      if startswith (member_name m) "tool_" then
        let tool_name := slice_from 5 (member_name m) in
        let description := description_of (method_doc (member_method m)) in
        match _build_input_schema (member_method m) with
        | Raised e => Raised e
        | Returned input_schema =>
            let tool :=
              MCPTool_init tool_name description (handler_of m) input_schema
                (PDict (annotations_of description)) in
            create_loop rest (tools ++ [tool])
        end
      else create_loop rest tools
  end.

(** [create_tools]. *)
Definition create_tools (self : AndroidTools) : outcome (list (MCPTool W)) :=
  create_loop (members self) [].

(** The loop [for tool in ...: server.register_tool(tool)]. *)
Fixpoint register_all (registry : list (string * MCPTool W))
    (new : list (MCPTool W)) : M W (list (string * MCPTool W)) :=
  match new with
  | [] => mret registry
  | tool :: rest =>
      registry ← register_tool registry tool;
      register_all registry rest
  end.

(** [register_android_tools].  [AndroidTools(adb_path, device_id)] runs
    the constructors of the five controllers, of which that of
    [AdvancedController] connects to the device through [airtest]: the
    construction is a call into the collaborators, which gives the object
    or raises.  Then the five controllers are tracked for the clean-up and
    every tool is registered. *)
Definition register_android_tools (server : MCPServer W)
    (AndroidTools_init : W → outcome AndroidTools * W)
  : M W (MCPServer W) :=
  android_tools ← external AndroidTools_init;
  let resources :=
    foldl register_controller (server_resources server)
      [device_controller android_tools; app_controller android_tools;
       system_controller android_tools; advanced_controller android_tools;
       multi_device_controller android_tools] in
  new ← lift (create_tools android_tools);
  registry ← register_all (Server.tools server) new;
  mret {| Server.tools := registry; server_resources := resources |}.

End tools.

Arguments member W : clear implicits.
Arguments AndroidTools W : clear implicits.

End Tools.

(** ** [core/multi_device_controller.py]: mailboxes and device groups *)

Module Fleet.
Import Py Schema Coordinator.

Definition tab : ascii := ascii_of_nat 9.

(** [s.split(sep)] for a separator of one character. *)
Fixpoint split_on (sep : ascii) (s : string) : list string :=
  match s with
  | "" => [""]
  | String a s' =>
      if Ascii.eqb a sep then "" :: split_on sep s'
      else
        match split_on sep s' with
        | part :: rest => String a part :: rest
        | [] => [String a ""]
        end
  end.

Record device : Type := {
  serial : string;
  status : string
}.

(** The body of the loop of [_list_all_devices] over the lines that follow
    the header. *)
Definition device_of_line (line : string) : list device :=
  if bool_decide (strip line = "") then []
  else
    match split_on tab (strip line) with
    | serial :: status :: _ => [{| serial := serial; status := status |}]
    | _ => []
    end.

(** What [_list_all_devices] makes of the output of [adb devices]. *)
Definition parse_devices (stdout : string) : list device :=
  let lines := split_lines (strip stdout) in
  if Nat.leb (length lines) 1 then []
  else flat_map device_of_line (drop 1 lines).

(** [del d[k]] for a key that is present. *)
Fixpoint od_del {V} (d : list (string * V)) (k : string)
  : list (string * V) :=
  match d with
  | [] => []
  | (k', v) :: d' => if decide (k' = k) then d' else (k', v) :: od_del d' k
  end.

(** The two other substructures of [MultiDeviceController]:
    [device_groups], a dict in insertion order, and [message_queues], one
    unbounded FIFO queue of message dicts per device.  As for the signals,
    every call runs alone from start to end. *)
Record state : Type := {
  device_groups : list (string * list string);
  message_queues : gmap string (list pyval)
}.

Definition init : state := {| device_groups := []; message_queues := ∅ |}.

Definition with_queues (st : state) (mq : gmap string (list pyval)) : state :=
  {| device_groups := device_groups st; message_queues := mq |}.

Definition with_groups (st : state) (g : list (string * list string)) : state :=
  {| device_groups := g; message_queues := message_queues st |}.

(** [if device_id not in self.message_queues:
    self.message_queues[device_id] = queue.Queue()]. *)
Definition ensure_queue (device_id : string) (st : state) : state :=
  match message_queues st !! device_id with
  | Some _ => st
  | None => with_queues st (<[device_id := []]> (message_queues st))
  end.

Section controller.
Context {W : Type}.
(** [self.device_id]. *)
Variable self_device_id : option string.
(** [run_adb_cmd]: the command, the device, and what the subprocess gives
    back (output, error output, return code); it raises nothing. *)
Variable run_adb_cmd : string → option string → W → (string * string * Z) * W.
(** [time.time()], as the text of the float. *)
Variable time : W → string.

(** [_list_all_devices]. *)
Definition _list_all_devices (x : W) : list device * W :=
  let '((stdout, _, _), x) := run_adb_cmd "devices" None x in
  (parse_devices stdout, x).

Definition messages_reply (messages : list pyval) : pyval :=
  PDict [("success", PBool true); ("messages", PList messages)].

(** [device_messaging].  [queue.get(block=True, timeout=timeout)] refuses
    a negative timeout with a [ValueError] before it looks at the queue;
    otherwise it hands out the messages one by one and raises [Empty],
    after the timeout, once none is left. *)
Definition device_messaging (action : string) (device_id message : option string)
    (timeout : Z) (st : state) (x : W) : pyval * state * W :=
  let st :=
    if bool_decide (action = "send") || bool_decide (action = "receive") then
      match given device_id with
      | Some device_id => ensure_queue device_id st
      | None => st
      end
    else st in
  if bool_decide (action = "send") then
    match given device_id with
    | None => (reply false "未指定目标设备ID", st, x)
    | Some device_id =>
        match given message with
        | None => (reply false "消息内容不能为空", st, x)
        | Some message =>
            let '(devices, x) := _list_all_devices x in
            let device_exists :=
              existsb (λ d, bool_decide (serial d = device_id)) devices in
            if negb device_exists then
              (reply false ("设备 " +:+ device_id +:+ " 不存在或未连接"), st, x)
            else
              let st := ensure_queue device_id st in
              let msg :=
                PDict [("timestamp", PFloat (time x));
                       ("sender", PStr (default "unknown" (given self_device_id)));
                       ("content", PStr message)] in
              (reply true "消息已发送",
               with_queues st
                 (<[device_id :=
                      default [] (message_queues st !! device_id) ++ [msg]]>
                    (message_queues st)),
               x)
        end
    end
  else if bool_decide (action = "receive") then
    match given device_id, given self_device_id with
    | None, None => (reply false "未指定来源设备ID", st, x)
    | Some source_id, _ | None, Some source_id =>
        match message_queues st !! source_id with
        | None =>
            (messages_reply [],
             with_queues st (<[source_id := []]> (message_queues st)), x)
        | Some queue_obj =>
            if (timeout <? 0)%Z then
              (reply false
                 "接收消息失败: 'timeout' must be a non-negative number",
               st, x)
            else
              (messages_reply queue_obj,
               with_queues st (<[source_id := []]> (message_queues st)), x)
        end
    end
  else if bool_decide (action = "clear") then
    match given device_id, given self_device_id with
    | None, None => (reply false "未指定设备ID", st, x)
    | Some target_id, _ | None, Some target_id =>
        match message_queues st !! target_id with
        | Some _ =>
            (reply true "消息已清空",
             with_queues st (<[target_id := []]> (message_queues st)), x)
        | None => (reply true "无消息队列需要清空", st, x)
        end
    end
  else (reply false ("不支持的操作类型: " +:+ action), st, x).

(** The loop of [execute] over the devices of the group. *)
Fixpoint execute_loop (command : string) (device_ids : list string)
    (results : list pyval) (x : W) : list pyval * W :=
  match device_ids with
  | [] => (results, x)
  | device_id :: rest =>
      let '((stdout, stderr, code), x) :=
        run_adb_cmd command (Some device_id) x in
      execute_loop command rest
        (results ++ [PDict [("device_id", PStr device_id);
                            ("success", PBool (code =? 0)%Z);
                            ("output", PStr stdout);
                            ("error", PStr stderr)]])
        x
  end.

Definition group_entry (g : string * list string) : pyval :=
  PDict [("name", PStr g.1); ("device_ids", PList (PStr <$> g.2))].

(** [device_group_actions]; [device_ids] is [None] or a list of
    strings. *)
Definition device_group_actions (action : string) (group_name : option string)
    (device_ids : option (list string)) (command : option string)
    (st : state) (x : W) : pyval * state * W :=
  if bool_decide (action = "create") then
    match given group_name with
    | None => (reply false "未指定组名称", st, x)
    | Some group_name =>
        match device_ids with
        | None | Some [] => (reply false "未指定设备ID列表", st, x)
        | Some device_ids =>
            let '(all_devices, x) := _list_all_devices x in
            let device_serials := serial <$> all_devices in
            match
              List.find (λ device_id,
                           negb (bool_decide (device_id ∈ device_serials)))
                device_ids
            with
            | Some device_id =>
                (reply false ("设备 " +:+ device_id +:+ " 不存在或未连接"),
                 st, x)
            | None =>
                (reply true ("已创建设备组 " +:+ group_name),
                 with_groups st (od_set (device_groups st) group_name device_ids),
                 x)
            end
        end
    end
  else if bool_decide (action = "list") then
    match device_groups st with
    | [] =>
        (PDict [("success", PBool true); ("message", PStr "无设备组");
                ("groups", PList [])], st, x)
    | groups =>
        (PDict [("success", PBool true);
                ("groups", PList (group_entry <$> groups))], st, x)
    end
  else if bool_decide (action = "execute") then
    match given group_name with
    | None => (reply false "未指定组名称", st, x)
    | Some group_name =>
        match given command with
        | None => (reply false "未指定要执行的命令", st, x)
        | Some command =>
            match od_get (device_groups st) group_name with
            | None =>
                (reply false ("设备组 " +:+ group_name +:+ " 不存在"), st, x)
            | Some device_ids =>
                let '(results, x) := execute_loop command device_ids [] x in
                (PDict [("success", PBool true); ("results", PList results)],
                 st, x)
            end
        end
    end
  else if bool_decide (action = "delete") then
    match given group_name with
    | None => (reply false "未指定组名称", st, x)
    | Some group_name =>
        match od_get (device_groups st) group_name with
        | None => (reply false ("设备组 " +:+ group_name +:+ " 不存在"), st, x)
        | Some _ =>
            (reply true ("已删除设备组 " +:+ group_name),
             with_groups st (od_del (device_groups st) group_name), x)
        end
    end
  else (reply false ("不支持的操作类型: " +:+ action), st, x).

End controller.

(** [MultiDeviceController.cleanup]: every event of [sync_locks] is set,
    every queue is emptied; neither loop can raise. *)
Definition cleanup (signals : Coordinator.state) (st : state)
  : Coordinator.state * state :=
  (foldr (λ lock_event signals, write_flag lock_event true signals) signals
     (map_to_list (sync_locks signals)).*2,
   with_queues st ((λ _, []) <$> message_queues st)).

End Fleet.

(** * Vocabulary of the properties *)

Import Py Runtime Server.

(** ** Reading an envelope *)

Definition envelope_field (r : Response) (k : string) : option pyval :=
  match content r with
  | PDict d => od_get d k
  | _ => None
  end.

Definition has_field (r : Response) (k : string) : bool :=
  match envelope_field r k with Some _ => true | None => false end.

Definition error_code (r : Response) : option Z :=
  match envelope_field r "error" with
  | Some (PDict e) =>
      match od_get e "code" with Some (PInt c) => Some c | _ => None end
  | _ => None
  end.

Definition error_message (r : Response) : option string :=
  match envelope_field r "error" with
  | Some (PDict e) =>
      match od_get e "message" with Some (PStr m) => Some m | _ => None end
  | _ => None
  end.

(** The id a client reads: [null] when the envelope has no [id] member. *)
Definition envelope_id (r : Response) : pyval :=
  default PNone (envelope_field r "id").

(** ** The envelopes the server builds *)

(** The request id [id] passes the validation of [MCPResponse], which
    stores [id']. *)
Definition accepted_id (rt : runtime) (id id' : pyval) : Prop :=
  match id with
  | PNone => id' = PNone
  | _ => ∃ v, validate_id rt id = Returned v ∧ id' = id_value v
  end.

Definition error_envelope (id' : pyval) (message : string) (code : Z)
  : Response :=
  {| content :=
       PDict ([("jsonrpc", PStr "2.0")] ++ field "id" id'
              ++ [("error",
                   PDict [("code", PInt code); ("message", PStr message)])]);
     media_type := "application/json" |}.

Definition success_envelope (id' result : pyval) : Response :=
  {| content :=
       PDict ([("jsonrpc", PStr "2.0")] ++ field "id" id'
              ++ field "result" result);
     media_type := "application/json" |}.

(** Every response the server sends is one of the two. *)
Definition is_envelope (r : Response) : Prop :=
  (∃ id' message code, r = error_envelope id' message code)
  ∨ (∃ id' result, r = success_envelope id' result).

(** ** Requests *)

(** A request object. *)
Definition request (id : pyval) (method : string) (params : pyval) : pyval :=
  PDict [("jsonrpc", PStr "2.0"); ("id", id); ("method", PStr method);
         ("params", params)].

(** [data] is a well-formed single request for [method], with the given id
    ([None] when the member is missing) and parameters ([{}] when the member
    is missing). *)
Definition is_request (data id : pyval) (method : string) (params : pyval)
  : Prop :=
  ∃ d, data = PDict d
       ∧ od_get d "jsonrpc" = Some (PStr "2.0")
       ∧ od_get d "method" = Some (PStr method)
       ∧ default PNone (od_get d "id") = id
       ∧ default (PDict []) (od_get d "params") = params.

(** [params] is what [tools/call] expects: it names the tool [nm] and
    carries the parameters [P] ([{}] when the member is missing). *)
Definition names_tool (params : pyval) (nm : string) (P : pyval) : Prop :=
  ∃ p, params = PDict p
       ∧ od_get p "name" = Some (PStr nm)
       ∧ default (PDict []) (od_get p "parameters") = P.

(** ** Tools, worlds and hooks *)

Section vocabulary.
Context {W : Type}.

(** The built-in [tools/call] is in place. *)
Definition meta_call_intact (tools : list (string * MCPTool W)) : Prop :=
  ∃ ct, od_get tools "tools/call" = Some ct
        ∧ handler ct = tools_call_method.

(** The built-in [tools/list] is in place. *)
Definition meta_list_intact (tools : list (string * MCPTool W)) : Prop :=
  ∃ lt, od_get tools "tools/list" = Some lt
        ∧ handler lt = tools_list_method.

(** The handler is the function or coroutine function [f]. *)
Definition runs (tool : MCPTool W) (f : pyval → W → outcome pyval * W)
  : Prop :=
  handler tool = Def f ∨ handler tool = AsyncDef f.

Definition with_ext (w : world W) (x : W) : world W :=
  {| logs := logs w; ext := x |}.

Definition with_log (w : world W) (lvl : level) (text : string) : world W :=
  {| logs := logs w ++ [(lvl, text)]; ext := ext w |}.

(** The two [except] clauses of [_handle_single_request]. *)
Definition single_request_except (rt : runtime) (method : string)
    (request_id : pyval) (e : exn) : M W Response :=
  match e with
  | MCPError message code =>
      logger WARNING ("处理请求 '" +:+ method +:+ "' 时发生MCP错误: "
                      +:+ message +:+ " (代码: " +:+ pretty code +:+ ")");;
      _create_error_response rt request_id message code
  | PyException _ _ =>
      logger ERROR ("处理请求 '" +:+ method +:+ "' 时发生错误: "
                    +:+ exn_str e);;
      _create_error_response rt request_id
        ("服务器内部错误: " +:+ exn_str e) (-32603)
  end.

(** What the clean-up hook of a controller does to the collaborators,
    whether it returns or raises; nothing for a controller without a
    callable [cleanup]. *)
Definition run_hook (x : W) (c : controller W) : W :=
  match cleanup_attr c with
  | bound_method f => (f x).2
  | absent | not_callable => x
  end.

(** The threads and the hooks that [cleanup] can cope with: [is_alive()]
    of every tracked thread returns, and the hook of every tracked
    controller returns or raises an exception derived from [Exception]. *)
Definition threads_answer (res : resources W) : Prop :=
  ∀ t, t ∈ running_threads res → ∀ x, ∃ b, is_alive t x = Ended (Returned b).

Definition hooks_end (res : resources W) : Prop :=
  ∀ c f, c ∈ controllers res → cleanup_attr c = bound_method f →
         ∀ x, ∃ o, (f x).1 = Ended o.

(** [n] invocations in a row. *)
Fixpoint times (n : nat) (m : L W ()) : L W () :=
  match n with
  | O => mret ()
  | S n' => m;; times n' m
  end.

End vocabulary.

(** ** Schemas *)

Module SchemaSpec.
Import Schema.

(** The typing rules of the inferred schema: the JSON type that goes with
    an annotation and, for an array, the type of its items. *)
Inductive schema_rule : annotation → string → option string → Prop :=
  | rule_untyped : schema_rule ann_empty "string" None
  | rule_str : schema_rule ann_str "string" None
  | rule_int : schema_rule ann_int "integer" None
  | rule_float : schema_rule ann_float "number" None
  | rule_bool : schema_rule ann_bool "boolean" None
  | rule_list_str : schema_rule (ann_List ann_str) "array" (Some "string")
  | rule_list_int : schema_rule (ann_List ann_int) "array" (Some "integer").

(** The parameters that the schema must list as required. *)
Definition required_names (params : list parameter) : list string :=
  param_name <$>
    filter (λ p, skipped p = false ∧ param_default p = None) params.

(** A line of the docstring documents the parameter. *)
Definition documented (m : method) (p : parameter) : Prop :=
  ∃ line, line ∈ doc_lines (method_doc m)
          ∧ startswith (strip line) (param_name p +:+ ":") = true.

Definition properties_of (schema : pyval) : list (string * pyval) :=
  match schema with
  | PDict s =>
      match od_get s "properties" with Some (PDict ps) => ps | _ => [] end
  | _ => []
  end.

Definition required_of (schema : pyval) : list pyval :=
  match schema with
  | PDict s => match od_get s "required" with Some (PList l) => l | _ => [] end
  | _ => []
  end.

(** The member [required] of the schema, [None] when the schema has no
    such key. *)
Definition required_key (schema : pyval) : option pyval :=
  match schema with
  | PDict s => od_get s "required"
  | _ => None
  end.

(** What the schema says of one parameter: its type, the [items] of an
    array, and a description exactly when [described] holds. *)
Definition property_reads (prop : pyval) (ty : string) (items : option string)
    (described : Prop) : Prop :=
  ∃ d, prop = PDict d
       ∧ od_get d "type" = Some (PStr ty)
       ∧ od_get d "items" = (λ t, PDict [("type", PStr t)]) <$> items
       ∧ (is_Some (od_get d "description") ↔ described).

(** [def tool(self, package: str, ratios: List[float], retries: int = 3,
    tags: List[str] = [])], with a docstring that documents two of the
    parameters. *)
Definition install_method : method :=
  {| parameters :=
       [ {| param_name := "self"; param_annotation := ann_empty;
            param_default := None |};
         {| param_name := "package"; param_annotation := ann_str;
            param_default := None |};
         {| param_name := "ratios"; param_annotation := ann_List ann_float;
            param_default := None |};
         {| param_name := "retries"; param_annotation := ann_int;
            param_default := Some (PInt 3) |};
         {| param_name := "tags"; param_annotation := ann_List ann_str;
            param_default := Some (PList []) |} ];
     method_doc := Some "
        Install an application

        Args:
            package: name of the package
            tags:  labels to attach
        " |}.

(** [def tool(self, retries: int = 3)]: every parameter has a default. *)
Definition defaults_method : method :=
  {| parameters :=
       [ {| param_name := "self"; param_annotation := ann_empty;
            param_default := None |};
         {| param_name := "retries"; param_annotation := ann_int;
            param_default := Some (PInt 3) |} ];
     method_doc := None |}.

(** One parameter, [ratios: List[float]], no docstring. *)
Definition ratios_method : method :=
  {| parameters :=
       [ {| param_name := "ratios"; param_annotation := ann_List ann_float;
            param_default := None |} ];
     method_doc := None |}.

End SchemaSpec.

(** ** Signals and blackboard *)

Module CoordinatorSpec.
Import Coordinator.

(** Every name maps to an event that exists, and no two names share their
    event: each event is made for one name, by [threading.Event()]. *)
Record wf (st : state) : Prop := {
  wf_bound : ∀ L a, sync_locks st !! L = Some a → a < length (events st);
  wf_inj : ∀ L1 L2 a,
    sync_locks st !! L1 = Some a → sync_locks st !! L2 = Some a → L1 = L2
}.

(** The signal [L] is set. *)
Definition signalled (L : string) (st : state) : Prop :=
  ∃ a, sync_locks st !! L = Some a ∧ events st !! a = Some true.

(** One call of [sync_operations]. *)
Record call : Type := {
  action : string;
  lock_name : option string;
  timeout : Z
}.

Definition perform (c : call) (st : state) : pyval * state :=
  sync_operations (action c) (lock_name c) (timeout c) st.

(** The state after a history of calls, oldest first. *)
Definition run (history : list call) (st : state) : state :=
  foldl (λ st c, (perform c st).2) st history.

(** A call that gives [L] an unset event: [release] or [create]. *)
Definition resets (L : string) (c : call) : bool :=
  bool_decide (given (lock_name c) = Some L)
  && (bool_decide (action c = "release") || bool_decide (action c = "create")).

(** The two blackboard actions, as calls of [share_between_devices]. *)
Definition share (adb_copy : string → string → string → pyval) (k : string)
    (v : pyval) (st : state) : pyval * state :=
  share_between_devices adb_copy "share_data" None None None None (Some k) v st.

Definition get (adb_copy : string → string → string → pyval) (k : string)
    (st : state) : pyval * state :=
  share_between_devices adb_copy "get_data" None None None None (Some k)
    PNone st.

(** Other callers between the [set] and the last wait. *)
Definition busy_history : list call :=
  [ {| action := "wait"; lock_name := Some "door"; timeout := 5 |};
    {| action := "set"; lock_name := Some "window"; timeout := 5 |};
    {| action := "release"; lock_name := Some "window"; timeout := 5 |};
    {| action := "create"; lock_name := Some "roof"; timeout := 5 |};
    {| action := "wait"; lock_name := Some "door"; timeout := 0 |} ].

Definition no_adb : string → string → string → pyval :=
  λ _ _ _, reply false "no device".

End CoordinatorSpec.

(** ** A small server, for concrete runs *)

(** *** The validation of an id, as [pydantic] 1.10 runs it

    For [Optional[Union[int, str]]] the library tries [int] first: an
    integer is kept, anything [int()] accepts (a boolean, a float, a string
    that writes an integer) becomes that integer; what is left is tried as
    [str]: a string is kept, a float becomes its text; a list or a dict is
    rejected.  (The module is written against this version: it calls
    [.dict()].  Under [pydantic] 2, which [setup.py] asks for, a string
    that writes an integer stays a string and a float with a fractional
    part is rejected; the theorems hold for every [runtime].) *)
Module Pydantic.
Import Schema.

Definition digit (a : ascii) : option Z :=
  let n := nat_of_ascii a in
  if Nat.leb 48 n && Nat.leb n 57 then Some (Z.of_nat (n - 48)) else None.

(** ASCII decimal digits, with single underscores between digits. *)
Fixpoint digits_value (acc : Z) (after_digit : bool) (s : string)
  : option Z :=
  match s with
  | "" => if after_digit then Some acc else None
  | String a s' =>
      match digit a with
      | Some d => digits_value (10 * acc + d) true s'
      | None =>
          if Ascii.eqb a "_" && after_digit then digits_value acc false s'
          else None
      end
  end.

(** [int(s)] for a string: white space around, a sign, digits. *)
Definition int_of_str (s : string) : option Z :=
  match strip s with
  | String "+" r => digits_value 0 false r
  | String "-" r => Z.opp <$> digits_value 0 false r
  | r => digits_value 0 false r
  end.

(** The digits a string starts with, and what follows them. *)
Fixpoint take_digits (s : string) : list Z * string :=
  match s with
  | "" => ([], "")
  | String a s' =>
      match digit a with
      | Some d => let '(ds, rest) := take_digits s' in (d :: ds, rest)
      | None => ([], s)
      end
  end.

Definition number (ds : list Z) : Z := foldl (λ acc d, 10 * acc + d)%Z 0%Z ds.

(** The float nearest to an integer (ties to even): 53 bits are kept. *)
Definition nearest_float (n : Z) : Z :=
  if (n <? 2 ^ 53)%Z then n
  else
    let e := (Z.log2 n - 52)%Z in
    let q := (n / 2 ^ e)%Z in
    let r := (n mod 2 ^ e)%Z in
    let q := if (2 ^ e <? 2 * r)%Z || ((2 * r =? 2 ^ e)%Z && Z.odd q)
             then (q + 1)%Z else q in
    (q * 2 ^ e)%Z.

(** An exponent: [e], a sign, digits, and nothing after them. *)
Definition exponent (s : string) : option Z :=
  match s with
  | "" => Some 0%Z
  | String "e" (String "+" r) =>
      match take_digits r with
      | (d :: ds, "") => Some (number (d :: ds))
      | _ => None
      end
  | String "e" (String "-" r) =>
      match take_digits r with
      | (d :: ds, "") => Some (- number (d :: ds))%Z
      | _ => None
      end
  | _ => None
  end.

(** [int(x)] for a finite float, from its [repr]: the digits before and
    after the point, scaled by the exponent and cut towards zero. *)
Definition magnitude (s : string) : option Z :=
  match take_digits s with
  | ([], _) => None
  | (ip, rest) =>
      let '(fp, rest) :=
        match rest with
        | String "." r => take_digits r
        | _ => ([], rest)
        end in
      match exponent rest with
      | None => None
      | Some e =>
          let scale := (e - Z.of_nat (length fp))%Z in
          let d := number (ip ++ fp) in
          Some (if (0 <=? scale)%Z then nearest_float (d * 10 ^ scale)
                else d / 10 ^ (- scale))%Z
      end
  end.

Definition int_of_float (repr : string) : option Z :=
  match repr with
  | String "-" r => Z.opp <$> magnitude r
  | r => magnitude r
  end.

Definition validate_id (v : pyval) : outcome (Z + string) :=
  match v with
  | PInt n => Returned (inl n)
  | PBool b => Returned (inl (if b then 1 else 0)%Z)
  | PStr s =>
      match int_of_str s with
      | Some n => Returned (inl n)
      | None => Returned (inr s)
      end
  | PFloat repr =>
      match int_of_float repr with
      | Some n => Returned (inl n)
      | None => Returned (inr repr)
      end
  | _ => Raised (PyException "ValidationError"
                   "1 validation error for MCPResponse")
  end.

End Pydantic.

(** A runtime for running the model on concrete requests: it decodes ASCII
    bodies, reads the JSON texts listed in [docs] and rejects every other
    text, validates ids as above, and leaves room for [64] nested
    calls. *)
Definition stub_runtime (docs : list (string * pyval)) : runtime :=
  {| decode_utf8 := λ b,
       if forallb (λ x, Nat.ltb (Byte.to_nat x) 128) b
       then Returned (string_of_list_byte b)
       else Raised (PyException "UnicodeDecodeError"
                      "'utf-8' codec can't decode byte");
     json_loads := λ s,
       match od_get docs s with
       | Some v => Returned v
       | None => Raised (PyException "JSONDecodeError" "Expecting value")
       end;
     validate_id := Pydantic.validate_id;
     repr_of := λ v, "<" +:+ type_name_of v +:+ ">";
     frames := 64 |}.

Definition w0 : world () := {| logs := []; ext := () |}.

Definition rt0 : runtime := stub_runtime [].

(** A collaborator's function that ends the same way whatever it is
    given. *)
Definition always (o : outcome pyval) : pyval → () → outcome pyval * () :=
  λ _ x, (o, x).

Definition offline : exn := PyException "RuntimeError" "device offline".

(** [boom] raises an ordinary exception, [denied] a typed error, [quiet]
    returns [None], [size] returns a value; [later] is a coroutine function
    that returns a value. *)
Definition boom : MCPTool () :=
  MCPTool_init "boom" "" (Def (always (Raised offline))) PNone PNone.

Definition denied : MCPTool () :=
  MCPTool_init "denied" ""
    (Def (always (Raised (MCPError "not allowed" (-32001))))) PNone PNone.

Definition quiet : MCPTool () :=
  MCPTool_init "quiet" "" (Def (always (Returned PNone))) PNone PNone.

Definition later : MCPTool () :=
  MCPTool_init "later" "" (AsyncDef (always (Returned (PInt 7)))) PNone PNone.

(** A tool that takes the name of the meta-tool [list]. *)
Definition impostor : MCPTool () :=
  MCPTool_init "list" "" (Def (always (Returned (PInt 7)))) PNone PNone.

(** A tool that takes the name of the meta-tool [call]. *)
Definition hijack : MCPTool () :=
  MCPTool_init "call" "" (Def (always (Returned (PInt 7)))) PNone PNone.

(** A tool named [list] whose answer is a listing that names the tool
    itself. *)
Definition selfish : MCPTool () :=
  MCPTool_init "list" ""
    (Def (always (Returned
                    (PDict [("tools", PList [PDict [("name", PStr "list")]])]))))
    PNone PNone.

(** The registry of a new server after the registration of the four
    tools. *)
Definition tools0 : list (string * MCPTool ()) :=
  foldl (λ tools tool, od_set tools ("tools/" +:+ name tool) tool)
    (register_core_tools []) [boom; denied; quiet; later].

Definition direct_request (nm : string) : pyval :=
  request (PInt 1) ("tools/" +:+ nm) (PDict []).

Definition call_params (nm : string) : pyval :=
  PDict [("name", PStr nm); ("parameters", PDict [])].

Definition call_request (nm : string) : pyval :=
  request (PInt 1) "tools/call" (call_params nm).

(** ** Bodies *)

(** The body is not empty and [json.loads(body.decode("utf-8"))] returns
    [data]. *)
Definition parses (rt : runtime) (body : list Byte.byte) (data : pyval)
  : Prop :=
  body ≠ []
  ∧ ∃ text, decode_utf8 rt body = Returned text
            ∧ json_loads rt text = Returned data.

(** The bytes of a text. *)
Definition bytes_of (s : string) : list Byte.byte := list_byte_of_string s.

(** A text written without its double quotes: the parts are what stands
    between them. *)
Fixpoint quoted (parts : list string) : string :=
  match parts with
  | [] => ""
  | [part] => part
  | part :: rest => part +:+ String (ascii_of_nat 34) (quoted rest)
  end.

(** A request object without the version tag, one whose method is a
    list, one whose id is a list; each with its text. *)
Definition untagged : list (string * pyval) :=
  [("id", PInt 1); ("method", PStr "tools/list")].

Definition untagged_text : string :=
  quoted ["{"; "id"; ": 1, "; "method"; ": "; "tools/list"; "}"].

Definition listy : list (string * pyval) :=
  [("jsonrpc", PStr "2.0"); ("id", PInt 1);
   ("method", PList [PStr "tools/list"])].

Definition listy_text : string :=
  quoted ["{"; "jsonrpc"; ": "; "2.0"; ", "; "id"; ": 1, "; "method";
          ": ["; "tools/list"; "]}"].

Definition odd_id : list (string * pyval) :=
  [("jsonrpc", PStr "2.0"); ("id", PList [PInt 1]);
   ("method", PStr "tools/quiet")].

Definition odd_id_text : string :=
  quoted ["{"; "jsonrpc"; ": "; "2.0"; ", "; "id"; ": [1], "; "method";
          ": "; "tools/quiet"; "}"].

(** A batch of two: a request for the tool [boom], and a number. *)
Definition batch : list pyval :=
  [PDict [("jsonrpc", PStr "2.0"); ("id", PInt 1);
          ("method", PStr "tools/boom")];
   PInt 7].

Definition batch_text : string :=
  quoted ["[{"; "jsonrpc"; ": "; "2.0"; ", "; "id"; ": 1, "; "method"; ": ";
          "tools/boom"; "}, 7]"].

(** A request for a method that no tool has, with an id that writes an
    integer. *)
Definition nameless : list (string * pyval) :=
  [("jsonrpc", PStr "2.0"); ("id", PStr "5"); ("method", PStr "tools/nope")].

Definition nameless_text : string :=
  quoted ["{"; "jsonrpc"; ": "; "2.0"; ", "; "id"; ": "; "5"; ", "; "method";
          ": "; "tools/nope"; "}"].

(** A few texts and the documents [json.loads] makes of them. *)
Definition docs1 : list (string * pyval) :=
  [("[]", PList []);
   (batch_text, PList batch);
   (nameless_text, PDict nameless);
   ("7", PInt 7);
   (untagged_text, PDict untagged);
   (listy_text, PDict listy);
   (odd_id_text, PDict odd_id)].

Definition rt1 : runtime := stub_runtime docs1.

(** ** Tools made from methods *)

(** The entries of a listing. *)
Definition tools_listed (v : pyval) : list pyval :=
  match v with
  | PDict d => match od_get d "tools" with Some (PList l) => l | _ => [] end
  | _ => []
  end.

Module ToolsSpec.
Import Schema Tools.

Section spec.
Context {W : Type}.

Definition is_tool_method (m : member W) : bool :=
  startswith (member_name m) "tool_".

(** The tool is the one [create_tools] makes from the method: the name is
    the method's without its prefix, the handler is the method, the
    description and the schema come from its docstring and signature, the
    hints from the description. *)
Definition made_from (m : member W) (tool : MCPTool W) : Prop :=
  member_name m = "tool_" +:+ name tool
  ∧ handler tool = handler_of m
  ∧ description tool = description_of (method_doc (member_method m))
  ∧ _build_input_schema (member_method m) = Returned (input_schema tool)
  ∧ annotations tool = PDict (annotations_of (description tool)).

(** The hint [k] of the tool is there, and true. *)
Definition hint (tool : MCPTool W) (k : string) : bool :=
  match annotations tool with
  | PDict d => match od_get d k with Some (PBool true) => true | _ => false end
  | _ => false
  end.

End spec.

Definition mentions (description : string) (words : list string) : bool :=
  existsb (contains description) words.

(** The bytes of a string. *)
Fixpoint chars (s : string) : list ascii :=
  match s with
  | "" => []
  | String a s' => a :: chars s'
  end.

End ToolsSpec.

(** ** Mailboxes and device groups *)

Module FleetSpec.
Import Schema Coordinator Fleet.

(** The messages that wait for a device. *)
Definition inbox (st : state) (d : string) : list pyval :=
  default [] (message_queues st !! d).

Definition text_field (k : string) (v : pyval) : option string :=
  match v with
  | PDict d => match od_get d k with Some (PStr s) => Some s | _ => None end
  | _ => None
  end.

Definition content_of : pyval → option string := text_field "content".

Definition sender_of : pyval → option string := text_field "sender".

Section spec.
Context {W : Type}.
Variable self_device_id : option string.
Variable run_adb_cmd : string → option string → W → (string * string * Z) * W.
Variable time : W → string.

(** [adb devices], asked in state [x], lists the device. *)
Definition connected (d : string) (x : W) : Prop :=
  d ∈ serial <$> (_list_all_devices run_adb_cmd x).1.

(** The state of the devices after [adb devices]. *)
Definition asked (x : W) : W := (_list_all_devices run_adb_cmd x).2.

(** The device an action without target falls back on. *)
Definition target_of (device_id : option string) : option string :=
  match given device_id with
  | Some d => Some d
  | None => given self_device_id
  end.

(** The messages sent one after the other to one device. *)
Fixpoint send_all (d : string) (ms : list string) (st : state) (x : W)
  : state * W :=
  match ms with
  | [] => (st, x)
  | m :: ms =>
      let '(_, st, x) :=
        device_messaging self_device_id run_adb_cmd time "send" (Some d)
          (Some m) 5 st x in
      send_all d ms st x
  end.

(** The command run on the devices one after the other. *)
Fixpoint run_on (command : string) (ds : list string) (x : W)
  : list (string * string * Z) * W :=
  match ds with
  | [] => ([], x)
  | d :: ds =>
      let '(out, x) := run_adb_cmd command (Some d) x in
      let '(outs, x) := run_on command ds x in
      (out :: outs, x)
  end.

Definition result_entry (d : string) (out : string * string * Z) : pyval :=
  PDict [("device_id", PStr d); ("success", PBool (out.2 =? 0)%Z);
         ("output", PStr out.1.1); ("error", PStr out.1.2)].

End spec.

(** What [adb devices] prints for the devices: the header, one line per
    device, an empty line. *)
Definition device_line (d : device) : string :=
  serial d +:+ String tab (status d +:+ String newline "").

Definition adb_devices_output (ds : list device) : string :=
  "List of devices attached" +:+ String newline
    (foldr (λ d s, device_line d +:+ s) (String newline "") ds).

(** A serial number or a status as [adb] prints them: not empty, and made
    of printable ASCII characters that are not blank. *)
Definition plain_char (a : ascii) : bool :=
  Nat.ltb 32 (nat_of_ascii a) && Nat.ltb (nat_of_ascii a) 127.

Definition plain (s : string) : Prop :=
  s ≠ "" ∧ Forall (λ a, plain_char a = true) (ToolsSpec.chars s).

(** The string begins, or ends, with a character that is not blank. *)
Definition begins_plain (s : string) : Prop :=
  ∃ a r, s = String a r ∧ plain_char a = true.

Definition ends_plain (s : string) : Prop := begins_plain (String.rev s).

(** The line of a device without its line feed. *)
Definition entry (d : device) : string := serial d +:+ String tab (status d).

Definition well_named (d : device) : Prop :=
  plain (serial d) ∧ plain (status d).

(** The lines after the header, each behind a line feed. *)
Definition body (ds : list device) : string :=
  foldr (λ d s, String newline (entry d +:+ s)) "" ds.

(** One device, [emulator-5554], always connected; every command succeeds
    on it and prints [ok]. *)
Definition adb0 (cmd : string) (device_id : option string) (x : ())
  : (string * string * Z) * () :=
  if bool_decide (cmd = "devices") then
    (adb_devices_output [{| serial := "emulator-5554"; status := "device" |}],
     "", 0%Z, x)
  else ("ok", "", 0%Z, x).

Definition clock0 (x : ()) : string := "1700000000.0".

End FleetSpec.

(** ** Tracked resources, for concrete runs *)

(** The collaborators' state is the list of the hooks that have run. *)
Definition w1 : world (list string) := {| logs := []; ext := [] |}.

(** Three controllers: the hook of the first returns, the hook of the
    second raises [RuntimeError], the hook of the third is interrupted;
    each leaves its name behind. *)
Definition tidy (n : nat) (nm : string) : controller (list string) :=
  {| oid := n; class_name := nm;
     cleanup_attr := bound_method (λ x, (Ended (Returned ()), x ++ [nm])) |}.

Definition failing (n : nat) (nm : string) : controller (list string) :=
  {| oid := n; class_name := nm;
     cleanup_attr :=
       bound_method (λ x, (Ended (Raised offline), x ++ [nm])) |}.

Definition interrupted (n : nat) (nm : string) : controller (list string) :=
  {| oid := n; class_name := nm;
     cleanup_attr :=
       bound_method (λ x, (Escaped "KeyboardInterrupt" "", x ++ [nm])) |}.

(** A thread that runs, and an object that is no thread. *)
Definition worker : thread (list string) :=
  {| thread_id := 1; thread_name := Returned "worker";
     is_alive := λ _, Ended (Returned true) |}.

Definition stray : thread (list string) :=
  {| thread_id := 2;
     thread_name :=
       Raised (PyException "AttributeError"
                 "'object' object has no attribute 'name'");
     is_alive := λ _,
       Ended (Raised (PyException "AttributeError"
                        "'object' object has no attribute 'is_alive'")) |}.

Definition sound_resources : resources (list string) :=
  {| running_threads := [worker];
     controllers := [failing 1 "first"; tidy 2 "second"] |}.

(** ** A small service, for concrete runs *)

(** [size] returns a document, [raw] a value that is no JSON. *)
Definition size : MCPTool () :=
  MCPTool_init "size" ""
    (Def (always (Returned (PDict [("width", PInt 1080);
                                   ("height", PInt 1920)]))))
    PNone PNone.

Definition raw : MCPTool () :=
  MCPTool_init "raw" "" (Def (always (Returned (PObj "bytes")))) PNone PNone.

(** The registry of [tools0] after the registration of the two. *)
Definition tools1 : list (string * MCPTool ()) :=
  foldl (λ tools tool, od_set tools ("tools/" +:+ name tool) tool)
    tools0 [size; raw].

Module Service.
Import Schema Tools.

(** The signature of every tool method, seen on the bound method:
    [(params: Dict[str, Any])]. *)
Definition tool_method (doc : string) : method :=
  {| parameters :=
       [ {| param_name := "params";
            param_annotation := ann_other "Dict[str, Any]";
            param_default := None |} ];
     method_doc := Some doc |}.

Definition plain_member (name doc : string) : member () :=
  {| member_name := name;
     member_method := tool_method doc;
     member_call := always (Returned (PDict [("success", PBool true)]));
     member_async := false |}.

Definition tracked (n : nat) (cls : string) : controller () :=
  {| oid := n; class_name := cls; cleanup_attr := absent |}.

(** An object with three tool methods among its bound methods. *)
Definition android0 : AndroidTools () :=
  {| device_controller := tracked 1 "DeviceController";
     app_controller := tracked 2 "AppController";
     system_controller := tracked 3 "SystemController";
     advanced_controller := tracked 4 "AdvancedController";
     multi_device_controller := tracked 5 "MultiDeviceController";
     members :=
       [ plain_member "_build_input_schema" "
        构建输入参数Schema
        ";
         plain_member "create_tools" "
        创建MCP工具列表
        ";
         plain_member "tool_clear_text" "
        清除输入框文本

        Returns:
            操作是否成功
        ";
         plain_member "tool_get_screen_size" "
        获取屏幕尺寸

        Returns:
            屏幕尺寸 {width, height}
        ";
         plain_member "tool_tap_screen" "
        点击屏幕

        Args:
            x: 横坐标
            y: 纵坐标
        " ] |}.

Definition empty_schema : pyval :=
  PDict [("type", PStr "object"); ("properties", PDict [])].

Definition made (name description : string) (hints : pyval) : MCPTool () :=
  {| name := name; description := description;
     handler := Def (always (Returned (PDict [("success", PBool true)])));
     input_schema := empty_schema; annotations := hints |}.

(** The three tools [create_tools] makes of it. *)
Definition new0 : list (MCPTool ()) :=
  [ made "clear_text" "清除输入框文本" (PDict [("destructiveHint", PBool true)]);
    made "get_screen_size" "获取屏幕尺寸" (PDict [("readOnlyHint", PBool true)]);
    made "tap_screen" "点击屏幕" (PDict []) ].

End Service.

(** ** A small fleet, for concrete runs *)

Module FleetRuns.
Import Coordinator CoordinatorSpec Fleet FleetSpec.

Definition emulator : device :=
  {| serial := "emulator-5554"; status := "device" |}.

(** One group, [lab], with the emulator in it. *)
Definition lab : Fleet.state :=
  with_groups Fleet.init [("lab", ["emulator-5554"])].

(** Two messages wait for the emulator. *)
Definition mail (content : string) : pyval :=
  PDict [("timestamp", PFloat "1700000000.0"); ("sender", PStr "unknown");
         ("content", PStr content)].

Definition busy : Fleet.state :=
  with_queues lab
    (<["emulator-5554" := [mail "hello"; mail "world"]]> (message_queues lab)).

(** Two emulators, always connected.  The state of the devices is the list
    of those a command has been run on; a command fails on the first
    emulator and succeeds on every other device. *)
Definition adb1 (cmd : string) (device_id : option string) (x : list string)
  : (string * string * Z) * list string :=
  if bool_decide (cmd = "devices") then
    (adb_devices_output
       [{| serial := "emulator-5554"; status := "device" |};
        {| serial := "emulator-5556"; status := "device" |}],
     "", 0%Z, x)
  else if bool_decide (device_id = Some "emulator-5554") then
    ("", "error: closed", 1%Z, x ++ ["emulator-5554"])
  else ("ok", "", 0%Z, x ++ [default "" device_id]).

(** A group of the two. *)
Definition pair : Fleet.state :=
  with_groups lab
    (od_set (device_groups lab) "pair" ["emulator-5554"; "emulator-5556"]).

(** One signal, [door], made and not set. *)
Definition door : Coordinator.state :=
  (sync_operations "create" (Some "door") 5 Coordinator.init).2.

End FleetRuns.

(** * Properties *)


(** ** Dictionaries *)

Section odict_facts.
Context {V : Type}.
Implicit Types (d : list (string * V)) (k : string) (v : V).

Lemma od_get_set_eq d k v : od_get (od_set d k v) k = Some v.
Proof.
  induction d as [|[k' v'] d IH]; simpl.
  - by rewrite decide_True.
  - destruct (decide (k' = k)) as [->|Hne]; simpl.
    + by rewrite decide_True.
    + by rewrite decide_False.
Qed.

Lemma od_get_set_ne d k k' v : k ≠ k' → od_get (od_set d k v) k' = od_get d k'.
Proof.
  intros Hne. induction d as [|[k0 v0] d IH]; simpl.
  - by rewrite decide_False.
  - destruct (decide (k0 = k)) as [->|Hne0]; simpl.
    + by rewrite !decide_False.
    + destruct (decide (k0 = k')); [done | apply IH].
Qed.

(** Writing under a key that a filter on keys rejects does not change what
    the filter lets through. *)
Lemma flat_map_od_set {B} (keep : string → bool) (f : V → B) d k v :
  keep k = false →
  flat_map (λ '(k', v'), if keep k' then [f v'] else []) (od_set d k v)
  = flat_map (λ '(k', v'), if keep k' then [f v'] else []) d.
Proof.
  intros Hk. induction d as [|[k0 v0] d IH]; simpl.
  - by rewrite Hk.
  - destruct (decide (k0 = k)) as [->|Hne]; simpl.
    + by rewrite Hk.
    + by rewrite IH.
Qed.

End odict_facts.

(** ** The registry *)

Section registry_facts.
Context {W : Type}.
Implicit Types (tools : list (string * MCPTool W)) (tool : MCPTool W).

Lemma listed_meta k : k = "tools/list" ∨ k = "tools/call" → listed k = false.
Proof. by intros [-> | ->]. Qed.

Lemma tools_list_register tools key tool params :
  listed key = false →
  _handle_tools_list (od_set tools key tool) params
  = _handle_tools_list tools params.
Proof.
  intros Hk. unfold _handle_tools_list.
  by rewrite (flat_map_od_set listed tool_entry).
Qed.

End registry_facts.

(** ** Responses *)

Section response_facts.
Context {W : Type}.
Variable rt : runtime.
Implicit Types (w : world W) (id result : pyval).

Lemma accepted_id_serialisable id id' :
  accepted_id rt id id' → unserialisable id' = None.
Proof.
  destruct id; simpl; try (by intros ->);
    by intros ([?|?] & _ & ->).
Qed.

Lemma MCPResponse_init_accepted id id' result error w :
  accepted_id rt id id' →
  MCPResponse_init rt id result error w
  = (Returned {| jsonrpc := "2.0"; id := id'; result := result;
                 error := error |}, w).
Proof.
  unfold MCPResponse_init, mbind, mret, M_bind, M_ret, bind, ret, lift.
  destruct id; simpl; try (by intros ->);
    by intros (v & -> & ->).
Qed.

Lemma create_error_response_accepted id id' message code w :
  accepted_id rt id id' →
  _create_error_response rt id message code w
  = (Returned (error_envelope id' message code), w).
Proof.
  intros Hid. unfold _create_error_response.
  unfold mbind, M_bind, bind at 1.
  rewrite (MCPResponse_init_accepted _ id') by done.
  pose proof (accepted_id_serialisable _ _ Hid) as Hs.
  unfold mbind, mret, M_bind, M_ret, bind, ret, json_dumps, dict_exclude_none,
    error_envelope; simpl.
  destruct id'; simpl in *; try done; by rewrite ?Hs.
Qed.

Lemma create_success_response_accepted id id' result w :
  accepted_id rt id id' →
  unserialisable result = None →
  _create_success_response rt id result w
  = (Returned (success_envelope id' result), w).
Proof.
  intros Hid Hres. unfold _create_success_response.
  unfold mbind, M_bind, bind at 1.
  rewrite (MCPResponse_init_accepted _ id') by done.
  pose proof (accepted_id_serialisable _ _ Hid) as Hs.
  unfold mbind, mret, M_bind, M_ret, bind, ret, json_dumps, dict_exclude_none,
    success_envelope; simpl.
  destruct id', result; simpl in *; try done; by rewrite ?Hs, ?Hres.
Qed.

Lemma create_success_response_unserialisable id id' result t w :
  accepted_id rt id id' →
  unserialisable result = Some t →
  _create_success_response rt id result w
  = (Raised (PyException "TypeError"
               ("Object of type " +:+ t +:+ " is not JSON serializable")), w).
Proof.
  intros Hid Hres. unfold _create_success_response.
  unfold mbind, M_bind, bind at 1.
  rewrite (MCPResponse_init_accepted _ id') by done.
  pose proof (accepted_id_serialisable _ _ Hid) as Hs.
  unfold mbind, mret, M_bind, M_ret, bind, ret, raise, json_dumps,
    dict_exclude_none; simpl.
  destruct id', result; simpl in *; simplify_eq; try done;
    by rewrite ?Hs, ?Hres.
Qed.

(** What a client reads from the two kinds of envelope. *)
Lemma error_envelope_reads id' message code :
  error_code (error_envelope id' message code) = Some code
  ∧ error_message (error_envelope id' message code) = Some message
  ∧ has_field (error_envelope id' message code) "error" = true
  ∧ has_field (error_envelope id' message code) "result" = false
  ∧ envelope_id (error_envelope id' message code) = id'.
Proof. by destruct id'. Qed.

Lemma success_envelope_reads id' result :
  has_field (success_envelope id' result) "error" = false
  ∧ envelope_field (success_envelope id' result) "result"
    = match result with PNone => None | _ => Some result end
  ∧ envelope_id (success_envelope id' result) = id'.
Proof. by destruct id', result. Qed.

End response_facts.

(** ** Dispatch *)

Section dispatch_facts.
Context {W : Type}.
Variable rt : runtime.
Implicit Types (w : world W) (tools : list (string * MCPTool W))
  (tool : MCPTool W) (f : pyval → W → outcome pyval * W).

(** A well-formed request for a registered method reaches the handler. *)
Lemma single_request_dispatch tools data id method params tool w :
  is_request data id method params →
  od_get tools method = Some tool →
  _handle_single_request rt tools data w
  = try_except
      (result ← _call_handler rt tools (handler tool) params;
       _create_success_response rt id result)
      (single_request_except rt method id) w.
Proof.
  intros (d & -> & Hv & Hm & Hid & Hp) Htool.
  unfold _handle_single_request, invalid_request, od_mem.
  rewrite Hv, Hm. simpl.
  unfold mbind, M_bind, bind, lift, py_get. simpl.
  rewrite Hm, Hid, Hp. simpl.
  unfold od_mem. rewrite Htool. simpl.
  unfold try_except.
  destruct (_call_handler rt tools (handler tool) params w) as [[r|e] w1];
    simpl; [done|].
  by destruct e.
Qed.

(** A function found by [tools/call] is run; its result is wrapped, and
    whatever it raises is wrapped in a new [MCPError] with the default
    code. *)
Lemma tools_call_function tools n params nm P tool f w :
  names_tool params nm P →
  od_get tools ("tools/" +:+ nm) = Some tool →
  handler tool = Def f →
  _handle_tools_call rt tools n params w
  = match f P (ext w) with
    | (Returned r, x) =>
        (Returned (PDict [("result", r)]), {| logs := logs w; ext := x |})
    | (Raised e, x) =>
        (Raised (MCPError ("工具调用失败: " +:+ exn_str e)
                   MCPError_default_code),
         {| logs := logs w
                    ++ [(ERROR, "调用工具 '" +:+ nm +:+ "' 时发生错误: "
                                +:+ exn_str e)];
            ext := x |})
    end.
Proof.
  intros (p & -> & Hn & HP) Htool Hf.
  destruct n; simpl;
    unfold mbind, M_bind, bind, lift, py_get; simpl;
    rewrite Hn, HP; simpl; rewrite Htool, Hf;
    unfold try_except, external, mret, M_ret, ret, logger, raise; simpl;
    by destruct (f P (ext w)) as [[r|e] x].
Qed.

(** A coroutine function found by [tools/call] is called but not awaited:
    its body does not run, the result is the coroutine object. *)
Lemma tools_call_coroutine tools n params nm P tool f w :
  names_tool params nm P →
  od_get tools ("tools/" +:+ nm) = Some tool →
  handler tool = AsyncDef f →
  _handle_tools_call rt tools n params w
  = (Returned (PDict [("result", PObj "coroutine")]), w).
Proof.
  intros (p & -> & Hn & HP) Htool Hf.
  destruct n; simpl;
    unfold mbind, M_bind, bind, lift, py_get; simpl;
    rewrite Hn, HP; simpl; by rewrite Htool, Hf.
Qed.

End dispatch_facts.

(** ** Handlers and envelopes *)

Section handler_facts.
Context {W : Type}.
Variable rt : runtime.
Implicit Types (w : world W) (tools : list (string * MCPTool W))
  (tool : MCPTool W) (f : pyval → W → outcome pyval * W).

Lemma call_handler_runs tools tool f params w :
  runs tool f →
  _call_handler rt tools (handler tool) params w
  = (let (o, x) := f params (ext w) in (o, with_ext w x)).
Proof. by intros [-> | ->]. Qed.

(** Direct invocation, the handler returns a serialisable value. *)
Lemma direct_returns tools data id id' method params tool f r x w :
  is_request data id method params →
  od_get tools method = Some tool →
  runs tool f →
  accepted_id rt id id' →
  f params (ext w) = (Returned r, x) →
  unserialisable r = None →
  _handle_single_request rt tools data w
  = (Returned (success_envelope id' r), with_ext w x).
Proof.
  intros Hreq Htool Hrun Hid Hf Hr.
  rewrite (single_request_dispatch rt _ _ _ _ _ _ _ Hreq Htool).
  unfold try_except, mbind, M_bind, bind.
  rewrite (call_handler_runs _ _ _ _ _ Hrun), Hf.
  by rewrite (create_success_response_accepted rt _ id').
Qed.

(** Direct invocation, the handler raises. *)
Lemma direct_raises tools data id method params tool f e x w :
  is_request data id method params →
  od_get tools method = Some tool →
  runs tool f →
  f params (ext w) = (Raised e, x) →
  _handle_single_request rt tools data w
  = single_request_except rt method id e (with_ext w x).
Proof.
  intros Hreq Htool Hrun Hf.
  rewrite (single_request_dispatch rt _ _ _ _ _ _ _ Hreq Htool).
  unfold try_except, mbind, M_bind, bind.
  by rewrite (call_handler_runs _ _ _ _ _ Hrun), Hf.
Qed.

(** A typed error raised by the handler of a directly invoked tool goes
    out with its own code and message. *)
Lemma direct_application_error tools data id id' method params tool f
    message code x w :
  is_request data id method params →
  od_get tools method = Some tool →
  runs tool f →
  accepted_id rt id id' →
  f params (ext w) = (Raised (MCPError message code), x) →
  ∃ w', _handle_single_request rt tools data w
        = (Returned (error_envelope id' message code), w').
Proof.
  intros Hreq Htool Hrun Hid Hf.
  rewrite (direct_raises _ _ _ _ _ _ _ _ _ _ Hreq Htool Hrun Hf).
  unfold single_request_except, mbind, M_bind, bind, logger.
  rewrite (create_error_response_accepted rt _ id') by done. eauto.
Qed.

(** Through [tools/call], a function that returns. *)
Lemma call_returns tools data id id' params nm P tool f r x w :
  meta_call_intact tools →
  is_request data id "tools/call" params →
  names_tool params nm P →
  od_get tools ("tools/" +:+ nm) = Some tool →
  handler tool = Def f →
  accepted_id rt id id' →
  f P (ext w) = (Returned r, x) →
  unserialisable r = None →
  _handle_single_request rt tools data w
  = (Returned (success_envelope id' (PDict [("result", r)])), with_ext w x).
Proof.
  intros (ct & Hct & Hmeta) Hreq Hnames Htool Hdef Hid Hf Hr.
  rewrite (single_request_dispatch rt _ _ _ _ _ _ _ Hreq Hct).
  unfold try_except, mbind, M_bind, bind. rewrite Hmeta. simpl.
  rewrite (tools_call_function rt _ _ _ _ _ _ _ _ Hnames Htool Hdef), Hf.
  rewrite (create_success_response_accepted rt _ id'); [done..|].
  simpl. by rewrite Hr.
Qed.

(** Through [tools/call], a function that raises: whatever the exception,
    the caller gets the default application code and the exception's text
    behind a fixed prefix. *)
Lemma call_raises tools data id id' params nm P tool f e x w :
  meta_call_intact tools →
  is_request data id "tools/call" params →
  names_tool params nm P →
  od_get tools ("tools/" +:+ nm) = Some tool →
  handler tool = Def f →
  accepted_id rt id id' →
  f P (ext w) = (Raised e, x) →
  _handle_single_request rt tools data w
  = (Returned (error_envelope id' ("工具调用失败: " +:+ exn_str e)
                 MCPError_default_code),
     with_log
       (with_log (with_ext w x) ERROR
          ("调用工具 '" +:+ nm +:+ "' 时发生错误: " +:+ exn_str e))
       WARNING
       ("处理请求 'tools/call' 时发生MCP错误: 工具调用失败: " +:+ exn_str e
        +:+ " (代码: -32000)")).
Proof.
  intros (ct & Hct & Hmeta) Hreq Hnames Htool Hdef Hid Hf.
  rewrite (single_request_dispatch rt _ _ _ _ _ _ _ Hreq Hct).
  unfold try_except, mbind, M_bind, bind. rewrite Hmeta. simpl.
  rewrite (tools_call_function rt _ _ _ _ _ _ _ _ Hnames Htool Hdef), Hf.
  unfold single_request_except, mbind, M_bind, bind, logger.
  rewrite (create_error_response_accepted rt _ id') by done.
  unfold with_log, with_ext. simpl. by repeat f_equal.
Qed.

End handler_facts.

(** ** Every response is an envelope *)

Section envelope_facts.
Context {W : Type}.
Variable rt : runtime.
Implicit Types (w : world W) (tools : list (string * MCPTool W)).

Lemma bind_returned {A B} (m : M W A) (k : A → M W B) w b w' :
  bind m k w = (Returned b, w') →
  ∃ a w1, m w = (Returned a, w1) ∧ k a w1 = (Returned b, w').
Proof.
  unfold bind. destruct (m w) as [[a|e] w1]; [|done]. intros H. by exists a, w1.
Qed.

Lemma try_except_returned {A} (m : M W A) (h : exn → M W A) w a w' :
  try_except m h w = (Returned a, w') →
  m w = (Returned a, w')
  ∨ ∃ e w1, m w = (Raised e, w1) ∧ h e w1 = (Returned a, w').
Proof.
  unfold try_except. destruct (m w) as [[a0|e] w1]; [by left|].
  intros H. right. by exists e, w1.
Qed.

Lemma MCPResponse_init_returned id result error w resp w' :
  MCPResponse_init rt id result error w = (Returned resp, w') →
  ∃ id', resp = {| jsonrpc := "2.0"; Server.id := id'; Server.result := result;
                   Server.error := error |}.
Proof.
  unfold MCPResponse_init. intros (id' & w1 & _ & H)%bind_returned.
  unfold mret, M_ret, ret in H. exists id'. by simplify_eq.
Qed.

Lemma create_error_response_envelope id message code w r w' :
  _create_error_response rt id message code w = (Returned r, w') →
  ∃ id', r = error_envelope id' message code.
Proof.
  unfold _create_error_response.
  intros (resp & w1 & Hinit & (c & w2 & Hdumps & H)%bind_returned)%bind_returned.
  apply MCPResponse_init_returned in Hinit as [id' ->].
  unfold json_dumps, mret, M_ret, ret, raise in *.
  destruct (unserialisable _); simplify_eq. by exists id'.
Qed.

Lemma create_success_response_envelope id result w r w' :
  _create_success_response rt id result w = (Returned r, w') →
  ∃ id', r = success_envelope id' result.
Proof.
  unfold _create_success_response.
  intros (resp & w1 & Hinit & (c & w2 & Hdumps & H)%bind_returned)%bind_returned.
  apply MCPResponse_init_returned in Hinit as [id' ->].
  unfold json_dumps, mret, M_ret, ret, raise in *.
  destruct (unserialisable _); simplify_eq. exists id'.
  unfold dict_exclude_none, success_envelope. simpl. by rewrite app_nil_r.
Qed.

Lemma single_request_envelope tools data w r w' :
  _handle_single_request rt tools data w = (Returned r, w') →
  is_envelope r.
Proof.
  unfold _handle_single_request.
  destruct (invalid_request data).
  { intros (? & ? & _ & (id' & ->)%create_error_response_envelope)%bind_returned.
    left. by eexists _, _, _. }
  intros (rid & ? & _ & (method & ? & _ & (params & ? & _
            & (found & ? & _ & H)%bind_returned)%bind_returned)%bind_returned)
           %bind_returned.
  destruct found; simpl in H.
  - apply try_except_returned in H as [H | (e & w1 & _ & H)].
    + apply bind_returned in H as (tool & ? & _ & H).
      apply bind_returned in H as (res & ? & _ & H).
      apply create_success_response_envelope in H as (id' & ->).
      right. by eexists _, _.
    + destruct e;
        apply bind_returned in H
          as (? & ? & _ & (id' & ->)%create_error_response_envelope);
        left; by eexists _, _, _.
  - apply create_error_response_envelope in H as (id' & ->).
    left. by eexists _, _, _.
Qed.

Lemma top_level_except_envelope data e w r w' :
  top_level_except rt data e w = (Returned r, w') → is_envelope r.
Proof.
  unfold top_level_except.
  destruct e;
    intros (? & ? & _ & (id' & ->)%create_error_response_envelope)
             %bind_returned;
    left; by eexists _, _, _.
Qed.

(** Whatever the body, what [handle_jsonrpc] returns is an error envelope
    or a success envelope. *)
Lemma handle_jsonrpc_envelope tools body w r w' :
  handle_jsonrpc rt tools body w = (Returned r, w') → is_envelope r.
Proof.
  unfold handle_jsonrpc. destruct body as [|b body].
  - intros [H | (e & w1 & _ & H)]%try_except_returned.
    + apply create_error_response_envelope in H as (id' & ->).
      left. by eexists _, _, _.
    + by eapply top_level_except_envelope.
  - destruct (@mbind (M W) _ _ _ _ _ w) as [[data|e] w1].
    + intros [H | (e & w2 & _ & H)]%try_except_returned;
        [|by eapply top_level_except_envelope].
      destruct (isinstance_list data).
      * apply create_error_response_envelope in H as (id' & ->).
        left. by eexists _, _, _.
      * by eapply single_request_envelope.
    + destruct (is_JSONDecodeError e);
        [|by eapply top_level_except_envelope].
      intros [H | (e' & w2 & _ & H)]%try_except_returned;
        [|by eapply top_level_except_envelope].
      apply create_error_response_envelope in H as (id' & ->).
      left. by eexists _, _, _.
Qed.

(** No envelope has both members. *)
Lemma envelope_members r :
  is_envelope r →
  has_field r "result" && has_field r "error" = false.
Proof.
  intros [(id' & message & code & ->) | (id' & result & ->)].
  - by destruct id'.
  - by destruct id', result.
Qed.

End envelope_facts.

(** ** Handler failures, dual addressing and unreadable bodies *)

Section dispatcher_claims.
Context {W : Type}.
Variable rt : runtime.
Implicit Types (w : world W) (tools : list (string * MCPTool W))
  (tool : MCPTool W) (f : pyval → W → outcome pyval * W).

(** C1 (as the code has it). A handler of a registered tool raises an
    exception [cls] that is not an [MCPError], with text [detail].
    Invoked as [tools/<name>], the response is an error envelope with code
    InternalError [-32603] and no [result]; its message is the fixed prefix
    ["服务器内部错误: "] followed by [detail], which is also logged.  Invoked
    through [tools/call], where the handler is a function, the response is
    again an error envelope with no [result], and its message is the fixed
    prefix ["工具调用失败: "] followed by [detail], which is also logged. *)
Theorem C1_handler_exception tools tool f cls detail nm P id id'
    direct via_call params x w :
  od_get tools ("tools/" +:+ nm) = Some tool →
  runs tool f →
  f P (ext w) = (Raised (PyException cls detail), x) →
  accepted_id rt id id' →
  is_request direct id ("tools/" +:+ nm) P →
  meta_call_intact tools →
  is_request via_call id "tools/call" params →
  names_tool params nm P →
  (∃ r w', _handle_single_request rt tools direct w = (Returned r, w')
           ∧ error_code r = Some (-32603)%Z
           ∧ has_field r "result" = false
           ∧ error_message r = Some ("服务器内部错误: " +:+ detail)
           ∧ w' = with_log (with_ext w x) ERROR
                    ("处理请求 'tools/" +:+ nm +:+ "' 时发生错误: " +:+ detail))
  ∧ (handler tool = Def f →
     ∃ r w', _handle_single_request rt tools via_call w = (Returned r, w')
             ∧ has_field r "error" = true
             ∧ has_field r "result" = false
             ∧ error_message r = Some ("工具调用失败: " +:+ detail)
             ∧ (ERROR, "调用工具 '" +:+ nm +:+ "' 时发生错误: " +:+ detail)
               ∈ logs w').
Proof.
  intros Htool Hrun Hf Hid Hdirect Hmeta Hcall Hnames. split.
  - rewrite (direct_raises rt _ _ _ _ _ _ _ _ _ _ Hdirect Htool Hrun Hf).
    unfold single_request_except, mbind, M_bind, bind, logger.
    rewrite (create_error_response_accepted rt _ id') by done.
    destruct (error_envelope_reads id' ("服务器内部错误: " +:+ detail) (-32603))
      as (? & ? & _ & ? & _).
    eexists _, _. split; [reflexivity|]. by repeat split.
  - intros Hdef.
    rewrite (call_raises rt _ _ _ _ _ _ _ _ _ _ _ _
               Hmeta Hcall Hnames Htool Hdef Hid Hf).
    destruct (error_envelope_reads id' ("工具调用失败: " +:+ detail)
                MCPError_default_code) as (_ & ? & ? & ? & _).
    eexists _, _. split; [reflexivity|]. repeat split; try done.
    simpl. set_solver.
Qed.

(** C2 (where the code departs from the claim). A tool whose handler is a
    coroutine function that returns [r] for the parameters [P]: invoked as
    [tools/<name>] the coroutine is awaited and the response carries [r];
    invoked through [tools/call] it is not awaited, the coroutine object
    cannot be serialised, and the response is an error envelope with code
    [-32603] while the handler has not run. *)
Theorem C2_coroutine_not_awaited_by_tools_call tools tool f nm P id id'
    direct via_call params r x w :
  od_get tools ("tools/" +:+ nm) = Some tool →
  handler tool = AsyncDef f →
  f P (ext w) = (Returned r, x) →
  unserialisable r = None →
  accepted_id rt id id' →
  is_request direct id ("tools/" +:+ nm) P →
  meta_call_intact tools →
  is_request via_call id "tools/call" params →
  names_tool params nm P →
  _handle_single_request rt tools direct w
  = (Returned (success_envelope id' r), with_ext w x)
  ∧ _handle_single_request rt tools via_call w
    = (Returned
         (error_envelope id'
            "服务器内部错误: Object of type coroutine is not JSON serializable"
            (-32603)),
       with_log w ERROR
         "处理请求 'tools/call' 时发生错误: Object of type coroutine is not JSON serializable").
Proof.
  intros Htool Hasync Hf Hr Hid Hdirect (ct & Hct & Hmeta) Hcall Hnames.
  split.
  - eapply direct_returns; eauto. by right.
  - rewrite (single_request_dispatch rt _ _ _ _ _ _ _ Hcall Hct).
    unfold try_except, mbind, M_bind, bind. rewrite Hmeta. simpl.
    rewrite (tools_call_coroutine rt _ _ _ _ _ _ _ _ Hnames Htool Hasync).
    rewrite (create_success_response_unserialisable rt _ id' _ "coroutine")
      by done.
    unfold single_request_except, mbind, M_bind, bind, logger.
    by rewrite (create_error_response_accepted rt _ id').
Qed.

(** Dual addressing for a handler that is a function: [tools/call] answers
    [{result: r}] where the direct call answers [r], and leaves the
    collaborators in the same state. *)
Lemma dual_addressing_function tools tool f nm P id id' direct via_call
    params r x w :
  od_get tools ("tools/" +:+ nm) = Some tool →
  handler tool = Def f →
  f P (ext w) = (Returned r, x) →
  unserialisable r = None →
  accepted_id rt id id' →
  is_request direct id ("tools/" +:+ nm) P →
  meta_call_intact tools →
  is_request via_call id "tools/call" params →
  names_tool params nm P →
  _handle_single_request rt tools direct w
  = (Returned (success_envelope id' r), with_ext w x)
  ∧ _handle_single_request rt tools via_call w
    = (Returned (success_envelope id' (PDict [("result", r)])), with_ext w x).
Proof.
  intros Htool Hdef Hf Hr Hid Hdirect Hmeta Hcall Hnames. split.
  - eapply direct_returns; eauto. by left.
  - eapply call_returns; eauto.
Qed.

(** C4 (where the code departs from the claim). A handler that is a
    function raises [MCPError(m, c)]: invoked as [tools/<name>] the
    envelope carries [c] and [m]; invoked through [tools/call] it carries
    the default code [-32000] and ["工具调用失败: "] followed by [m]. *)
Theorem C4_application_error_rewrapped_by_tools_call tools tool f m c nm P
    id id' direct via_call params x w :
  od_get tools ("tools/" +:+ nm) = Some tool →
  handler tool = Def f →
  f P (ext w) = (Raised (MCPError m c), x) →
  accepted_id rt id id' →
  is_request direct id ("tools/" +:+ nm) P →
  meta_call_intact tools →
  is_request via_call id "tools/call" params →
  names_tool params nm P →
  (∃ w', _handle_single_request rt tools direct w
         = (Returned (error_envelope id' m c), w'))
  ∧ (∃ w', _handle_single_request rt tools via_call w
           = (Returned (error_envelope id' ("工具调用失败: " +:+ m) (-32000)),
              w')).
Proof.
  intros Htool Hdef Hf Hid Hdirect Hmeta Hcall Hnames. split.
  - eapply direct_application_error; eauto. by left.
  - rewrite (call_raises rt _ _ _ id' _ nm P tool f (MCPError m c) x w
               Hmeta Hcall Hnames Htool Hdef Hid Hf).
    by eexists.
Qed.

(** C5 (where the code departs from the claim). When the handler of a
    directly invoked tool returns [None], the envelope sent has neither a
    [result] nor an [error] member. *)
Theorem C5_none_result_leaves_empty_envelope tools tool f method params
    id id' data x w :
  od_get tools method = Some tool →
  runs tool f →
  f params (ext w) = (Returned PNone, x) →
  accepted_id rt id id' →
  is_request data id method params →
  ∃ r, _handle_single_request rt tools data w = (Returned r, with_ext w x)
       ∧ has_field r "result" = false
       ∧ has_field r "error" = false.
Proof.
  intros Htool Hrun Hf Hid Hreq.
  exists (success_envelope id' PNone). split.
  - eapply direct_returns; eauto.
  - by destruct id'.
Qed.

(** C3 (as the code has it). An empty body is answered with an error
    envelope with code InvalidRequest [-32600] and a null id; a body that
    is not empty, decodes as UTF-8 and is not a JSON text is answered with
    code ParseError [-32700] and a null id. *)
Theorem C3_empty_and_malformed_bodies tools body text detail w :
  body ≠ [] →
  decode_utf8 rt body = Returned text →
  json_loads rt text = Raised (PyException "JSONDecodeError" detail) →
  (∃ r, handle_jsonrpc rt tools [] w = (Returned r, w)
        ∧ error_code r = Some (-32600)%Z
        ∧ has_field r "result" = false
        ∧ envelope_id r = PNone)
  ∧ (∃ r, handle_jsonrpc rt tools body w = (Returned r, w)
          ∧ error_code r = Some (-32700)%Z
          ∧ has_field r "result" = false
          ∧ envelope_id r = PNone).
Proof.
  intros Hbody Hdecode Hloads. split.
  - by eexists.
  - destruct body as [|b body]; [done|].
    unfold handle_jsonrpc, mbind, M_bind, bind, lift.
    rewrite Hdecode, Hloads. by eexists.
Qed.

(** A body that is not UTF-8 is not answered as a parse error: the
    exception of [decode] is no [JSONDecodeError] and reaches the outer
    handler. *)
Lemma undecodable_body tools body cls detail w :
  body ≠ [] →
  decode_utf8 rt body = Raised (PyException cls detail) →
  cls ≠ "JSONDecodeError" →
  handle_jsonrpc rt tools body w
  = (Returned (error_envelope PNone "Internal error" (-32603)),
     with_log w ERROR ("处理JSON-RPC请求时发生未捕获的异常: " +:+ detail)).
Proof.
  intros Hbody Hdecode Hcls. destruct body as [|b body]; [done|].
  unfold handle_jsonrpc, mbind, M_bind, bind, lift.
  rewrite Hdecode. simpl. by rewrite bool_decide_eq_false_2.
Qed.

End dispatcher_claims.

(** ** Replacing a meta-tool *)

Section replaced.
Context {W : Type}.
Variable rt : runtime.
Implicit Types (w : world W) (tools : list (string * MCPTool W))
  (tool : MCPTool W).

Lemma listed_spec key :
  listed key = true
  ↔ String.prefix "tools/" key = true
    ∧ key ≠ "tools/list" ∧ key ≠ "tools/call".
Proof.
  unfold listed. rewrite !andb_true_iff, !negb_true_iff.
  rewrite !bool_decide_eq_false. tauto.
Qed.

(** The listing has an entry for every key that starts with [tools/] and
    is neither [tools/list] nor [tools/call], and for no other. *)
Lemma tools_list_entries tools params :
  (∀ key t, (key, t) ∈ tools →
     String.prefix "tools/" key = true →
     key ≠ "tools/list" → key ≠ "tools/call" →
     tool_entry t ∈ tools_listed (_handle_tools_list tools params))
  ∧ (∀ entry, entry ∈ tools_listed (_handle_tools_list tools params) →
       ∃ key t, (key, t) ∈ tools ∧ entry = tool_entry t
                ∧ String.prefix "tools/" key = true
                ∧ key ≠ "tools/list" ∧ key ≠ "tools/call").
Proof.
  unfold _handle_tools_list, tools_listed. simpl. split.
  - intros key t Hin Hp Hl Hc.
    apply list_elem_of_In, in_flat_map. exists (key, t).
    split; [by apply list_elem_of_In|].
    rewrite (proj2 (listed_spec key)) by done. by left.
  - intros entry Hin. apply list_elem_of_In, in_flat_map in Hin
      as ([key t] & Hin & Hentry).
    destruct (listed key) eqn:Hk; [|done].
    apply listed_spec in Hk as (Hp & Hl & Hc).
    destruct Hentry as [<- | []].
    exists key, t. by apply list_elem_of_In in Hin.
Qed.

(** C10 (as the code has it). Tools are stored under the key
    [tools/<name>], so registering a tool named [list] or [call] puts it in
    the place of the built-in meta-tool without any error (the only trace
    is the usual log record of a registration).  The built-in listing
    leaves out exactly the keys [tools/list] and [tools/call]: it has an
    entry for every other key that starts with [tools/], and for these
    two it has none.  So after a tool named [call] has been registered, a
    [tools/list] request gets the listing it got before, without the
    replacement; after a tool named [list] has been registered, a
    [tools/list] request is answered by the handler of the replacement,
    and the listing is not what the caller gets. *)
Theorem C10_meta_tool_replaced tools tool w :
  name tool = "list" ∨ name tool = "call" →
  ∃ tools',
    register_tool tools tool w
    = (Returned tools',
       {| logs := logs w ++ [(INFO, "注册MCP工具: " +:+ name tool)];
          ext := ext w |})
    ∧ od_get tools' ("tools/" +:+ name tool) = Some tool
    ∧ (∀ key, key ≠ "tools/" +:+ name tool →
              od_get tools' key = od_get tools key)
    ∧ (∀ params key t, (key, t) ∈ tools' →
         String.prefix "tools/" key = true →
         key ≠ "tools/list" → key ≠ "tools/call" →
         tool_entry t ∈ tools_listed (_handle_tools_list tools' params))
    ∧ (∀ params entry,
         entry ∈ tools_listed (_handle_tools_list tools' params) →
         ∃ key t, (key, t) ∈ tools' ∧ entry = tool_entry t
                  ∧ String.prefix "tools/" key = true
                  ∧ key ≠ "tools/list" ∧ key ≠ "tools/call")
    ∧ (name tool = "call" →
       meta_list_intact tools →
       ∀ data id id' params w1,
         is_request data id "tools/list" params →
         accepted_id rt id id' →
         unserialisable (_handle_tools_list tools params) = None →
         _handle_single_request rt tools' data w1
         = (Returned (success_envelope id' (_handle_tools_list tools params)),
            w1))
    ∧ (name tool = "list" →
       ∀ data id params w1,
         is_request data id "tools/list" params →
         _handle_single_request rt tools' data w1
         = try_except
             (result ← _call_handler rt tools' (handler tool) params;
              _create_success_response rt id result)
             (single_request_except rt "tools/list" id) w1).
Proof.
  intros Hname. eexists. split; [reflexivity|].
  split; [apply od_get_set_eq|].
  split; [intros key Hkey; by apply od_get_set_ne|].
  split; [intros params; apply tools_list_entries|].
  split; [intros params; apply tools_list_entries|].
  split.
  - intros Hcall (lt & Hlt & Hmeta) data id id' params w1 Hreq Hid Hser.
    rewrite Hcall in *.
    rewrite (single_request_dispatch rt _ _ _ _ _ lt _ Hreq)
      by (by rewrite od_get_set_ne).
    unfold try_except, mbind, M_bind, bind. rewrite Hmeta. simpl.
    rewrite tools_list_register by done.
    by rewrite (create_success_response_accepted rt _ id').
  - intros Hlist data id params w1 Hreq. rewrite Hlist in *.
    apply (single_request_dispatch rt _ _ _ _ _ tool _ Hreq).
    apply od_get_set_eq.
Qed.

End replaced.

(** ** Clean-up *)

Section lifecycle_facts.
Context {W : Type}.
Implicit Types (w : world W) (res : resources W) (c : controller W).

(** A loop whose body returns on every element of the list runs to its
    end, and acts on the collaborators as its body does, element after
    element. *)
Lemma for_each_returns {A} (body : A → L W ()) (g : W → A → W) (l : list A) w :
  (∀ a w, a ∈ l →
          ∃ w', body a w = (Ended (Returned ()), w') ∧ ext w' = g (ext w) a) →
  ∃ w', for_each l body w = (Ended (Returned ()), w')
        ∧ ext w' = foldl g (ext w) l.
Proof.
  revert w. induction l as [|a l IH]; intros w Hbody; [by eexists|].
  simpl. unfold L_bind.
  destruct (Hbody a w) as (w1 & -> & H1); [by left|].
  destruct (IH w1) as (w2 & -> & H2).
  { intros a' w' Hin. apply Hbody. by right. }
  exists w2. by rewrite H2, H1.
Qed.

Lemma stop_thread_returns (t : thread W) w :
  (∀ x, ∃ b, is_alive t x = Ended (Returned b)) →
  ∃ w', stop_thread t w = (Ended (Returned ()), w') ∧ ext w' = ext w.
Proof.
  intros Halive. destruct (Halive (ext w)) as (b & Hb).
  unfold stop_thread, mbind, L_mbind, L_bind, inspect, except_Exception,
    of_M, lift, logger.
  rewrite Hb. destruct b; [|by eexists].
  destruct (thread_name t); by eexists.
Qed.

(** The hook is invoked; if it raises an [Exception], the exception is
    caught here. *)
Lemma clean_controller_returns c w :
  (∀ f, cleanup_attr c = bound_method f → ∀ x, ∃ o, (f x).1 = Ended o) →
  ∃ w', clean_controller c w = (Ended (Returned ()), w')
        ∧ ext w' = run_hook (ext w) c.
Proof.
  intros Hhook.
  unfold clean_controller, except_Exception, mbind, L_mbind, L_bind, of_M,
    logger, invoke, run_hook.
  simpl. destruct (cleanup_attr c) as [| |f]; simpl; try by eexists.
  destruct (Hhook f eq_refl (ext w)) as (o & Ho).
  destruct (f (ext w)) as [o' x]. simpl in Ho. subst o'.
  destruct o as [[]|e]; by eexists.
Qed.

Lemma foldl_id {A} (l : list A) (x : W) : foldl (λ x _, x) x l = x.
Proof. by induction l. Qed.

Lemma cleanup_returns res w :
  threads_answer res → hooks_end res →
  ∃ w', cleanup res w = (Ended (Returned ()), w')
        ∧ ext w' = foldl run_hook (ext w) (controllers res).
Proof.
  intros Hthreads Hhooks.
  unfold cleanup, mbind, L_mbind, L_bind, of_M, logger.
  edestruct (for_each_returns stop_thread (λ x _, x)) as (w1 & -> & H1).
  { intros t w' Hin. apply stop_thread_returns. by apply Hthreads. }
  edestruct (for_each_returns clean_controller run_hook) as (w2 & -> & H2).
  { intros c w' Hin. apply clean_controller_returns.
    intros f Hf. by apply (Hhooks c f). }
  eexists. split; [reflexivity|]. simpl in *.
  by rewrite H2, H1, foldl_id.
Qed.


End lifecycle_facts.

(** ** Schema inference *)

Module SchemaFacts.
Import Schema SchemaSpec.

Lemma param_type_rule a ty items :
  schema_rule a ty items → param_type a = (ty, items).
Proof. by destruct 1. Qed.

Lemma after_colon_startswith p line :
  startswith line (p +:+ ":") = true → ∃ text, after_colon line = Returned text.
Proof.
  unfold startswith. revert line.
  induction p as [|c p IH]; intros [|c' line];
    cbn [String.prefix after_colon]; try done.
  - change ("" +:+ ":") with (String ":" ""). cbn beta iota.
    destruct (ascii_dec _ _) as [<-|]; [|done].
    intros _. rewrite Ascii.eqb_refl. by eexists.
  - change (String c p +:+ ":") with (String c (p +:+ ":")). cbn beta iota.
    destruct (ascii_dec _ _) as [<-|]; [|done].
    intros H. destruct (Ascii.eqb c ":"); [by eexists | by apply IH].
Qed.

Lemma find_description_total p lines :
  ∃ o, find_description p lines = Returned o
       ∧ (is_Some o ↔
          ∃ line, line ∈ lines ∧ startswith (strip line) (p +:+ ":") = true).
Proof.
  induction lines as [|line lines (o & IH & Hiff)]; simpl.
  - exists None. split; [done|]. split; [by intros []|].
    intros (line & Hin & _). by apply elem_of_nil in Hin.
  - destruct (startswith (strip line) (p +:+ ":")) eqn:Hs.
    + destruct (after_colon_startswith _ _ Hs) as (text & ->).
      eexists. split; [done|]. split; [|done].
      intros _. exists line. split; [left | done].
    + exists o. split; [done|]. rewrite Hiff. split.
      * intros (l & Hin & Hl). exists l. split; [by right | done].
      * intros (l & Hin & Hl). apply elem_of_cons in Hin as [-> | Hin].
        -- congruence.
        -- by exists l.
Qed.

Lemma param_property_total m p :
  ∃ prop, param_property m p = Returned prop
          ∧ property_reads prop (param_type (param_annotation p)).1
              (param_type (param_annotation p)).2 (documented m p).
Proof.
  unfold param_property, documented.
  destruct (find_description_total (param_name p) (doc_lines (method_doc m)))
    as (o & -> & Hiff).
  destruct (param_type (param_annotation p)) as [ty [item|]] eqn:Hty;
    destruct o as [text|]; simpl; eexists; (split; [reflexivity|]);
    unfold property_reads; eexists; (split; [reflexivity|]); simpl;
    rewrite <- Hiff; repeat split; try done; by intros [].
Qed.

(** The loop adds one property per parameter it does not skip, leaves the
    other keys alone, and appends the names without default, in order. *)
Lemma build_loop_total m params properties required :
  ∃ properties',
    build_loop m params properties required
    = Returned (properties', required ++ required_names params)
    ∧ (∀ k, k ∉ param_name <$> params →
            od_get properties' k = od_get properties k)
    ∧ (NoDup (param_name <$> params) →
       ∀ p, p ∈ params → skipped p = false →
            ∃ prop, od_get properties' (param_name p) = Some prop
                    ∧ param_property m p = Returned prop).
Proof.
  revert properties required.
  induction params as [|q params IH]; intros properties required.
  - exists properties. unfold required_names. simpl.
    rewrite app_nil_r. split; [done|]. split; [done|].
    intros _ p Hp. by apply elem_of_nil in Hp.
  - cbn [build_loop]. unfold required_names. rewrite filter_cons.
    destruct (skipped q) eqn:Hq.
    + rewrite decide_False by (intros []; congruence).
      destruct (IH properties required) as (ps & -> & Hframe & Hprops).
      exists ps. split; [done|]. split.
      * intros k Hk. apply Hframe. rewrite fmap_cons in Hk.
        by apply not_elem_of_cons in Hk as [_ Hk].
      * intros Hnd p Hp Hskip. rewrite fmap_cons in Hnd.
        apply NoDup_cons in Hnd as [_ Hnd].
        apply elem_of_cons in Hp as [-> | Hp]; [congruence|]. by apply Hprops.
    + destruct (param_property_total m q) as (prop & Hprop & _).
      rewrite Hprop.
      destruct (IH (od_set properties (param_name q) prop)
                  (match param_default q with
                   | None => required ++ [param_name q]
                   | Some _ => required
                   end)) as (ps & -> & Hframe & Hprops).
      exists ps. split.
      * f_equal. f_equal. destruct (param_default q) eqn:Hd.
        -- rewrite decide_False by (intros []; congruence). done.
        -- rewrite decide_True by done. rewrite fmap_cons.
           by rewrite <- app_assoc.
      * split.
        -- intros k Hk. rewrite fmap_cons in Hk.
           apply not_elem_of_cons in Hk as [Hne Hk].
           rewrite Hframe by done. by apply od_get_set_ne.
        -- intros Hnd p Hp Hskip. rewrite fmap_cons in Hnd.
           apply NoDup_cons in Hnd as [Hq' Hnd].
           apply elem_of_cons in Hp as [-> | Hp]; [|by apply Hprops].
           exists prop. split; [|done].
           rewrite Hframe by done. apply od_get_set_eq.
Qed.

(** C7 (as the code has it). Schema inference always produces a schema.
    For every declared parameter other than [self] and [params]: the
    annotations [str], [int], [float], [bool] give the JSON types [string],
    [integer], [number], [boolean] and no [items]; no annotation gives
    [string]; [List[str]] and [List[int]] give [array] with an [items]
    sub-schema naming the element type; the description is present iff a
    line of the docstring, once stripped, starts with the parameter's name
    and a colon.  The [required] list holds exactly the parameters without
    a default value, in order, and the schema has no [required] key when
    there is none. *)
Theorem C7_schema_inference (m : method) :
  NoDup (param_name <$> parameters m) →
  ∃ schema,
    _build_input_schema m = Returned schema
    ∧ required_of schema = PStr <$> required_names (parameters m)
    ∧ required_key schema
      = match required_names (parameters m) with
        | [] => None
        | names => Some (PList (PStr <$> names))
        end
    ∧ ∀ p, p ∈ parameters m → skipped p = false →
           ∃ d,
             od_get (properties_of schema) (param_name p) = Some (PDict d)
             ∧ (∀ ty items,
                  schema_rule (param_annotation p) ty items →
                  od_get d "type" = Some (PStr ty)
                  ∧ od_get d "items"
                    = (λ t, PDict [("type", PStr t)]) <$> items)
             ∧ (is_Some (od_get d "description") ↔ documented m p).
Proof.
  intros Hnd. unfold _build_input_schema.
  destruct (build_loop_total m (parameters m) [] [])
    as (ps & -> & _ & Hprops).
  simpl. eexists. split; [reflexivity|]. split; [|split].
  - by destruct (required_names (parameters m)).
  - by destruct (required_names (parameters m)).
  - intros p Hp Hskip.
    destruct (Hprops Hnd p Hp Hskip) as (prop & Hget & Hprop).
    destruct (param_property_total m p)
      as (prop' & Hprop' & d & -> & Hty & Hitems & Hdesc).
    rewrite Hprop in Hprop'. injection Hprop' as ->.
    exists d. split; [|split; [|done]].
    + by destruct (required_names (parameters m)).
    + intros ty items Hrule.
      by rewrite (param_type_rule _ _ _ Hrule) in Hty, Hitems.
Qed.

End SchemaFacts.

(** ** Signals and blackboard *)

Module CoordinatorFacts.
Import Coordinator CoordinatorSpec.

Lemma resets_true L c :
  given (lock_name c) = Some L →
  action c = "release" ∨ action c = "create" →
  resets L c = true.
Proof.
  intros Hname Haction. unfold resets.
  rewrite bool_decide_eq_true_2 by done.
  destruct Haction as [-> | ->]; done.
Qed.

Lemma given_Some s : s ≠ "" → given (Some s) = Some s.
Proof. intros Hs. unfold given. by rewrite bool_decide_eq_false_2. Qed.

Lemma init_wf : wf init.
Proof. split; simpl; intros *; by rewrite lookup_empty. Qed.

Lemma new_event_wf L st : wf st → wf (new_event L st).
Proof.
  intros [Hb Hi]. split; simpl.
  - intros L' a. rewrite length_app. simpl.
    destruct (decide (L = L')) as [->|Hne].
    + rewrite lookup_insert_eq. intros [= <-]. lia.
    + rewrite lookup_insert_ne by done. intros H%Hb. lia.
  - intros L1 L2 a. rewrite !lookup_insert.
    repeat case_decide; subst; try done.
    + intros [= <-] Hlt%Hb. lia.
    + intros Hlt%Hb [= <-]. lia.
    + apply Hi.
Qed.

Lemma write_flag_wf a b st : wf st → wf (write_flag a b st).
Proof.
  intros [Hb Hi]. split; simpl; [|done].
  intros L a'. rewrite length_insert. apply Hb.
Qed.

Lemma lock_object_wf L st : wf st → wf (lock_object L st).2.
Proof.
  intros Hwf. unfold lock_object.
  destruct (sync_locks st !! L); [done|]. by apply new_event_wf.
Qed.

Lemma perform_wf c st : wf st → wf (perform c st).2.
Proof.
  intros Hwf. unfold perform, sync_operations.
  destruct (given (lock_name c)) as [L|]; [|done].
  repeat case_bool_decide; simpl.
  - by apply new_event_wf.
  - pose proof (lock_object_wf L st Hwf).
    destruct (lock_object L st) as [a st']. by destruct (is_set a st').
  - pose proof (lock_object_wf L st Hwf).
    destruct (lock_object L st) as [a st']. by apply write_flag_wf.
  - destruct (sync_locks st !! L); [by apply write_flag_wf | done].
  - done.
Qed.

Lemma new_event_signalled L L' st :
  wf st → L ≠ L' → signalled L st → signalled L (new_event L' st).
Proof.
  intros [Hb _] Hne (a & Ha & Hflag). exists a. simpl.
  rewrite lookup_insert_ne by done. split; [done|].
  by apply lookup_app_l_Some.
Qed.

Lemma lock_object_signalled L L' st :
  wf st → signalled L st → signalled L (lock_object L' st).2.
Proof.
  intros Hwf Hs. unfold lock_object.
  destruct (sync_locks st !! L') eqn:HL'; [done|].
  apply new_event_signalled; [done| |done].
  intros <-. destruct Hs as (a & Ha & _). congruence.
Qed.

(** A set signal stays set through every call that is not a [release] or a
    [create] of its own name. *)
Lemma perform_signalled L c st :
  wf st → resets L c = false → signalled L st →
  signalled L (perform c st).2.
Proof.
  intros Hwf Hres Hs. unfold perform, sync_operations.
  destruct (given (lock_name c)) as [L'|] eqn:Hname; [|done].
  repeat case_bool_decide; simpl.
  - apply new_event_signalled; [done| |done].
    intros <-. rewrite resets_true in Hres; [done..|by right].
  - pose proof (lock_object_signalled L L' st Hwf Hs).
    destruct (lock_object L' st) as [a st']. by destruct (is_set a st').
  - pose proof (lock_object_signalled L L' st Hwf Hs) as (a & Ha & Hflag).
    destruct (lock_object L' st) as [a' st']. simpl in *.
    exists a. split; [done|]. simpl.
    destruct (decide (a' = a)) as [->|Hne].
    + apply list_lookup_insert_eq. by eapply lookup_lt_Some.
    + by rewrite list_lookup_insert_ne.
  - destruct (sync_locks st !! L') as [a'|] eqn:HL'; [|done].
    destruct Hs as (a & Ha & Hflag). exists a. split; [done|]. simpl.
    rewrite list_lookup_insert_ne; [done|].
    intros ->. rewrite resets_true in Hres; [done| |by left].
    rewrite Hname. f_equal. by eapply (wf_inj st Hwf).
  - done.
Qed.

Lemma run_wf history st : wf st → wf (run history st).
Proof.
  revert st. induction history as [|c history IH]; intros st Hwf; [done|].
  apply IH. by apply perform_wf.
Qed.

Lemma run_signalled L history st :
  wf st → Forall (λ c, resets L c = false) history →
  signalled L st → signalled L (run history st).
Proof.
  revert st. induction history as [|c history IH]; intros st Hwf Hall Hs;
    [done|].
  apply Forall_cons in Hall as [Hc Hall].
  apply IH; [by apply perform_wf | done | by apply perform_signalled].
Qed.

Lemma set_signals L t st :
  L ≠ "" → wf st →
  success_of (sync_operations "set" (Some L) t st).1 = true
  ∧ signalled L (sync_operations "set" (Some L) t st).2.
Proof.
  intros HL Hwf. unfold sync_operations.
  rewrite given_Some by done. simpl.
  unfold lock_object.
  destruct (sync_locks st !! L) as [a|] eqn:Ha; simpl; (split; [done|]).
  - exists a. split; [done|]. simpl.
    apply list_lookup_insert_eq. by eapply (wf_bound st Hwf).
  - exists (length (events st)). simpl.
    rewrite lookup_insert_eq. split; [done|].
    rewrite insert_app_r_alt, Nat.sub_diag by done. simpl.
    by rewrite lookup_app_r, Nat.sub_diag.
Qed.

Lemma wait_signalled L t st :
  L ≠ "" → signalled L st →
  sync_operations "wait" (Some L) t st
  = (reply true ("锁 " +:+ L +:+ " 已触发"), st).
Proof.
  intros HL (a & Ha & Hflag). unfold sync_operations.
  rewrite given_Some by done. simpl.
  unfold lock_object. rewrite Ha. unfold is_set. by rewrite Hflag.
Qed.

Lemma create_unsets L t st :
  L ≠ "" → wf st →
  ∃ a, sync_locks (sync_operations "create" (Some L) t st).2 !! L = Some a
       ∧ events (sync_operations "create" (Some L) t st).2 !! a = Some false.
Proof.
  intros HL Hwf. unfold sync_operations.
  rewrite given_Some by done. simpl.
  exists (length (events st)). rewrite lookup_insert_eq. split; [done|].
  by rewrite lookup_app_r, Nat.sub_diag.
Qed.

(** C6 (as the code has it). For a name [L] that is not empty: once
    [set(L)] has occurred, every [wait(L, timeout)] returns success - at
    every point of the history that follows and after it - as long as the
    history holds no [release(L)] and no [create(L)]; [wait] and [set] make
    the signal when the name is not known; [release(L)] succeeds after a
    [create(L)] and fails on a name that is not known. *)
Theorem C6_signal_latch (L : string) (st : state) (history : list call)
    (t : Z) :
  L ≠ "" →
  wf st →
  Forall (λ c, resets L c = false) history →
  let after_set := (sync_operations "set" (Some L) t st).2 in
  success_of (sync_operations "set" (Some L) t st).1 = true
  ∧ (∀ before c rest t',
       history = before ++ c :: rest →
       success_of (sync_operations "wait" (Some L) t' (run before after_set)).1
       = true)
  ∧ (∀ t', success_of
             (sync_operations "wait" (Some L) t' (run history after_set)).1
           = true)
  ∧ is_Some (sync_locks (sync_operations "wait" (Some L) t st).2 !! L)
  ∧ is_Some (sync_locks after_set !! L)
  ∧ success_of
      (sync_operations "release" (Some L) t
         (sync_operations "create" (Some L) t st).2).1 = true
  ∧ (sync_locks st !! L = None →
     success_of (sync_operations "release" (Some L) t st).1 = false).
Proof.
  intros HL Hwf Hall after_set.
  destruct (set_signals L t st HL Hwf) as [Hset Hs].
  pose proof (perform_wf {| action := "set"; lock_name := Some L;
                            timeout := t |} st Hwf) as Hwf1.
  change (wf after_set) in Hwf1. fold after_set in Hs.
  split; [done|]. split; [|split; [|split; [|split; [|split]]]].
  - intros before c rest t' ->. apply Forall_app in Hall as [Hbefore _].
    rewrite (wait_signalled L t' _ HL); [done|].
    by apply run_signalled.
  - intros t'. rewrite (wait_signalled L t' _ HL); [done|].
    by apply run_signalled.
  - unfold sync_operations.
    rewrite given_Some by done. simpl. unfold lock_object.
    destruct (sync_locks st !! L) eqn:Ha; simpl;
      destruct (is_set _ _); simpl.
    1,2: by rewrite Ha.
    1,2: by rewrite lookup_insert_eq.
  - destruct Hs as (a & -> & _). done.
  - destruct (create_unsets L t st HL Hwf) as (a & Ha & _).
    unfold sync_operations at 1.
    rewrite given_Some by done. simpl. by rewrite Ha.
  - intros Hnone. unfold sync_operations.
    rewrite given_Some by done. simpl. by rewrite Hnone.
Qed.

(** ** The blackboard *)

Section blackboard_facts.
Variable adb_copy : string → string → string → pyval.

Lemma share_stores k v st :
  k ≠ "" → v ≠ PNone →
  success_of (share adb_copy k v st).1 = true
  ∧ shared_data (share adb_copy k v st).2 = <[k := v]> (shared_data st).
Proof.
  intros Hk Hv. unfold share, share_between_devices.
  rewrite given_Some by done. simpl. by destruct v.
Qed.

Lemma get_reads k st :
  k ≠ "" →
  get adb_copy k st
  = (match shared_data st !! k with
     | Some value => PDict [("success", PBool true); ("data", value)]
     | None => reply false ("共享数据中不存在键: " +:+ k)
     end, st).
Proof.
  intros Hk. unfold get, share_between_devices.
  rewrite given_Some by done. simpl.
  by destruct (shared_data st !! k).
Qed.

(** C8 (as the code has it). For a key [k] that is not empty and a value
    [v] other than [None]: [share(k, v)] succeeds and a [get(k)] that
    follows returns [v]; a later [share(k, v')] wins; a share under another
    key does not change what [get(k)] returns; and [get(k)] for a key that
    holds nothing fails with the not-found message. *)
Theorem C8_blackboard_last_writer_wins (k k' : string) (v v' : pyval)
    (st : state) :
  k ≠ "" → k' ≠ "" → k' ≠ k → v ≠ PNone → v' ≠ PNone →
  success_of (share adb_copy k v st).1 = true
  ∧ (get adb_copy k (share adb_copy k v st).2).1
    = PDict [("success", PBool true); ("data", v)]
  ∧ (get adb_copy k (share adb_copy k v' (share adb_copy k v st).2).2).1
    = PDict [("success", PBool true); ("data", v')]
  ∧ (get adb_copy k (share adb_copy k' v' (share adb_copy k v st).2).2).1
    = PDict [("success", PBool true); ("data", v)]
  ∧ (shared_data st !! k = None →
     (get adb_copy k st).1 = reply false ("共享数据中不存在键: " +:+ k)).
Proof.
  intros Hk Hk' Hne Hv Hv'.
  destruct (share_stores k v st Hk Hv) as [Hok Hst].
  destruct (share_stores k v' (share adb_copy k v st).2 Hk Hv') as [_ Hst'].
  destruct (share_stores k' v' (share adb_copy k v st).2 Hk' Hv') as [_ Hst''].
  rewrite !get_reads by done.
  rewrite Hst', Hst'', Hst. simpl.
  rewrite lookup_insert_eq, lookup_insert_eq.
  rewrite lookup_insert_ne, lookup_insert_eq by done.
  repeat split; try done. by intros ->.
Qed.

End blackboard_facts.

End CoordinatorFacts.


(** * Runs of the small server *)

(** The library at work: a string that writes an integer is stored as the
    integer, a float is cut, a boolean is counted, other strings stay. *)
Example validate_id_coerces :
  Pydantic.validate_id (PStr "5") = Returned (inl 5%Z)
  ∧ Pydantic.validate_id (PStr " -1_000 ") = Returned (inl (-1000)%Z)
  ∧ Pydantic.validate_id (PStr "abc") = Returned (inr "abc")
  ∧ Pydantic.validate_id (PFloat "1.5") = Returned (inl 1%Z)
  ∧ Pydantic.validate_id (PFloat "-2.75") = Returned (inl (-2)%Z)
  ∧ Pydantic.validate_id (PFloat "1e+23")
    = Returned (inl 99999999999999991611392%Z)
  ∧ Pydantic.validate_id (PFloat "1e-05") = Returned (inl 0%Z)
  ∧ Pydantic.validate_id (PFloat "nan") = Returned (inr "nan")
  ∧ Pydantic.validate_id (PBool true) = Returned (inl 1%Z)
  ∧ Pydantic.validate_id (PList [PInt 1])
    = Raised (PyException "ValidationError"
                "1 validation error for MCPResponse").
Proof. vm_compute. repeat split. Qed.

(** ** The dispatcher *)

Lemma accepted_one : accepted_id rt0 (PInt 1) (PInt 1).
Proof. by exists (inl 1%Z). Defined.

Lemma direct_request_shape nm :
  is_request (direct_request nm) (PInt 1) ("tools/" +:+ nm) (PDict []).
Proof. by eexists. Defined.

Lemma call_request_shape nm :
  is_request (call_request nm) (PInt 1) "tools/call" (call_params nm).
Proof. by eexists. Defined.

Lemma call_params_shape nm : names_tool (call_params nm) nm (PDict []).
Proof. by eexists. Defined.

Lemma tools0_meta_call : meta_call_intact tools0.
Proof. by eexists. Defined.

(** C1, as stated, fails on this server: the tool [boom] raises
    [RuntimeError("device offline")]; invoked directly, the message sent
    carries the exception's text; invoked through [tools/call], the message
    carries it too and the code is [-32000], not InternalError. *)
Lemma C1_counterexample :
  (_handle_single_request rt0 tools0 (direct_request "boom") w0).1
  = Returned (error_envelope (PInt 1) "服务器内部错误: device offline" (-32603))
  ∧ (_handle_single_request rt0 tools0 (call_request "boom") w0).1
    = Returned (error_envelope (PInt 1) "工具调用失败: device offline" (-32000)).
Proof. split; vm_compute; reflexivity. Qed.

Lemma C1_witness :
  (∃ r w', _handle_single_request rt0 tools0 (direct_request "boom") w0
           = (Returned r, w')
           ∧ error_code r = Some (-32603)%Z
           ∧ has_field r "result" = false
           ∧ error_message r = Some "服务器内部错误: device offline"
           ∧ w' = with_log (with_ext w0 ()) ERROR
                    "处理请求 'tools/boom' 时发生错误: device offline")
  ∧ (handler boom = Def (always (Raised offline)) →
     ∃ r w', _handle_single_request rt0 tools0 (call_request "boom") w0
             = (Returned r, w')
             ∧ has_field r "error" = true
             ∧ has_field r "result" = false
             ∧ error_message r = Some "工具调用失败: device offline"
             ∧ (ERROR, "调用工具 'boom' 时发生错误: device offline") ∈ logs w').
Proof.
  apply (C1_handler_exception rt0 tools0 boom (always (Raised offline))
           "RuntimeError" "device offline" "boom" (PDict []) (PInt 1) (PInt 1)
           (direct_request "boom") (call_request "boom") (call_params "boom")
           () w0).
  - reflexivity.
  - left. reflexivity.
  - reflexivity.
  - exact accepted_one.
  - exact (direct_request_shape "boom").
  - exact tools0_meta_call.
  - exact (call_request_shape "boom").
  - exact (call_params_shape "boom").
Defined.

Lemma C2_witness :
  _handle_single_request rt0 tools0 (direct_request "later") w0
  = (Returned (success_envelope (PInt 1) (PInt 7)), with_ext w0 ())
  ∧ _handle_single_request rt0 tools0 (call_request "later") w0
    = (Returned
         (error_envelope (PInt 1)
            "服务器内部错误: Object of type coroutine is not JSON serializable"
            (-32603)),
       with_log w0 ERROR
         "处理请求 'tools/call' 时发生错误: Object of type coroutine is not JSON serializable").
Proof.
  apply (C2_coroutine_not_awaited_by_tools_call rt0 tools0 later
           (always (Returned (PInt 7))) "later" (PDict []) (PInt 1) (PInt 1)
           (direct_request "later") (call_request "later")
           (call_params "later") (PInt 7) () w0).
  - reflexivity.
  - reflexivity.
  - reflexivity.
  - reflexivity.
  - exact accepted_one.
  - exact (direct_request_shape "later").
  - exact tools0_meta_call.
  - exact (call_request_shape "later").
  - exact (call_params_shape "later").
Defined.

(** C3, as stated, fails on the empty body: the code answers
    InvalidRequest, not ParseError. *)
Lemma C3_counterexample :
  (handle_jsonrpc rt0 tools0 [] w0).1
  = Returned (error_envelope PNone "无效的空请求" (-32600)).
Proof. vm_compute. reflexivity. Qed.

(** The body is the single byte of an opening brace. *)
Lemma C3_witness :
  (∃ r, handle_jsonrpc rt0 tools0 [] w0 = (Returned r, w0)
        ∧ error_code r = Some (-32600)%Z
        ∧ has_field r "result" = false
        ∧ envelope_id r = PNone)
  ∧ (∃ r, handle_jsonrpc rt0 tools0 [Byte.x7b] w0 = (Returned r, w0)
          ∧ error_code r = Some (-32700)%Z
          ∧ has_field r "result" = false
          ∧ envelope_id r = PNone).
Proof.
  apply (C3_empty_and_malformed_bodies rt0 tools0 [Byte.x7b] "{"
           "Expecting value" w0).
  - discriminate.
  - reflexivity.
  - reflexivity.
Defined.

Lemma C4_witness :
  (∃ w', _handle_single_request rt0 tools0 (direct_request "denied") w0
         = (Returned (error_envelope (PInt 1) "not allowed" (-32001)), w'))
  ∧ (∃ w', _handle_single_request rt0 tools0 (call_request "denied") w0
           = (Returned
                (error_envelope (PInt 1) "工具调用失败: not allowed" (-32000)),
              w')).
Proof.
  apply (C4_application_error_rewrapped_by_tools_call rt0 tools0 denied
           (always (Raised (MCPError "not allowed" (-32001))))
           "not allowed" (-32001) "denied" (PDict []) (PInt 1) (PInt 1)
           (direct_request "denied") (call_request "denied")
           (call_params "denied") () w0).
  - reflexivity.
  - reflexivity.
  - reflexivity.
  - exact accepted_one.
  - exact (direct_request_shape "denied").
  - exact tools0_meta_call.
  - exact (call_request_shape "denied").
  - exact (call_params_shape "denied").
Defined.

Lemma C5_witness :
  ∃ r, _handle_single_request rt0 tools0 (direct_request "quiet") w0
       = (Returned r, with_ext w0 ())
       ∧ has_field r "result" = false
       ∧ has_field r "error" = false.
Proof.
  apply (C5_none_result_leaves_empty_envelope rt0 tools0 quiet
           (always (Returned PNone)) "tools/quiet" (PDict []) (PInt 1)
           (PInt 1) (direct_request "quiet") () w0).
  - reflexivity.
  - left. reflexivity.
  - reflexivity.
  - exact accepted_one.
  - exact (direct_request_shape "quiet").
Defined.

(** On a new server, the tool that took the name [list] answers
    [tools/list] requests and the listing stays empty. *)
Example impostor_not_listed :
  ∃ tools' w',
    register_tool (register_core_tools []) impostor w0 = (Returned tools', w')
    ∧ handler <$> od_get tools' "tools/list"
      = Some (Def (always (Returned (PInt 7))))
    ∧ _handle_tools_list tools' PNone = PDict [("tools", PList [])]
    ∧ (_handle_single_request rt0 tools'
         (request (PInt 1) "tools/list" (PDict [])) w').1
      = Returned (success_envelope (PInt 1) (PInt 7)).
Proof. eexists _, _. split; [reflexivity|]. by vm_compute. Qed.

(** C10, as stated, fails for a tool named [list]: once it is registered,
    the answer to [tools/list] is what its handler returns, here a listing
    in which the replacement itself appears. *)
Lemma C10_counterexample :
  (register_tool tools0 selfish w0).1
  = Returned (od_set tools0 "tools/list" selfish)
  ∧ (_handle_single_request rt0 (od_set tools0 "tools/list" selfish)
       (request (PInt 1) "tools/list" (PDict [])) w0).1
    = Returned
        (success_envelope (PInt 1)
           (PDict [("tools", PList [PDict [("name", PStr "list")]])])).
Proof. split; vm_compute; reflexivity. Qed.

Lemma tools0_meta_list : meta_list_intact tools0.
Proof. by eexists. Defined.

(** [impostor] takes the place of [tools/list] and answers the requests
    for it; [hijack] takes the place of [tools/call], and the listing is
    what it was. *)
Lemma C10_witness :
  (∃ tools',
     register_tool tools0 impostor w0
     = (Returned tools',
        {| logs := logs w0 ++ [(INFO, "注册MCP工具: " +:+ name impostor)];
           ext := ext w0 |})
     ∧ od_get tools' ("tools/" +:+ name impostor) = Some impostor
     ∧ ∀ data id params w1,
         is_request data id "tools/list" params →
         _handle_single_request rt0 tools' data w1
         = try_except
             (result ← _call_handler rt0 tools' (handler impostor) params;
              _create_success_response rt0 id result)
             (single_request_except rt0 "tools/list" id) w1)
  ∧ (∃ tools',
       register_tool tools0 hijack w0
       = (Returned tools',
          {| logs := logs w0 ++ [(INFO, "注册MCP工具: " +:+ name hijack)];
             ext := ext w0 |})
       ∧ od_get tools' ("tools/" +:+ name hijack) = Some hijack
       ∧ _handle_single_request rt0 tools'
           (request (PInt 1) "tools/list" (PDict [])) w0
         = (Returned
              (success_envelope (PInt 1) (_handle_tools_list tools0 (PDict []))),
            w0)).
Proof.
  split.
  - destruct (C10_meta_tool_replaced rt0 tools0 impostor w0
                (or_introl eq_refl))
      as (tools' & Hreg & Hget & _ & _ & _ & _ & Hlist).
    exists tools'. split; [exact Hreg|]. split; [exact Hget|].
    exact (Hlist eq_refl).
  - destruct (C10_meta_tool_replaced rt0 tools0 hijack w0
                (or_intror eq_refl))
      as (tools' & Hreg & Hget & _ & _ & _ & Hcall & _).
    exists tools'. split; [exact Hreg|]. split; [exact Hget|].
    apply (Hcall eq_refl tools0_meta_list _ (PInt 1) (PInt 1) (PDict [])).
    + by eexists.
    + exact accepted_one.
    + reflexivity.
Defined.

(** ** Clean-up *)



Example sound_resources_cleaned :
  foldl run_hook (ext w1) (controllers sound_resources) = ["first"; "second"].
Proof. reflexivity. Qed.

(** ** Schema inference *)

Import Schema SchemaSpec SchemaFacts.

Example install_method_schema :
  _build_input_schema install_method
  = Returned
      (PDict
         [("type", PStr "object");
          ("properties",
           PDict
             [("package",
               PDict [("type", PStr "string");
                      ("description", PStr "name of the package")]);
              ("ratios", PDict [("type", PStr "string")]);
              ("retries", PDict [("type", PStr "integer")]);
              ("tags",
               PDict [("type", PStr "array");
                      ("items", PDict [("type", PStr "string")]);
                      ("description", PStr "labels to attach")])]);
          ("required", PList [PStr "package"; PStr "ratios"])]).
Proof. vm_compute. reflexivity. Qed.

(** Without a parameter to require, the schema has no [required] key. *)
Example defaults_method_schema :
  _build_input_schema defaults_method
  = Returned
      (PDict
         [("type", PStr "object");
          ("properties", PDict [("retries", PDict [("type", PStr "integer")])])]).
Proof. vm_compute. reflexivity. Qed.

(** C7, as stated, fails on a list of floats: the parameter is given the
    type [string] and no [items]. *)
Lemma C7_counterexample :
  _build_input_schema ratios_method
  = Returned
      (PDict
         [("type", PStr "object");
          ("properties", PDict [("ratios", PDict [("type", PStr "string")])]);
          ("required", PList [PStr "ratios"])]).
Proof. vm_compute. reflexivity. Qed.

Lemma C7_witness :
  ∃ schema,
    _build_input_schema install_method = Returned schema
    ∧ required_of schema = PStr <$> required_names (parameters install_method)
    ∧ required_key schema
      = match required_names (parameters install_method) with
        | [] => None
        | names => Some (PList (PStr <$> names))
        end
    ∧ ∀ p, p ∈ parameters install_method → skipped p = false →
           ∃ d,
             od_get (properties_of schema) (param_name p) = Some (PDict d)
             ∧ (∀ ty items,
                  schema_rule (param_annotation p) ty items →
                  od_get d "type" = Some (PStr ty)
                  ∧ od_get d "items"
                    = (λ t, PDict [("type", PStr t)]) <$> items)
             ∧ (is_Some (od_get d "description")
                ↔ documented install_method p).
Proof.
  apply (C7_schema_inference install_method).
  apply (bool_decide_unpack _). vm_compute. reflexivity.
Defined.

(** ** Signals and blackboard *)

Import Coordinator CoordinatorSpec CoordinatorFacts.

(** C6, as stated, fails when a [create] follows the [set]: without any
    [release], the next wait times out; and [create] changes what a
    [release] answers. *)
Lemma C6_counterexample :
  let after_set := (sync_operations "set" (Some "door") 30 init).2 in
  let after_create := (sync_operations "create" (Some "door") 30 after_set).2 in
  success_of (sync_operations "wait" (Some "door") 30 after_set).1 = true
  ∧ success_of (sync_operations "wait" (Some "door") 30 after_create).1 = false
  ∧ success_of (sync_operations "release" (Some "door") 30 init).1 = false
  ∧ success_of
      (sync_operations "release" (Some "door") 30
         (sync_operations "create" (Some "door") 30 init).2).1 = true.
Proof. vm_compute. done. Qed.

Lemma C6_witness :
  let after_set := (sync_operations "set" (Some "door") 30 init).2 in
  success_of (sync_operations "set" (Some "door") 30 init).1 = true
  ∧ (∀ before c rest t',
       busy_history = before ++ c :: rest →
       success_of
         (sync_operations "wait" (Some "door") t' (run before after_set)).1
       = true)
  ∧ (∀ t', success_of
             (sync_operations "wait" (Some "door") t'
                (run busy_history after_set)).1
           = true)
  ∧ is_Some (sync_locks (sync_operations "wait" (Some "door") 30 init).2
             !! "door")
  ∧ is_Some (sync_locks after_set !! "door")
  ∧ success_of
      (sync_operations "release" (Some "door") 30
         (sync_operations "create" (Some "door") 30 init).2).1 = true
  ∧ (sync_locks init !! "door" = None →
     success_of (sync_operations "release" (Some "door") 30 init).1 = false).
Proof.
  apply (C6_signal_latch "door" init busy_history 30).
  - discriminate.
  - exact init_wf.
  - repeat constructor.
Defined.

(** C8, as stated, fails for the JSON value [null]: the share is refused
    and the key holds nothing. *)
Lemma C8_counterexample :
  share no_adb "k" PNone init = (reply false "未指定数据值", init)
  ∧ (get no_adb "k" (share no_adb "k" PNone init).2).1
    = reply false "共享数据中不存在键: k".
Proof. vm_compute. done. Qed.

Lemma C8_witness :
  success_of (share no_adb "k" (PStr "v") init).1 = true
  ∧ (get no_adb "k" (share no_adb "k" (PStr "v") init).2).1
    = PDict [("success", PBool true); ("data", PStr "v")]
  ∧ (get no_adb "k"
       (share no_adb "k" (PInt 2) (share no_adb "k" (PStr "v") init).2).2).1
    = PDict [("success", PBool true); ("data", PInt 2)]
  ∧ (get no_adb "k"
       (share no_adb "other" (PInt 2)
          (share no_adb "k" (PStr "v") init).2).2).1
    = PDict [("success", PBool true); ("data", PStr "v")]
  ∧ (shared_data init !! "k" = None →
     (get no_adb "k" init).1 = reply false ("共享数据中不存在键: " +:+ "k")).
Proof.
  apply (C8_blackboard_last_writer_wins no_adb "k" "other" (PStr "v")
           (PInt 2) init); discriminate.
Defined.

(** * Further properties *)

(** ** Requests the dispatcher refuses *)

Section refusals.
Context {W : Type}.
Variable rt : runtime.
Implicit Types (w : world W) (tools : list (string * MCPTool W))
  (d : list (string * pyval)).

Lemma handle_jsonrpc_parsed tools body data w :
  parses rt body data →
  handle_jsonrpc rt tools body w
  = try_except
      (if isinstance_list data then _handle_batch_request rt data
       else _handle_single_request rt tools data)
      (top_level_except rt (Some data)) w.
Proof.
  intros (Hbody & text & Hdecode & Hloads).
  destruct body as [|b body]; [done|].
  unfold handle_jsonrpc, mbind, M_bind, bind, lift.
  by rewrite Hdecode, Hloads.
Qed.

Lemma invalid_request_dict d :
  od_get d "jsonrpc" ≠ Some (PStr "2.0") ∨ od_get d "method" = None →
  invalid_request (PDict d) = true.
Proof.
  unfold invalid_request, od_mem. intros [Hv | ->].
  - destruct (od_get d "jsonrpc") as [[]|]; simpl; try done.
    rewrite bool_decide_eq_false_2; [done|]. congruence.
  - apply orb_true_r.
Qed.

(** X1. A request object whose version tag is missing or is not the string
    ["2.0"], or that has no [method] member, is answered with InvalidRequest
    [-32600] and the request's id as the response model stores it; no
    handler runs and nothing is logged. *)
Theorem invalid_envelope_is_refused tools d id' w :
  od_get d "jsonrpc" ≠ Some (PStr "2.0") ∨ od_get d "method" = None →
  accepted_id rt (default PNone (od_get d "id")) id' →
  _handle_single_request rt tools (PDict d) w
  = (Returned (error_envelope id' "无效的请求" (-32600)), w).
Proof.
  intros Hbad Hid. unfold _handle_single_request.
  rewrite (invalid_request_dict d Hbad).
  unfold mbind, M_bind, bind, lift. simpl.
  by apply create_error_response_accepted.
Qed.

(** X2. A well-formed request whose method is not a key of the registry
    (a string that names no tool, or a value that is no string but can be
    hashed) is answered with MethodNotFound [-32601], a message that quotes
    the method, and the id that the response model stores for the
    request's id: the library may coerce it, a string that writes an
    integer to that integer; no handler runs. *)
Theorem unknown_method_is_not_found tools d m id' w :
  od_get d "jsonrpc" = Some (PStr "2.0") →
  od_get d "method" = Some m →
  isinstance_list m = false →
  isinstance_dict m = false →
  (∀ s, m = PStr s → od_get tools s = None) →
  accepted_id rt (default PNone (od_get d "id")) id' →
  _handle_single_request rt tools (PDict d) w
  = (Returned (error_envelope id' ("方法未找到: " +:+ py_str rt m) (-32601)),
     w).
Proof.
  intros Hv Hm Hlist Hdict Hnone Hid.
  unfold _handle_single_request, invalid_request, od_mem.
  rewrite Hv, Hm. simpl.
  unfold mbind, M_bind, bind, lift. simpl. rewrite Hm. simpl.
  assert (registry_contains tools m = Returned false) as ->.
  { destruct m; try done. simpl. unfold od_mem. by rewrite Hnone. }
  simpl. by apply create_error_response_accepted.
Qed.

(** X3. A body that is a JSON array is answered as a whole with one
    InvalidRequest [-32600] envelope with a null id, whatever the array
    holds: no item is looked at, no handler runs. *)
Theorem batch_is_refused_as_a_whole tools body items w :
  parses rt body (PList items) →
  handle_jsonrpc rt tools body w
  = (Returned (error_envelope PNone "不支持批量请求" (-32600)), w).
Proof.
  intros Hparse. by rewrite (handle_jsonrpc_parsed _ _ _ _ Hparse).
Qed.

(** X4. A body that is JSON but neither an object nor an array (a number, a
    string, [true], [null]) is not answered as an invalid request: the
    refusal reads the id with [data.get], which such a value does not
    have, and the outer handler answers ["Internal error"], [-32603], with
    a null id. *)
Theorem scalar_body_is_an_internal_error tools body data w :
  parses rt body data →
  isinstance_dict data = false →
  isinstance_list data = false →
  handle_jsonrpc rt tools body w
  = (Returned (error_envelope PNone "Internal error" (-32603)),
     with_log w ERROR
       ("处理JSON-RPC请求时发生未捕获的异常: '" +:+ type_name_of data
        +:+ "' object has no attribute 'get'")).
Proof.
  intros Hparse Hdict Hlist.
  rewrite (handle_jsonrpc_parsed _ _ _ _ Hparse), Hlist.
  by destruct data.
Qed.

(** X5. A well-formed request whose method is a list or an object cannot be
    looked up: the registry test raises outside the handler's [try], and
    the outer handler answers ["Internal error"], [-32603], with the id
    that the response model stores for the request's id. *)
Theorem unhashable_method_is_an_internal_error tools body d m id' w :
  parses rt body (PDict d) →
  od_get d "jsonrpc" = Some (PStr "2.0") →
  od_get d "method" = Some m →
  isinstance_list m || isinstance_dict m = true →
  accepted_id rt (default PNone (od_get d "id")) id' →
  handle_jsonrpc rt tools body w
  = (Returned (error_envelope id' "Internal error" (-32603)),
     with_log w ERROR
       ("处理JSON-RPC请求时发生未捕获的异常: unhashable type: '"
        +:+ type_name_of m +:+ "'")).
Proof.
  intros Hparse Hv Hm Hun Hid.
  rewrite (handle_jsonrpc_parsed _ _ _ _ Hparse). simpl.
  unfold try_except, _handle_single_request, invalid_request, od_mem.
  rewrite Hv, Hm. simpl.
  unfold mbind, M_bind, bind, lift. simpl. rewrite Hm. simpl.
  destruct m; try done; simpl; unfold mbind, M_bind, bind, logger;
    by rewrite (create_error_response_accepted rt _ id').
Qed.

(** X6. [tools/call] for a name under which no tool is registered is
    answered with MethodNotFound [-32601] and a message that quotes the
    name as the caller gave it, without the [tools/] prefix ([None] when
    the caller gave none); the id is the one that the response model
    stores for the request's id. *)
Theorem tools_call_unknown_tool tools data id id' params p w :
  meta_call_intact tools →
  is_request data id "tools/call" params →
  params = PDict p →
  od_get tools ("tools/" +:+ py_str rt (default PNone (od_get p "name")))
  = None →
  accepted_id rt id id' →
  _handle_single_request rt tools data w
  = (Returned
       (error_envelope id'
          ("工具未找到: " +:+ py_str rt (default PNone (od_get p "name")))
          (-32601)),
     with_log w WARNING
       ("处理请求 'tools/call' 时发生MCP错误: 工具未找到: "
        +:+ py_str rt (default PNone (od_get p "name"))
        +:+ " (代码: -32601)")).
Proof.
  intros (ct & Hct & Hmeta) Hreq -> Hnone Hid.
  rewrite (single_request_dispatch rt _ _ _ _ _ _ _ Hreq Hct).
  unfold try_except, mbind, M_bind, bind. rewrite Hmeta. simpl.
  assert (∀ n, _handle_tools_call rt tools n (PDict p) w
               = (Raised (MCPError
                            ("工具未找到: "
                             +:+ py_str rt (default PNone (od_get p "name")))
                            (-32601)), w)) as ->.
  { intros n. destruct n; simpl;
      unfold mbind, M_bind, bind, lift, py_get; simpl; by rewrite Hnone. }
  unfold single_request_except, mbind, M_bind, bind, logger.
  rewrite (create_error_response_accepted rt _ id') by done.
  unfold with_log. simpl. by repeat f_equal.
Qed.

End refusals.

(** ** What every answer has *)

Section answers.
Context {W : Type}.
Variable rt : runtime.
Implicit Types (w : world W) (tools : list (string * MCPTool W))
  (tool : MCPTool W) (f : pyval → W → outcome pyval * W)
  (d : list (string * pyval)).

Lemma create_error_response_id id id' message code w r w' :
  accepted_id rt id id' →
  _create_error_response rt id message code w = (Returned r, w') →
  envelope_id r = id'.
Proof.
  intros Hid. rewrite (create_error_response_accepted rt _ id') by done.
  intros [= <- _]. apply error_envelope_reads.
Qed.

Lemma create_success_response_id id id' result w r w' :
  accepted_id rt id id' →
  _create_success_response rt id result w = (Returned r, w') →
  envelope_id r = id'.
Proof.
  intros Hid. destruct (unserialisable result) as [t|] eqn:Hr.
  - by rewrite (create_success_response_unserialisable rt _ id' _ t).
  - rewrite (create_success_response_accepted rt _ id') by done.
    intros [= <- _]. apply success_envelope_reads.
Qed.

Lemma single_request_id tools d id' w r w' :
  accepted_id rt (default PNone (od_get d "id")) id' →
  _handle_single_request rt tools (PDict d) w = (Returned r, w') →
  envelope_id r = id'.
Proof.
  intros Hid. unfold _handle_single_request.
  destruct (invalid_request (PDict d)).
  { intros (rid & ? & Hrid & H)%bind_returned.
    unfold lift in Hrid. simpl in Hrid. simplify_eq.
    by eapply create_error_response_id. }
  intros (rid & ? & Hrid & (method & ? & _ & (params & ? & _
            & (found & ? & _ & H)%bind_returned)%bind_returned)%bind_returned)
           %bind_returned.
  unfold lift in Hrid. simpl in Hrid. simplify_eq.
  destruct found; simpl in H.
  - apply try_except_returned in H as [H | (e & w1 & _ & H)].
    + apply bind_returned in H as (tool & ? & _ & H).
      apply bind_returned in H as (res & ? & _ & H).
      by eapply create_success_response_id.
    + destruct e; apply bind_returned in H as (? & ? & _ & H);
        by eapply create_error_response_id.
  - by eapply create_error_response_id.
Qed.

(** X7. Whatever the body, the registry and the handlers, a response of
    the endpoint is a JSON document tagged ["jsonrpc": "2.0"] that never
    has both a [result] and an [error] member, and whose [error] member,
    when there is one, carries an integer [code] and a string [message]. *)
Theorem responses_are_well_formed tools body w r w' :
  handle_jsonrpc rt tools body w = (Returned r, w') →
  media_type r = "application/json"
  ∧ envelope_field r "jsonrpc" = Some (PStr "2.0")
  ∧ has_field r "result" && has_field r "error" = false
  ∧ (has_field r "error" = true →
     is_Some (error_code r) ∧ is_Some (error_message r)).
Proof.
  intros [(id' & message & code & ->) | (id' & result & ->)]
           %handle_jsonrpc_envelope.
  - by destruct id'.
  - destruct id', result; repeat split; try done.
Qed.

(** X8. A body that parses to a JSON object is always answered whenever
    the response model accepts the id of the request, and the answer
    carries the id that the model stores for it (which the library may
    have coerced): whether the request is refused, names no method, or
    reaches a handler that returns or raises, and also when the
    dispatcher's own code fails. *)
Theorem request_object_is_answered tools body d id' w :
  parses rt body (PDict d) →
  accepted_id rt (default PNone (od_get d "id")) id' →
  ∃ r w', handle_jsonrpc rt tools body w = (Returned r, w')
          ∧ is_envelope r
          ∧ envelope_id r = id'.
Proof.
  intros Hparse Hid. rewrite (handle_jsonrpc_parsed _ _ _ _ _ Hparse). simpl.
  unfold try_except.
  destruct (_handle_single_request rt tools (PDict d) w) as [[r|e] w1] eqn:H.
  - eexists _, _. split; [done|].
    split; [by eapply single_request_envelope | by eapply single_request_id].
  - unfold top_level_except.
    destruct e; unfold mbind, M_bind, bind, logger; simpl;
      rewrite (create_error_response_accepted rt _ id') by done;
      eexists _, _; (split; [done|]);
      (split; [left; by eexists _, _, _ | apply error_envelope_reads]).
Qed.

(** X9. A handler that returns a value holding an object that the
    response model hands on as it is and [json.dumps] cannot write (bytes,
    a set, a coroutine object; not a model, a tuple or a generator, which
    are no [PObj]) has run, and what it did to the collaborators stays,
    but the caller is told of an internal error [-32603] that names the
    type of the object. *)
Theorem unserialisable_result_is_an_internal_error tools data id id' method
    params tool f r t x w :
  is_request data id method params →
  od_get tools method = Some tool →
  runs tool f →
  accepted_id rt id id' →
  f params (ext w) = (Returned r, x) →
  unserialisable r = Some t →
  _handle_single_request rt tools data w
  = (Returned
       (error_envelope id'
          ("服务器内部错误: Object of type " +:+ t
           +:+ " is not JSON serializable") (-32603)),
     with_log (with_ext w x) ERROR
       ("处理请求 '" +:+ method +:+ "' 时发生错误: Object of type " +:+ t
        +:+ " is not JSON serializable")).
Proof.
  intros Hreq Htool Hrun Hid Hf Hr.
  rewrite (single_request_dispatch rt _ _ _ _ _ _ _ Hreq Htool).
  unfold try_except, mbind, M_bind, bind.
  rewrite (call_handler_runs _ _ _ _ _ _ Hrun), Hf.
  rewrite (create_success_response_unserialisable rt _ id' _ t) by done.
  unfold single_request_except, mbind, M_bind, bind, logger.
  by rewrite (create_error_response_accepted rt _ id').
Qed.

End answers.

(** ** Registration *)

Section registration_facts.
Context {V : Type}.
Implicit Types (d : list (string * V)) (k : string) (v : V).

Lemma od_set_fresh d k v : od_get d k = None → od_set d k v = d ++ [(k, v)].
Proof.
  induction d as [|[k' v'] d IH]; simpl; [done|].
  destruct (decide (k' = k)); [done|]. intros H. by rewrite IH.
Qed.

End registration_facts.

Section registration.
Context {W : Type}.
Implicit Types (w : world W) (registry : list (string * MCPTool W))
  (tool : MCPTool W) (new : list (MCPTool W)) (res : resources W)
  (c : controller W).

Lemma string_prefix_app (p s : string) : String.prefix p (p +:+ s) = true.
Proof.
  induction p as [|a p IH].
  - by destruct s.
  - change (String a p +:+ s) with (String a (p +:+ s)).
    cbn [String.prefix]. by destruct (ascii_dec a a).
Qed.

Lemma listed_tool nm :
  nm ≠ "list" → nm ≠ "call" → listed ("tools/" +:+ nm) = true.
Proof.
  intros Hl Hc. unfold listed.
  rewrite !bool_decide_eq_false_2.
  - by rewrite string_prefix_app.
  - intros H. by apply (inj (String.app "tools/") nm "call") in H.
  - intros H. by apply (inj (String.app "tools/") nm "list") in H.
Qed.

Lemma tools_listed_snoc registry key tool params :
  listed key = true →
  tools_listed (_handle_tools_list (registry ++ [(key, tool)]) params)
  = tools_listed (_handle_tools_list registry params) ++ [tool_entry tool].
Proof.
  intros Hk. unfold _handle_tools_list, tools_listed. simpl.
  rewrite flat_map_app. simpl. by rewrite Hk.
Qed.

Lemma register_tool_runs registry tool w :
  register_tool registry tool w
  = (Returned (od_set registry ("tools/" +:+ name tool) tool),
     with_log w INFO ("注册MCP工具: " +:+ name tool)).
Proof. reflexivity. Qed.

(** Registering tools whose names are new, distinct and not those of the
    meta-tools: nothing fails, the collaborators are left alone, the
    listing grows by the new entries in the order of registration, each
    new tool is found under its key, and the other keys keep what they
    had. *)
Lemma register_all_new registry new params w :
  NoDup (name <$> new) →
  (∀ tool, tool ∈ new →
     name tool ≠ "list" ∧ name tool ≠ "call"
     ∧ od_get registry ("tools/" +:+ name tool) = None) →
  ∃ registry' w',
    Tools.register_all registry new w = (Returned registry', w')
    ∧ ext w' = ext w
    ∧ tools_listed (_handle_tools_list registry' params)
      = tools_listed (_handle_tools_list registry params)
        ++ (tool_entry <$> new)
    ∧ (∀ tool, tool ∈ new →
         od_get registry' ("tools/" +:+ name tool) = Some tool)
    ∧ (∀ key, key ∉ (λ tool, "tools/" +:+ name tool) <$> new →
         od_get registry' key = od_get registry key).
Proof.
  revert registry w.
  induction new as [|tool new IH]; intros registry w Hnd Hnew.
  { eexists _, _. split; [reflexivity|]. split; [done|].
    rewrite app_nil_r. split; [done|]. split; [|done].
    intros tool Hin. by apply elem_of_nil in Hin. }
  rewrite fmap_cons in Hnd. apply NoDup_cons in Hnd as [Hfresh Hnd].
  destruct (Hnew tool) as (Hl & Hc & Hnone); [left|].
  cbn [Tools.register_all]. unfold mbind, M_bind, bind.
  rewrite register_tool_runs, (od_set_fresh _ _ _ Hnone).
  match goal with
  | |- context [Tools.register_all ?r new ?w1] =>
      destruct (IH r w1) as (registry' & w' & Hrun & Hext & Hlist & Hget & Hframe);
        [done| |rewrite Hrun]
  end.
  { intros t Hin. destruct (Hnew t) as (? & ? & Ht); [by right|].
    split; [done|]. split; [done|].
    rewrite <- (od_set_fresh _ _ _ Hnone), od_get_set_ne; [done|].
    intros Heq. apply (inj (String.app "tools/")) in Heq.
    apply Hfresh. rewrite Heq. by apply list_elem_of_fmap_2. }
  eexists _, _. split; [reflexivity|]. split; [done|]. split; [|split].
  - rewrite Hlist, tools_listed_snoc by by apply listed_tool.
    by rewrite <- app_assoc.
  - intros t [-> | Hin]%elem_of_cons; [|by apply Hget].
    rewrite Hframe.
    + rewrite <- (od_set_fresh _ _ _ Hnone). apply od_get_set_eq.
    + intros (t' & Heq & Hin)%list_elem_of_fmap.
      apply (inj (String.app "tools/")) in Heq.
      apply Hfresh. rewrite Heq. by apply list_elem_of_fmap_2.
  - intros key Hkey. rewrite fmap_cons in Hkey.
    apply not_elem_of_cons in Hkey as [Hne Hkey].
    rewrite Hframe by done.
    rewrite <- (od_set_fresh _ _ _ Hnone). by apply od_get_set_ne.
Qed.


(** X11. A controller is tracked once, however often it is registered:
    registering keeps the identities in the list distinct, leaves the
    controllers already tracked in place and in order, and registering
    the same object again changes nothing; so each clean-up invokes its
    hook once. *)
Theorem controller_is_tracked_once res c :
  NoDup (oid <$> controllers res) →
  NoDup (oid <$> controllers (register_controller res c))
  ∧ oid c ∈ oid <$> controllers (register_controller res c)
  ∧ controllers res `prefix_of` controllers (register_controller res c)
  ∧ register_controller (register_controller res c) c
    = register_controller res c
  ∧ running_threads (register_controller res c) = running_threads res.
Proof.
  intros Hnd.
  destruct (existsb (λ c', Nat.eqb (oid c') (oid c)) (controllers res))
    eqn:Hex.
  - assert (register_controller res c = res) as Hreg.
    { unfold register_controller. by rewrite Hex. }
    rewrite !Hreg. split; [done|]. split; [|done].
    apply existsb_exists in Hex as (c' & Hin & Heq%Nat.eqb_eq).
    rewrite <- Heq. apply list_elem_of_fmap_2. by apply list_elem_of_In.
  - assert (register_controller res c
            = {| running_threads := running_threads res;
                 controllers := controllers res ++ [c] |}) as Hreg.
    { unfold register_controller. by rewrite Hex. }
    assert (oid c ∉ oid <$> controllers res) as Hnot.
    { intros (c' & Heq & Hin)%list_elem_of_fmap.
      apply not_true_iff_false in Hex. apply Hex, existsb_exists.
      exists c'. split; [by apply list_elem_of_In|].
      by apply Nat.eqb_eq. }
    rewrite !Hreg. cbn [controllers running_threads]. rewrite fmap_app.
    split; [|split; [|split; [|split; [|done]]]].
    + apply NoDup_app. split; [done|]. split; [|apply NoDup_singleton].
      intros o Ho Hin. apply list_elem_of_singleton in Hin. by subst.
    + apply elem_of_app. right. by left.
    + by apply prefix_app_r.
    + unfold register_controller. cbn [controllers running_threads].
      rewrite existsb_app. simpl. by rewrite Nat.eqb_refl, orb_true_r.
Qed.

End registration.

(** ** Tools made from methods *)

Module ToolsFacts.
Import Schema SchemaSpec SchemaFacts Tools ToolsSpec.

Lemma startswith_tool s :
  startswith s "tool_" = true → s = "tool_" +:+ slice_from 5 s.
Proof.
  unfold startswith.
  destruct s as [|a1 [|a2 [|a3 [|a4 [|a5 s]]]]]; cbn [String.prefix];
    try done;
    repeat (destruct (ascii_dec _ _) as [<-|]; [|done]); try done.
Qed.

Lemma build_input_schema_returns m :
  ∃ schema, _build_input_schema m = Returned schema ∧ truthy schema = true.
Proof.
  unfold _build_input_schema.
  destruct (build_loop_total m (parameters m) [] []) as (ps & -> & _).
  simpl. destruct (required_names (parameters m)); by eexists.
Qed.

Lemma split_lines_no_newline s line :
  line ∈ split_lines s → newline ∉ chars line.
Proof.
  revert line. induction s as [|a s IH]; intros line; simpl.
  - intros ->%list_elem_of_singleton. apply not_elem_of_nil.
  - destruct (Ascii.eqb a newline) eqn:Ha.
    + intros [-> | Hin]%elem_of_cons; [apply not_elem_of_nil | by apply IH].
    + destruct (split_lines s) as [|l rest]; simpl.
      * intros ->%list_elem_of_singleton. simpl.
        apply not_elem_of_cons. split; [|apply not_elem_of_nil].
        intros <-. by rewrite Ascii.eqb_refl in Ha.
      * intros [-> | Hin]%elem_of_cons.
        -- simpl. apply not_elem_of_cons. split.
           ++ intros <-. by rewrite Ascii.eqb_refl in Ha.
           ++ apply IH. by left.
        -- apply IH. by right.
Qed.

Lemma description_of_one_line doc : newline ∉ chars (description_of doc).
Proof.
  unfold description_of. case_bool_decide; [apply not_elem_of_nil|].
  destruct (split_lines (strip (default "" doc))) as [|l rest] eqn:Hs;
    [apply not_elem_of_nil|].
  simpl. apply (split_lines_no_newline (strip (default "" doc))).
  rewrite Hs. by left.
Qed.

Section tools_facts.
Context {W : Type}.
Implicit Types (m : member W) (ms : list (member W)) (tool : MCPTool W)
  (self : AndroidTools W).

Lemma create_loop_total ms (acc : list (MCPTool W)) :
  ∃ new, create_loop ms acc = Returned (acc ++ new)
         ∧ Forall2 made_from (List.filter is_tool_method ms) new.
Proof.
  revert acc. induction ms as [|m ms IH]; intros acc.
  { exists []. by rewrite app_nil_r. }
  cbn [create_loop List.filter]. unfold is_tool_method at 1.
  destruct (startswith (member_name m) "tool_") eqn:Hm; [|apply IH].
  destruct (build_input_schema_returns (member_method m))
    as (schema & Hschema & Htruthy).
  rewrite Hschema.
  edestruct IH as (new & -> & Hnew).
  eexists (_ :: new). split; [by rewrite <- app_assoc|].
  constructor; [|done].
  unfold made_from, MCPTool_init. simpl. rewrite Htruthy.
  split; [by apply startswith_tool|]. repeat split; try done.
  by destruct (annotations_of _).
Qed.

(** X12. [create_tools] never fails and makes one tool for each method
    whose name starts with [tool_], in the order of the methods: the tool
    is named after the method without the prefix, its handler is the
    method, and its schema is the one inferred from the method. *)
Theorem tools_are_made_from_methods self :
  ∃ new, create_tools self = Returned new
         ∧ Forall2 made_from (List.filter is_tool_method (members self)) new.
Proof. apply (create_loop_total (members self) []). Qed.

Lemma annotations_of_hints (description : string) :
  let read := mentions description ["获取"; "查询"; "列出"] in
  let destroy := mentions description ["删除"; "卸载"; "清除"] in
  annotations_of description
  = if read then [("readOnlyHint", PBool true)]
    else if destroy then [("destructiveHint", PBool true)]
    else [].
Proof.
  unfold annotations_of, mentions. simpl. rewrite !orb_false_r.
  by repeat destruct (contains description _).
Qed.

(** X13. The description of a tool made by [create_tools] is a single
    line, and the tool carries at most one hint: [readOnlyHint] exactly
    when the description has one of the three words for reading, and
    [destructiveHint] exactly when it has none of them and has one of the
    three words for removing. *)
Theorem description_and_hints self new tool :
  create_tools self = Returned new →
  tool ∈ new →
  (newline ∉ chars (description tool))
  ∧ hint tool "readOnlyHint"
    = mentions (description tool) ["获取"; "查询"; "列出"]
  ∧ hint tool "destructiveHint"
    = negb (mentions (description tool) ["获取"; "查询"; "列出"])
      && mentions (description tool) ["删除"; "卸载"; "清除"]
  ∧ hint tool "readOnlyHint" && hint tool "destructiveHint" = false.
Proof.
  intros Hnew Hin.
  destruct (create_loop_total (members self) []) as (new' & Hrun & Hall).
  unfold create_tools in Hnew. rewrite Hrun in Hnew. simplify_eq. simpl in Hin.
  destruct (proj1 (list_elem_of_lookup _ _) Hin) as (i & Hi).
  destruct (Forall2_lookup_r _ _ _ _ _ Hall Hi)
    as (m & _ & _ & _ & Hdesc & _ & Hann).
  split; [rewrite Hdesc; apply description_of_one_line|].
  unfold hint. rewrite Hann, annotations_of_hints. cbv zeta.
  destruct (mentions (description tool) ["获取"; "查询"; "列出"]);
    destruct (mentions (description tool) ["删除"; "卸载"; "清除"]); done.
Qed.

End tools_facts.

Lemma build_loop_skipped m params properties required :
  Forall (λ p, skipped p = true) params →
  build_loop m params properties required = Returned (properties, required).
Proof.
  induction 1 as [|p params Hp _ IH]; simpl; [done|]. by rewrite Hp.
Qed.

(** X14. A method that takes nothing but [self] and [params], as every
    tool method of the service does, gets the schema of an object
    without properties and without a [required] list, whatever its
    docstring documents. *)
Theorem conventional_signature_has_empty_schema m :
  Forall (λ p, skipped p = true) (parameters m) →
  _build_input_schema m
  = Returned (PDict [("type", PStr "object"); ("properties", PDict [])]).
Proof.
  intros Hall. unfold _build_input_schema.
  by rewrite build_loop_skipped.
Qed.

Lemma od_set_keys {V} (d : list (string * V)) k v :
  k ∉ d.*1 → (od_set d k v).*1 = d.*1 ++ [k].
Proof.
  induction d as [|[k' v'] d IH]; [done|].
  rewrite fmap_cons. intros [Hne Hk]%not_elem_of_cons.
  cbn [od_set fst] in *. destruct (decide (k' = k)); [done|].
  rewrite fmap_cons. cbn [fst]. by rewrite IH.
Qed.

Lemma build_loop_keys m params properties required properties' required' :
  NoDup (properties.*1 ++ (param_name <$> params)) →
  build_loop m params properties required = Returned (properties', required') →
  properties'.*1
  = properties.*1
    ++ (param_name <$> List.filter (λ p, negb (skipped p)) params).
Proof.
  revert properties required.
  induction params as [|p params IH]; intros properties required Hnd.
  { simpl. intros [= <- _]. by rewrite app_nil_r. }
  cbn [build_loop List.filter]. rewrite fmap_cons in Hnd.
  apply NoDup_app in Hnd as (Hps & Hdisj & [Hp Hparams]%NoDup_cons).
  assert (NoDup (properties.*1 ++ (param_name <$> params))) as Hnd'.
  { apply NoDup_app. split; [done|]. split; [|done].
    intros k Hk Hin. apply (Hdisj k Hk). by right. }
  destruct (skipped p); simpl; [by apply IH|].
  destruct (param_property m p) as [prop|e]; [|done].
  intros Hrun. apply IH in Hrun.
  - rewrite Hrun, od_set_keys, <- app_assoc; [done|].
    intros Hin. apply (Hdisj _ Hin). by left.
  - rewrite od_set_keys by (intros Hin; apply (Hdisj _ Hin); by left).
    rewrite <- app_assoc. apply NoDup_app. split; [done|]. split.
    + intros k Hk [->%list_elem_of_singleton | Hin]%elem_of_app.
      * apply (Hdisj _ Hk). by left.
      * apply (Hdisj _ Hk). by right.
    + simpl. by apply NoDup_cons.
Qed.

(** X15. The properties of an inferred schema are exactly the declared
    parameters other than [self] and [params], each once and in the order
    of the signature. *)
Theorem properties_follow_the_signature m :
  NoDup (param_name <$> parameters m) →
  ∃ schema,
    _build_input_schema m = Returned schema
    ∧ (properties_of schema).*1
      = param_name <$> List.filter (λ p, negb (skipped p)) (parameters m).
Proof.
  intros Hnd. unfold _build_input_schema.
  destruct (build_loop m (parameters m) [] []) as [[ps rq]|e] eqn:Hrun.
  - apply build_loop_keys in Hrun; [|done].
    eexists. split; [reflexivity|]. by destruct rq.
  - destruct (build_loop_total m (parameters m) [] []) as (? & Hret & _).
    congruence.
Qed.

End ToolsFacts.

(** ** The service as [main] sets it up *)

Section service.
Context {W : Type}.
Import Schema Tools ToolsSpec ToolsFacts.
Implicit Types (w : world W) (self : AndroidTools W) (res : resources W)
  (c : controller W) (cs : list (controller W)).

Lemma register_controllers_new res cs :
  NoDup ((oid <$> controllers res) ++ (oid <$> cs)) →
  foldl register_controller res cs
  = {| running_threads := running_threads res;
       controllers := controllers res ++ cs |}.
Proof.
  revert res. induction cs as [|c cs IH]; intros res Hnd.
  { rewrite app_nil_r. by destruct res. }
  cbn [foldl]. rewrite fmap_cons in Hnd.
  assert (register_controller res c
          = {| running_threads := running_threads res;
               controllers := controllers res ++ [c] |}) as ->.
  { unfold register_controller.
    destruct (existsb _ (controllers res)) eqn:Hex; [|done].
    apply existsb_exists in Hex as (c' & Hin & Heq%Nat.eqb_eq).
    apply NoDup_app in Hnd as (_ & Hdisj & _).
    destruct (Hdisj (oid c)); [|by left].
    rewrite <- Heq. apply list_elem_of_fmap_2. by apply list_elem_of_In. }
  rewrite IH; cbn [controllers running_threads].
  - by rewrite <- app_assoc.
  - rewrite fmap_app, <- app_assoc. done.
Qed.

Lemma made_from_names (ms : list (member W)) (new : list (MCPTool W)) :
  Forall2 made_from ms new →
  member_name <$> ms = String.app "tool_" <$> (name <$> new).
Proof.
  induction 1 as [|m tool ms new (Hname & _) _ IH]; [done|].
  rewrite !fmap_cons. by rewrite Hname, IH.
Qed.

Lemma filter_names (f : member W → bool) (ms : list (member W)) :
  NoDup (member_name <$> ms) → NoDup (member_name <$> List.filter f ms).
Proof.
  induction ms as [|m ms IH]; [done|].
  rewrite fmap_cons. intros [Hm Hnd]%NoDup_cons. cbn [List.filter].
  destruct (f m); [|by apply IH].
  rewrite fmap_cons. apply NoDup_cons. split; [|by apply IH].
  intros (m' & Heq & Hin)%list_elem_of_fmap. apply Hm. rewrite Heq.
  apply list_elem_of_fmap_2.
  apply list_elem_of_In in Hin. apply filter_In in Hin as [Hin _].
  by apply list_elem_of_In.
Qed.

Lemma core_tools_key nm :
  nm ≠ "list" → nm ≠ "call" →
  od_get (register_core_tools (W := W) []) ("tools/" +:+ nm) = None.
Proof.
  intros Hl Hc. unfold register_core_tools. simpl.
  destruct (decide _) as [H|_].
  { by apply (inj (String.app "tools/") "list" nm) in H. }
  destruct (decide _) as [H|_]; [|done].
  by apply (inj (String.app "tools/") "call" nm) in H.
Qed.

(** X16. The service as [main] sets it up: a new server on which
    [register_android_tools] builds an [AndroidTools] object and registers
    its tools.  When the construction of the object raises, so does the
    registration, and the devices are as the construction left them.
    When it returns an object none of whose methods is named [tool_list]
    or [tool_call], the registration returns and does nothing more to the
    devices; [tools/list] then shows exactly the tools made from the
    [tool_] methods, in their order; each of them answers under
    [tools/<name>]; [tools/call] is still the built-in meta-tool; and the
    five controllers, when they are five distinct objects, are tracked for
    the clean-up, in order. *)
Theorem android_tools_are_served
    (AndroidTools_init : W → outcome (AndroidTools W) * W) params w :
  (∀ e x, AndroidTools_init (ext w) = (Raised e, x) →
          register_android_tools MCPServer_init AndroidTools_init w
          = (Raised e, with_ext w x))
  ∧ (∀ self x,
       AndroidTools_init (ext w) = (Returned self, x) →
       NoDup (member_name <$> members self) →
       (∀ m, m ∈ members self →
             member_name m ≠ "tool_list" ∧ member_name m ≠ "tool_call") →
       NoDup (oid <$> [device_controller self; app_controller self;
                       system_controller self; advanced_controller self;
                       multi_device_controller self]) →
       ∃ new server w',
         create_tools self = Returned new
         ∧ register_android_tools MCPServer_init AndroidTools_init w
           = (Returned server, w')
         ∧ ext w' = x
         ∧ tools_listed (_handle_tools_list (Server.tools server) params)
           = tool_entry <$> new
         ∧ (∀ tool, tool ∈ new →
              od_get (Server.tools server) ("tools/" +:+ name tool)
              = Some tool)
         ∧ meta_call_intact (Server.tools server)
         ∧ controllers (server_resources server)
           = [device_controller self; app_controller self;
              system_controller self; advanced_controller self;
              multi_device_controller self]).
Proof.
  split.
  { intros e x Hinit.
    unfold register_android_tools, mbind, M_bind, bind, external.
    by rewrite Hinit. }
  intros self x Hinit Hnames Hmeta Hoids.
  destruct (create_loop_total (members self) []) as (new & Hnew & Hall).
  simpl in Hnew.
  pose proof (made_from_names _ _ Hall) as Heq.
  assert (NoDup (name <$> new)) as Hnd.
  { apply (NoDup_fmap_1 (String.app "tool_")). rewrite <- Heq.
    by apply filter_names. }
  assert (∀ tool, tool ∈ new →
            name tool ≠ "list" ∧ name tool ≠ "call"
            ∧ od_get (register_core_tools (W := W) [])
                ("tools/" +:+ name tool) = None) as Hfresh.
  { intros tool Hin.
    destruct (proj1 (list_elem_of_lookup _ _) Hin) as (i & Hi).
    destruct (Forall2_lookup_r _ _ _ _ _ Hall Hi) as (m & Hm & Hname & _).
    apply list_elem_of_lookup_2, list_elem_of_In, filter_In in Hm as [Hm _].
    apply list_elem_of_In, Hmeta in Hm as [Hl Hc].
    rewrite Hname in Hl, Hc.
    assert (name tool ≠ "list") by (intros E; apply Hl; by rewrite E).
    assert (name tool ≠ "call") by (intros E; apply Hc; by rewrite E).
    split; [done|]. split; [done|]. by apply core_tools_key. }
  destruct (register_all_new (register_core_tools []) new params
              (with_ext w x) Hnd Hfresh)
    as (registry & w' & Hrun & Hext & Hlist & Hget & Hframe).
  exists new. eexists _, w'. split; [done|].
  unfold register_android_tools, create_tools, mbind, M_bind, bind, lift,
    external.
  rewrite Hinit, Hnew. cbn [Server.tools MCPServer_init].
  fold (with_ext w x). rewrite Hrun.
  split; [reflexivity|]. split; [done|].
  cbn [Server.tools server_resources]. split; [done|]. split; [done|]. split.
  - eexists. rewrite Hframe; [by split|].
    intros (tool & Hkey & Hin)%list_elem_of_fmap.
    apply (inj (String.app "tools/") "call") in Hkey.
    destruct (Hfresh tool Hin) as (_ & Hc & _). by apply Hc.
  - by rewrite register_controllers_new.
Qed.

End service.

(** ** Mailboxes *)

Module FleetFacts.
Import Schema Coordinator CoordinatorSpec Fleet FleetSpec.

Lemma inbox_ensure_queue d d' st :
  inbox (ensure_queue d st) d' = inbox st d'.
Proof.
  unfold ensure_queue, inbox.
  destruct (message_queues st !! d) eqn:Hd; [done|]. simpl.
  destruct (decide (d = d')) as [<-|Hne].
  - by rewrite lookup_insert_eq, Hd.
  - by rewrite lookup_insert_ne.
Qed.

Lemma ensure_queue_is_Some d st :
  is_Some (message_queues (ensure_queue d st) !! d).
Proof.
  unfold ensure_queue.
  destruct (message_queues st !! d) eqn:Hd; [by rewrite Hd|].
  simpl. by rewrite lookup_insert_eq.
Qed.

Lemma ensure_queue_groups d st :
  device_groups (ensure_queue d st) = device_groups st.
Proof. unfold ensure_queue. by destruct (message_queues st !! d). Qed.

Lemma inbox_insert st mq d q d' :
  inbox (with_queues st (<[d := q]> mq)) d'
  = if decide (d = d') then q else default [] (mq !! d').
Proof.
  unfold inbox. simpl. destruct (decide (d = d')) as [<-|Hne].
  - by rewrite lookup_insert_eq.
  - by rewrite lookup_insert_ne.
Qed.

Section mailbox.
Context {W : Type}.
Variable self_device_id : option string.
Variable run_adb_cmd : string → option string → W → (string * string * Z) * W.
Variable time : W → string.

Abbreviation device_messaging :=
  (device_messaging self_device_id run_adb_cmd time).
Abbreviation connected := (connected run_adb_cmd).
Abbreviation asked := (asked run_adb_cmd).
Abbreviation send_all := (send_all self_device_id run_adb_cmd time).

Lemma device_exists d x :
  existsb (λ dev, bool_decide (serial dev = d))
    (_list_all_devices run_adb_cmd x).1
  = true ↔ connected d x.
Proof.
  unfold FleetSpec.connected. rewrite existsb_exists, list_elem_of_fmap.
  split.
  - intros (dev & Hin%list_elem_of_In & Heq%bool_decide_eq_true). by exists dev.
  - intros (dev & -> & Hin%list_elem_of_In). exists dev.
    by rewrite bool_decide_eq_true.
Qed.

(** A send that passes the checks. *)
Lemma send_delivers d m timeout st x :
  d ≠ "" → m ≠ "" → connected d x →
  ∃ msg st',
    device_messaging "send" (Some d) (Some m) timeout st x
    = (reply true "消息已发送", st', asked x)
    ∧ inbox st' d = inbox st d ++ [msg]
    ∧ content_of msg = Some m
    ∧ sender_of msg = Some (default "unknown" (given self_device_id))
    ∧ (∀ d', d' ≠ d → inbox st' d' = inbox st d')
    ∧ device_groups st' = device_groups st.
Proof.
  intros Hd Hm Hconn. unfold Fleet.device_messaging. simpl.
  rewrite !bool_decide_eq_false_2 by done. simpl.
  apply device_exists in Hconn. unfold FleetSpec.asked.
  destruct (_list_all_devices run_adb_cmd x) as [devices x'].
  simpl in Hconn. rewrite Hconn. simpl.
  eexists _, _. split; [reflexivity|]. split.
  { rewrite inbox_insert, decide_True by done.
    f_equal. fold (inbox (ensure_queue d (ensure_queue d st)) d).
    by rewrite !inbox_ensure_queue. }
  split; [done|]. split; [done|]. split.
  - intros d' Hne. rewrite inbox_insert, decide_False by done.
    fold (inbox (ensure_queue d (ensure_queue d st)) d').
    by rewrite !inbox_ensure_queue.
  - simpl. by rewrite !ensure_queue_groups.
Qed.

(** A receive with a timeout that is not negative. *)
Lemma receive_drains d device_id timeout st x :
  target_of self_device_id device_id = Some d →
  (0 ≤ timeout)%Z →
  ∃ st',
    device_messaging "receive" device_id None timeout st x
    = (messages_reply (inbox st d), st', x)
    ∧ inbox st' d = []
    ∧ (∀ d', d' ≠ d → inbox st' d' = inbox st d')
    ∧ device_groups st' = device_groups st.
Proof.
  intros Htarget Htime. unfold Fleet.device_messaging, target_of in *. simpl.
  assert ((timeout <? 0)%Z = false) as Hneg by lia.
  destruct (given device_id) as [d0|] eqn:Hgiven; simplify_eq.
  - destruct (ensure_queue_is_Some d st) as (q & Hq). rewrite Hq, Hneg.
    assert (inbox st d = q) as ->.
    { rewrite <- (inbox_ensure_queue d d st). unfold inbox. by rewrite Hq. }
    eexists. split; [reflexivity|]. split; [|split].
    + by rewrite inbox_insert, decide_True.
    + intros d' Hne. rewrite inbox_insert, decide_False by done.
      fold (inbox (ensure_queue d st) d'). by rewrite inbox_ensure_queue.
    + simpl. by rewrite ensure_queue_groups.
  - rewrite Htarget. unfold inbox at 1.
    destruct (message_queues st !! d) as [q|] eqn:Hq; rewrite ?Hneg;
      (eexists; split; [reflexivity|]; split; [|split; [|done]]).
    + by rewrite inbox_insert, decide_True.
    + intros d' Hne. by rewrite inbox_insert, decide_False.
    + by rewrite inbox_insert, decide_True.
    + intros d' Hne. by rewrite inbox_insert, decide_False.
Qed.

Lemma send_all_delivers d ms st x :
  d ≠ "" → Forall (λ m, m ≠ "") ms → (∀ x, connected d x) →
  ∃ msgs st1 x1,
    send_all d ms st x = (st1, x1)
    ∧ inbox st1 d = inbox st d ++ msgs
    ∧ content_of <$> msgs = Some <$> ms
    ∧ Forall (λ msg, sender_of msg
                     = Some (default "unknown" (given self_device_id))) msgs
    ∧ (∀ d', d' ≠ d → inbox st1 d' = inbox st d').
Proof.
  intros Hd Hms Hconn. revert st x.
  induction Hms as [|m ms Hm _ IH]; intros st x.
  { exists [], st, x. by rewrite app_nil_r. }
  destruct (send_delivers d m 5 st x Hd Hm (Hconn x))
    as (msg & st' & Hsend & Hin & Hcontent & Hsender & Hframe & _).
  destruct (IH st' (asked x))
    as (msgs & st1 & x1 & Hall & Hin1 & Hcontents & Hsenders & Hframe1).
  exists (msg :: msgs), st1, x1. cbn [FleetSpec.send_all].
  rewrite Hsend. split; [done|]. split; [|split; [|split]].
  - rewrite Hin1, Hin, <- app_assoc. done.
  - rewrite !fmap_cons. by rewrite Hcontent, Hcontents.
  - by constructor.
  - intros d' Hne. by rewrite Hframe1, Hframe.
Qed.

(** X17. Messages sent to a connected device are delivered once and in
    the order sent: after any number of sends, a receive for the device
    (with a timeout that is not negative) returns what was waiting
    before, followed by the new messages, each with its content and the
    sender's id (["unknown"] when the controller has none); a second
    receive returns nothing; and no other device's mailbox has changed. *)
Theorem mailbox_is_fifo d ms timeout st x :
  d ≠ "" →
  Forall (λ m, m ≠ "") ms →
  (∀ x, connected d x) →
  (0 ≤ timeout)%Z →
  ∃ msgs st1 x1 st2 st3,
    send_all d ms st x = (st1, x1)
    ∧ device_messaging "receive" (Some d) None timeout st1 x1
      = (messages_reply (inbox st d ++ msgs), st2, x1)
    ∧ content_of <$> msgs = Some <$> ms
    ∧ Forall (λ msg, sender_of msg
                     = Some (default "unknown" (given self_device_id))) msgs
    ∧ device_messaging "receive" (Some d) None timeout st2 x1
      = (messages_reply [], st3, x1)
    ∧ (∀ d', d' ≠ d → inbox st2 d' = inbox st d').
Proof.
  intros Hd Hms Hconn Htime.
  destruct (send_all_delivers d ms st x Hd Hms Hconn)
    as (msgs & st1 & x1 & Hall & Hin & Hcontents & Hsenders & Hframe).
  assert (target_of self_device_id (Some d) = Some d) as Htarget.
  { unfold target_of, given. by rewrite bool_decide_eq_false_2. }
  destruct (receive_drains d (Some d) timeout st1 x1 Htarget Htime)
    as (st2 & Hrecv & Hempty & Hframe2 & _).
  destruct (receive_drains d (Some d) timeout st2 x1 Htarget Htime)
    as (st3 & Hrecv3 & _).
  exists msgs, st1, x1, st2, st3. rewrite Hrecv, Hrecv3, Hin, Hempty.
  repeat split; try done.
  intros d' Hne. by rewrite Hframe2, Hframe.
Qed.

(** X18. A send to a device that [adb devices] does not list is refused
    after the devices have been asked, and delivers nothing: every
    mailbox holds what it held. *)
Theorem unconnected_device_gets_nothing d m timeout st x :
  d ≠ "" → m ≠ "" →
  ¬ connected d x →
  ∃ st',
    device_messaging "send" (Some d) (Some m) timeout st x
    = (reply false ("设备 " +:+ d +:+ " 不存在或未连接"), st', asked x)
    ∧ (∀ d', inbox st' d' = inbox st d')
    ∧ device_groups st' = device_groups st.
Proof.
  intros Hd Hm Hconn. unfold Fleet.device_messaging. simpl.
  rewrite !bool_decide_eq_false_2 by done. simpl.
  rewrite <- device_exists in Hconn. apply not_true_is_false in Hconn.
  unfold FleetSpec.asked.
  destruct (_list_all_devices run_adb_cmd x) as [devices x'].
  simpl in Hconn. rewrite Hconn. simpl.
  eexists. split; [reflexivity|]. split.
  - intros d'. apply inbox_ensure_queue.
  - apply ensure_queue_groups.
Qed.

(** X19. A receive with a negative timeout, for a device that was named
    and has a mailbox, fails, and the messages stay where they are: a
    later receive still gets them. *)
Theorem negative_timeout_keeps_the_messages d timeout timeout' st x :
  d ≠ "" →
  (timeout < 0)%Z →
  (0 ≤ timeout')%Z →
  ∃ st1 st2,
    device_messaging "receive" (Some d) None timeout st x
    = (reply false "接收消息失败: 'timeout' must be a non-negative number",
       st1, x)
    ∧ (∀ d', inbox st1 d' = inbox st d')
    ∧ device_messaging "receive" (Some d) None timeout' st1 x
      = (messages_reply (inbox st d), st2, x).
Proof.
  intros Hd Hneg Htime.
  assert (target_of self_device_id (Some d) = Some d) as Htarget.
  { unfold target_of, given. by rewrite bool_decide_eq_false_2. }
  destruct (receive_drains d (Some d) timeout' (ensure_queue d st) x
              Htarget Htime) as (st2 & Hrecv & _).
  exists (ensure_queue d st), st2. split; [|split].
  - unfold Fleet.device_messaging. simpl.
    rewrite !bool_decide_eq_false_2 by done. simpl.
    destruct (ensure_queue_is_Some d st) as (q & ->).
    by rewrite (proj2 (Z.ltb_lt _ _) Hneg).
  - intros d'. apply inbox_ensure_queue.
  - by rewrite Hrecv, inbox_ensure_queue.
Qed.

End mailbox.

End FleetFacts.

(** ** Device groups and the controller's clean-up *)

Module GroupFacts.
Import Schema Coordinator CoordinatorSpec Fleet FleetSpec.

Lemma od_get_del_eq {V} (d : list (string * V)) k :
  NoDup d.*1 → od_get (od_del d k) k = None.
Proof.
  induction d as [|[k' v] d IH]; [done|].
  rewrite fmap_cons. intros [Hk Hnd]%NoDup_cons. cbn [od_del fst] in *.
  destruct (decide (k' = k)) as [->|Hne].
  - clear IH Hnd. induction d as [|[k1 v1] d IH]; [done|].
    rewrite fmap_cons in Hk. apply not_elem_of_cons in Hk as [Hne Hk].
    simpl. rewrite decide_False by done. by apply IH.
  - simpl. rewrite decide_False by done. by apply IH.
Qed.

Lemma od_get_del_ne {V} (d : list (string * V)) k k' :
  k ≠ k' → od_get (od_del d k) k' = od_get d k'.
Proof.
  intros Hne. induction d as [|[k0 v] d IH]; [done|]. simpl.
  destruct (decide (k0 = k)) as [->|Hne0]; simpl.
  - by rewrite decide_False.
  - by rewrite IH.
Qed.

Section groups.
Context {W : Type}.
Variable self_device_id : option string.
Variable run_adb_cmd : string → option string → W → (string * string * Z) * W.

Abbreviation device_group_actions := (device_group_actions run_adb_cmd).
Abbreviation connected := (connected run_adb_cmd).
Abbreviation asked := (asked run_adb_cmd).
Abbreviation run_on := (run_on run_adb_cmd).

Lemma first_missing (ids : list string) (serials : list string) :
  match List.find (λ d, negb (bool_decide (d ∈ serials))) ids with
  | Some d =>
      ∃ pre post, ids = pre ++ d :: post
                  ∧ Forall (λ d', d' ∈ serials) pre ∧ d ∉ serials
  | None => Forall (λ d, d ∈ serials) ids
  end.
Proof.
  induction ids as [|d ids IH]; simpl; [done|].
  case_bool_decide as Hd; simpl.
  - destruct (List.find _ ids) as [d'|].
    + destruct IH as (pre & post & -> & Hpre & Hd').
      exists (d :: pre), post. split; [done|]. split; [by constructor | done].
    + by constructor.
  - by exists [], ids.
Qed.

(** X20. Creating a group is all or nothing: when [adb devices] lists
    every member the group is stored under its name, with its members in
    the order given, in the place of any group of that name; otherwise
    the call fails, names the first member that is not listed, and the
    groups are what they were. *)
Theorem group_creation_is_all_or_nothing g ids command st x :
  g ≠ "" →
  ids ≠ [] →
  (Forall (λ d, connected d x) ids →
   ∃ st',
     device_group_actions "create" (Some g) (Some ids) command st x
     = (reply true ("已创建设备组 " +:+ g), st', asked x)
     ∧ od_get (device_groups st') g = Some ids
     ∧ (∀ g', g' ≠ g →
              od_get (device_groups st') g' = od_get (device_groups st) g')
     ∧ message_queues st' = message_queues st)
  ∧ (∀ pre d post,
       ids = pre ++ d :: post →
       Forall (λ d', connected d' x) pre →
       ¬ connected d x →
       device_group_actions "create" (Some g) (Some ids) command st x
       = (reply false ("设备 " +:+ d +:+ " 不存在或未连接"), st, asked x)).
Proof.
  intros Hg Hids. unfold Fleet.device_group_actions.
  rewrite given_Some by done. simpl.
  destruct ids as [|d0 ids0] eqn:Heq; [done|]. rewrite <- Heq. clear Hids.
  unfold FleetSpec.connected, FleetSpec.asked.
  destruct (_list_all_devices run_adb_cmd x) as [devices x']. simpl.
  pose proof (first_missing ids (serial <$> devices)) as Hfind.
  destruct (List.find _ ids) as [d|]; split.
  - destruct Hfind as (pre & post & -> & _ & Hd).
    intros Hall. apply Forall_app in Hall as [_ Hall].
    apply Forall_cons in Hall as [Hin _]. done.
  - destruct Hfind as (pre & post & Hids & Hpre & Hd).
    intros pre' d' post' Hids' Hpre' Hd'.
    assert (d = d') as <-; [|done].
    rewrite Hids in Hids'. clear -Hids' Hpre Hd Hpre' Hd'.
    revert pre' Hids' Hpre'.
    induction Hpre as [|a pre Ha _ IH]; intros [|a' pre'] Hids' Hpre'.
    + by simplify_eq.
    + simplify_eq. by apply Forall_cons in Hpre' as [? _].
    + by simplify_eq.
    + simplify_eq. apply Forall_cons in Hpre' as [_ Hpre'].
      by eapply IH.
  - intros _. eexists. split; [reflexivity|]. simpl.
    split; [apply od_get_set_eq|]. split; [|done].
    intros g' Hne. by apply od_get_set_ne.
  - intros pre d post -> _ Hd.
    apply Forall_app in Hfind as [_ Hfind].
    by apply Forall_cons in Hfind as [Hin _].
Qed.

Lemma execute_loop_run_on command ids results x :
  execute_loop run_adb_cmd command ids results x
  = (results ++ zip_with result_entry ids (run_on command ids x).1,
     (run_on command ids x).2).
Proof.
  revert results x. induction ids as [|d ids IH]; intros results x.
  { simpl. by rewrite app_nil_r. }
  cbn [execute_loop FleetSpec.run_on].
  destruct (run_adb_cmd command (Some d) x) as [[[stdout stderr] code] x1].
  rewrite IH.
  destruct (FleetSpec.run_on run_adb_cmd command ids x1) as [outs x2].
  simpl. by rewrite <- app_assoc.
Qed.

Lemma run_on_length command ids x :
  length (run_on command ids x).1 = length ids.
Proof.
  revert x. induction ids as [|d ids IH]; intros x; [done|].
  cbn [FleetSpec.run_on].
  destruct (run_adb_cmd command (Some d) x) as [out x1].
  specialize (IH x1).
  destruct (FleetSpec.run_on run_adb_cmd command ids x1) as [outs x2].
  simpl in *. by rewrite IH.
Qed.

(** X21. A command given to a group runs on every member, once and in
    the order of the group, also after it has failed on a member; the
    reply has one result per member, tagged with the member's id and with
    [success] exactly where the return code is [0]; the call itself
    reports success whatever the devices answered, and the groups and the
    mailboxes are what they were. *)
Theorem group_command_runs_on_every_member g command ids device_ids st x :
  g ≠ "" →
  command ≠ "" →
  od_get (device_groups st) g = Some ids →
  device_group_actions "execute" (Some g) device_ids (Some command) st x
  = (PDict [("success", PBool true);
            ("results",
             PList (zip_with result_entry ids (run_on command ids x).1))],
     st, (run_on command ids x).2)
  ∧ length (run_on command ids x).1 = length ids.
Proof.
  intros Hg Hc Hids. split; [|apply run_on_length].
  unfold Fleet.device_group_actions.
  rewrite !given_Some by done. simpl. by rewrite Hids, execute_loop_run_on.
Qed.

(** X22. Deleting a group removes it and nothing else: the same name can
    no longer be executed on or deleted, the other groups keep their
    members, and the names stay distinct. *)
Theorem deleted_group_is_gone g ids device_ids command st x :
  g ≠ "" →
  command ≠ "" →
  NoDup (device_groups st).*1 →
  od_get (device_groups st) g = Some ids →
  ∃ st',
    device_group_actions "delete" (Some g) device_ids (Some command) st x
    = (reply true ("已删除设备组 " +:+ g), st', x)
    ∧ od_get (device_groups st') g = None
    ∧ (∀ g', g' ≠ g →
             od_get (device_groups st') g' = od_get (device_groups st) g')
    ∧ message_queues st' = message_queues st
    ∧ device_group_actions "execute" (Some g) device_ids (Some command) st' x
      = (reply false ("设备组 " +:+ g +:+ " 不存在"), st', x)
    ∧ device_group_actions "delete" (Some g) device_ids (Some command) st' x
      = (reply false ("设备组 " +:+ g +:+ " 不存在"), st', x).
Proof.
  intros Hg Hc Hnd Hids. unfold Fleet.device_group_actions.
  rewrite !given_Some by done. simpl. rewrite Hids.
  eexists. split; [reflexivity|]. simpl.
  rewrite od_get_del_eq by done.
  split; [done|]. split; [|done].
  intros g' Hne. by apply od_get_del_ne.
Qed.

End groups.

Lemma set_all_events (addrs : list nat) (signals : Coordinator.state) :
  let signals' :=
    foldr (λ lock_event s, write_flag lock_event true s) signals addrs in
  sync_locks signals' = sync_locks signals
  ∧ shared_data signals' = shared_data signals
  ∧ length (events signals') = length (events signals)
  ∧ (∀ a, a ∈ addrs → a < length (events signals) →
          events signals' !! a = Some true)
  ∧ (∀ a, a ∉ addrs → events signals' !! a = events signals !! a).
Proof.
  induction addrs as [|a0 addrs (Hl & Hs & Hlen & Hset & Hkeep)]; simpl.
  { repeat split; try done. intros a Ha. by apply elem_of_nil in Ha. }
  rewrite length_insert.
  split; [done|]. split; [done|]. split; [done|]. split.
  - intros a Ha Hlt. destruct (decide (a0 = a)) as [->|Hne].
    + apply list_lookup_insert_eq. by rewrite Hlen.
    + rewrite list_lookup_insert_ne by done. apply Hset; [|done].
      by apply elem_of_cons in Ha as [->|].
  - intros a [Hne Ha]%not_elem_of_cons.
    rewrite list_lookup_insert_ne by done. by apply Hkeep.
Qed.

(** X23. The clean-up of the controller sets every signal there is, so
    that a wait on any of them succeeds from then on, and empties every
    mailbox; the names of the signals, the blackboard and the device
    groups are left as they are. *)
Theorem controller_cleanup_releases_everything signals st :
  wf signals →
  wf (cleanup signals st).1
  ∧ sync_locks (cleanup signals st).1 = sync_locks signals
  ∧ shared_data (cleanup signals st).1 = shared_data signals
  ∧ (∀ L, is_Some (sync_locks signals !! L) →
          signalled L (cleanup signals st).1)
  ∧ (∀ L t, L ≠ "" → is_Some (sync_locks signals !! L) →
            success_of
              (sync_operations "wait" (Some L) t (cleanup signals st).1).1
            = true)
  ∧ (∀ d, inbox (cleanup signals st).2 d = [])
  ∧ device_groups (cleanup signals st).2 = device_groups st.
Proof.
  intros Hwf. unfold cleanup. cbn [fst snd].
  destruct (set_all_events (map_to_list (sync_locks signals)).*2 signals)
    as (Hl & Hs & Hlen & Hset & _).
  set (signals' := foldr _ signals _) in *.
  assert (∀ L, is_Some (sync_locks signals !! L) → signalled L signals')
    as Hsig.
  { intros L [a Ha]. exists a. rewrite Hl. split; [done|].
    apply Hset; [|by eapply (wf_bound signals Hwf)].
    apply list_elem_of_fmap. exists (L, a). split; [done|].
    by apply elem_of_map_to_list. }
  split; [|split; [done|split; [done|split; [done|split; [|split; [|done]]]]]].
  - destruct Hwf as [Hb Hi]. split.
    + intros L a. rewrite Hl, Hlen. apply Hb.
    + intros L1 L2 a. rewrite Hl. apply Hi.
  - intros L t HL HSome. by rewrite wait_signalled by auto.
  - intros d. unfold inbox. simpl. rewrite lookup_fmap.
    by destruct (message_queues st !! d).
Qed.

End GroupFacts.

(** ** Reading the list of devices *)

Module ParseFacts.
Import Schema Coordinator Fleet FleetSpec ToolsSpec.

(** *** Strings *)

Lemma str_app_cons a s t : String a s +:+ t = String a (s +:+ t).
Proof. reflexivity. Qed.

Lemma str_app_nil_r s : s +:+ "" = s.
Proof. induction s as [|a s IH]; [done|]. by rewrite str_app_cons, IH. Qed.

Lemma str_app_assoc s t u : (s +:+ t) +:+ u = s +:+ (t +:+ u).
Proof.
  induction s as [|a s IH]; [done|]. by rewrite !str_app_cons, IH.
Qed.

Lemma rev_app_app s t : String.rev_app s t = String.rev s +:+ t.
Proof.
  unfold String.rev. revert t. induction s as [|a s IH]; intros t; [done|].
  cbn [String.rev_app]. rewrite (IH (String a t)), (IH (String a "")).
  by rewrite str_app_assoc.
Qed.

Lemma rev_cons a s : String.rev (String a s) = String.rev s +:+ String a "".
Proof. unfold String.rev at 1. cbn [String.rev_app]. apply rev_app_app. Qed.

Lemma rev_append s t : String.rev (s +:+ t) = String.rev t +:+ String.rev s.
Proof.
  induction s as [|a s IH].
  - by rewrite str_app_nil_r.
  - by rewrite str_app_cons, !rev_cons, IH, str_app_assoc.
Qed.

Lemma rev_involutive s : String.rev (String.rev s) = s.
Proof.
  induction s as [|a s IH]; [done|].
  by rewrite rev_cons, rev_append, IH.
Qed.

(** *** White space *)

Lemma plain_char_bounds a :
  plain_char a = true → 32 < nat_of_ascii a < 127.
Proof.
  unfold plain_char. intros [H1 H2]%andb_true_iff.
  apply Nat.ltb_lt in H1, H2. lia.
Qed.

Lemma plain_not_space1 a : plain_char a = true → space1 a = false.
Proof.
  intros H%plain_char_bounds. unfold space1.
  apply orb_false_iff. split; apply andb_false_iff.
  - right. apply Nat.leb_gt. lia.
  - right. apply Nat.leb_gt. lia.
Qed.

Lemma plain_not_space2_l a b : plain_char a = true → space2 a b = false.
Proof.
  intros H%plain_char_bounds. unfold space2.
  apply andb_false_iff. left. apply Nat.eqb_neq. lia.
Qed.

Lemma plain_not_space2_r a b : plain_char a = true → space2 b a = false.
Proof.
  intros H%plain_char_bounds. unfold space2.
  apply andb_false_iff. right. apply orb_false_iff.
  split; apply Nat.eqb_neq; lia.
Qed.

Lemma plain_not_space3_l a b c : plain_char a = true → space3 a b c = false.
Proof.
  intros H%plain_char_bounds. unfold space3.
  assert (Nat.eqb (nat_of_ascii a) 225 = false) as -> by (apply Nat.eqb_neq; lia).
  assert (Nat.eqb (nat_of_ascii a) 226 = false) as -> by (apply Nat.eqb_neq; lia).
  assert (Nat.eqb (nat_of_ascii a) 227 = false) as -> by (apply Nat.eqb_neq; lia).
  done.
Qed.

Lemma plain_not_space3_r a b c : plain_char a = true → space3 c b a = false.
Proof.
  intros H%plain_char_bounds. unfold space3.
  assert (Nat.eqb (nat_of_ascii a) 128 = false) as -> by (apply Nat.eqb_neq; lia).
  assert (Nat.eqb (nat_of_ascii a) 159 = false) as -> by (apply Nat.eqb_neq; lia).
  assert (Nat.eqb (nat_of_ascii a) 168 = false) as -> by (apply Nat.eqb_neq; lia).
  assert (Nat.eqb (nat_of_ascii a) 169 = false) as -> by (apply Nat.eqb_neq; lia).
  assert (Nat.eqb (nat_of_ascii a) 175 = false) as -> by (apply Nat.eqb_neq; lia).
  assert (Nat.leb 128 (nat_of_ascii a) = false) as -> by (apply Nat.leb_gt; lia).
  by rewrite !andb_false_r.
Qed.

Lemma drop_space_plain back a s :
  plain_char a = true → drop_space back (String a s) = String a s.
Proof.
  intros Ha. cbn [drop_space]. rewrite (plain_not_space1 a Ha).
  destruct s as [|b [|c s]]; [done|..]; destruct back;
    rewrite ?(plain_not_space2_l a _ Ha), ?(plain_not_space2_r a _ Ha),
      ?(plain_not_space3_l a _ _ Ha), ?(plain_not_space3_r a _ _ Ha); done.
Qed.

Lemma drop_space_space1 back a s :
  space1 a = true → drop_space back (String a s) = drop_space back s.
Proof. intros Ha. cbn [drop_space]. by rewrite Ha. Qed.

Lemma begins_plain_app s t : begins_plain s → begins_plain (s +:+ t).
Proof. intros (a & r & -> & Ha). by exists a, (r +:+ t). Qed.

Lemma ends_plain_app s t : ends_plain t → ends_plain (s +:+ t).
Proof.
  unfold ends_plain. rewrite rev_append. apply begins_plain_app.
Qed.

Lemma ends_plain_cons a s : ends_plain s → ends_plain (String a s).
Proof. apply (ends_plain_app (String a "")). Qed.

Lemma plain_begins s : plain s → begins_plain s.
Proof.
  intros [Hne Hall]. destruct s as [|a s]; [done|].
  apply Forall_cons in Hall as [Ha _]. by exists a, s.
Qed.

Lemma plain_ends s : plain s → ends_plain s.
Proof.
  intros [Hne Hall]. induction s as [|a s IH]; [done|].
  simpl in Hall. apply Forall_cons in Hall as [Ha Hall].
  destruct s as [|b s]; [by exists a, ""|].
  apply ends_plain_cons, IH; done.
Qed.

Lemma strip_plain s : begins_plain s → ends_plain s → strip s = s.
Proof.
  intros (a & r & -> & Ha) (b & t & Hrev & Hb).
  unfold strip, lstrip, rstrip. rewrite drop_space_plain by done.
  rewrite Hrev, drop_space_plain by done. rewrite <- Hrev.
  apply rev_involutive.
Qed.

(** Two line feeds at the end are stripped. *)
Lemma strip_trailing s :
  begins_plain s → ends_plain s →
  strip (s +:+ String newline (String newline "")) = s.
Proof.
  intros Hbegin (b & t & Hrev & Hb).
  destruct (begins_plain_app s (String newline (String newline "")) Hbegin)
    as (a & r & Heq & Ha).
  unfold strip, lstrip, rstrip. rewrite Heq, drop_space_plain by done.
  rewrite <- Heq, rev_append, Hrev.
  change (String.rev (String newline (String newline "")))
    with (String newline (String newline "")).
  rewrite !str_app_cons. change ("" +:+ String b t) with (String b t).
  rewrite !drop_space_space1 by done.
  rewrite drop_space_plain by done. rewrite <- Hrev.
  apply rev_involutive.
Qed.

(** *** Splitting *)

Lemma split_lines_split_on s : split_lines s = split_on newline s.
Proof. induction s as [|a s IH]; [done|]. simpl. by rewrite IH. Qed.

Lemma split_on_whole sep s : sep ∉ chars s → split_on sep s = [s].
Proof.
  induction s as [|a s IH]; [done|]. simpl.
  intros [Hne Hs]%not_elem_of_cons.
  rewrite (proj2 (Ascii.eqb_neq a sep)) by done. by rewrite IH.
Qed.

Lemma split_on_app sep s t :
  sep ∉ chars s →
  split_on sep (s +:+ String sep t) = s :: split_on sep t.
Proof.
  induction s as [|a s IH].
  - intros _. change ("" +:+ String sep t) with (String sep t).
    cbn [split_on]. by rewrite Ascii.eqb_refl.
  - simpl. intros [Hne Hs]%not_elem_of_cons.
    rewrite (proj2 (Ascii.eqb_neq a sep)) by done. by rewrite IH.
Qed.

Lemma plain_no_sep sep s :
  plain_char sep = false → plain s → sep ∉ chars s.
Proof.
  intros Hsep [_ Hall] Hin.
  apply (proj1 (Forall_forall _ _) Hall) in Hin. congruence.
Qed.

Lemma chars_app s t : chars (s +:+ t) = chars s ++ chars t.
Proof.
  induction s as [|a s IH]; [done|].
  rewrite str_app_cons. simpl. by rewrite IH.
Qed.

(** *** The listing *)

Lemma output_body ds :
  adb_devices_output ds
  = ("List of devices attached" +:+ body ds)
    +:+ String newline (String newline "").
Proof.
  unfold adb_devices_output. rewrite str_app_assoc. f_equal.
  induction ds as [|d ds IH]; [done|].
  cbn [foldr body]. rewrite str_app_cons. f_equal.
  fold (body ds). rewrite str_app_assoc, <- IH.
  unfold device_line, entry.
  rewrite !str_app_assoc, !str_app_cons, !str_app_assoc. done.
Qed.

Lemma entry_begins d : well_named d → begins_plain (entry d).
Proof. intros [Hs _]. by apply begins_plain_app, plain_begins. Qed.

Lemma entry_ends d : well_named d → ends_plain (entry d).
Proof.
  intros [_ Hs]. apply ends_plain_app, ends_plain_cons. by apply plain_ends.
Qed.

Lemma entry_one_line d : well_named d → newline ∉ chars (entry d).
Proof.
  intros [Hs Ht]. unfold entry. rewrite chars_app. simpl.
  intros [Hin | [Hin | Hin]%elem_of_cons]%elem_of_app.
  - by apply (plain_no_sep newline (serial d)).
  - done.
  - by apply (plain_no_sep newline (status d)).
Qed.

Lemma body_ends s ds :
  Forall well_named ds → ends_plain s → ends_plain (s +:+ body ds).
Proof.
  intros Hall. revert s. induction Hall as [|d ds Hd _ IH]; intros s Hs.
  { by rewrite str_app_nil_r. }
  cbn [body foldr]. fold (body ds).
  apply ends_plain_app, ends_plain_cons, IH. by apply entry_ends.
Qed.

Lemma body_lines l ds :
  newline ∉ chars l → Forall well_named ds →
  split_lines (l +:+ body ds) = l :: (entry <$> ds).
Proof.
  intros Hl Hall. revert l Hl. induction Hall as [|d ds Hd _ IH]; intros l Hl.
  { rewrite str_app_nil_r, split_lines_split_on. by apply split_on_whole. }
  cbn [body foldr]. fold (body ds).
  rewrite split_lines_split_on, split_on_app, <- split_lines_split_on by done.
  rewrite IH by by apply entry_one_line. done.
Qed.

Lemma device_of_entry d : well_named d → device_of_line (entry d) = [d].
Proof.
  intros Hd. unfold device_of_line.
  rewrite strip_plain by (by apply entry_begins || by apply entry_ends).
  destruct (entry_begins d Hd) as (a & r & Heq & _).
  rewrite bool_decide_eq_false_2 by (by rewrite Heq).
  destruct Hd as [Hs Ht]. unfold entry.
  rewrite split_on_app by (by apply plain_no_sep).
  rewrite split_on_whole by (by apply plain_no_sep).
  by destruct d.
Qed.

Lemma entries_read ds :
  Forall well_named ds → flat_map device_of_line (entry <$> ds) = ds.
Proof.
  induction 1 as [|d ds Hd _ IH]; [done|].
  rewrite fmap_cons. cbn [flat_map]. by rewrite device_of_entry, IH.
Qed.

Lemma header_one_line : newline ∉ chars "List of devices attached".
Proof. apply (bool_decide_unpack _). by vm_compute. Qed.

(** X24. What [adb devices] prints is read back as it is: from the header,
    one line per device with its serial number and its status separated
    by a tab, and the empty line that ends the listing, the parser of
    [_list_all_devices] recovers exactly the devices, in order, whenever
    serial numbers and statuses are not empty and made of printable
    characters without blanks. *)
Theorem adb_listing_is_read_back ds :
  Forall well_named ds →
  parse_devices (adb_devices_output ds) = ds.
Proof.
  intros Hall. unfold parse_devices.
  assert (begins_plain "List of devices attached") as Hb
    by (by eexists _, _).
  assert (ends_plain "List of devices attached") as He
    by (by eexists _, _).
  rewrite output_body, strip_trailing;
    [|by apply begins_plain_app | by apply body_ends].
  rewrite body_lines by (done || apply header_one_line).
  destruct ds as [|d ds]; [done|].
  by apply (entries_read (d :: ds)).
Qed.

End ParseFacts.

(** ** Requests that cannot be answered *)

Section rejected.
Context {W : Type}.
Variable rt : runtime.
Implicit Types (w : world W) (tools : list (string * MCPTool W))
  (d : list (string * pyval)).

Lemma create_error_response_rejected id e message code w :
  id ≠ PNone → validate_id rt id = Raised e →
  _create_error_response rt id message code w = (Raised e, w).
Proof.
  intros Hid He.
  unfold _create_error_response, MCPResponse_init, mbind, M_bind, bind, lift.
  destruct id; try done; by rewrite He.
Qed.

Lemma create_success_response_rejected id e result w :
  id ≠ PNone → validate_id rt id = Raised e →
  _create_success_response rt id result w = (Raised e, w).
Proof.
  intros Hid He.
  unfold _create_success_response, MCPResponse_init, mbind, M_bind, bind, lift.
  destruct id; try done; by rewrite He.
Qed.

Lemma single_request_rejected tools d id e w :
  od_get d "id" = Some id → id ≠ PNone → validate_id rt id = Raised e →
  ∃ e' w', _handle_single_request rt tools (PDict d) w = (Raised e', w').
Proof.
  intros Hget Hid He. unfold _handle_single_request.
  destruct (invalid_request (PDict d)).
  { unfold mbind, M_bind, bind, lift. simpl. rewrite Hget. simpl.
    rewrite (create_error_response_rejected _ e) by done. by eexists _, _. }
  unfold mbind, M_bind, bind, lift. simpl. rewrite Hget. simpl.
  destruct (registry_contains tools _) as [[]|e0]; simpl.
  - unfold try_except, bind.
    destruct (registry_item rt tools _) as [tool|e1].
    + destruct (_call_handler rt tools (handler tool) _ w) as [[res|e2] w2].
      * rewrite (create_success_response_rejected _ e) by done.
        destruct e; unfold bind, logger;
          rewrite (create_error_response_rejected _ _) by done;
          by eexists _, _.
      * destruct e2; unfold bind, logger;
          rewrite (create_error_response_rejected _ e) by done;
          by eexists _, _.
    + destruct e1; unfold bind, logger;
        rewrite (create_error_response_rejected _ e) by done;
        by eexists _, _.
  - rewrite (create_error_response_rejected _ e) by done. by eexists _, _.
  - by eexists _, _.
Qed.

Lemma single_request_except_rejected method id e e0 w :
  id ≠ PNone → validate_id rt id = Raised e →
  ∃ w', single_request_except rt method id e0 w = (Raised e, w')
        ∧ ext w' = ext w.
Proof.
  intros Hid He.
  destruct e0; unfold single_request_except, mbind, M_bind, bind, logger;
    rewrite (create_error_response_rejected _ e) by done; by eexists.
Qed.

Lemma top_level_except_rejected data id e e0 w :
  reported_id data = id → id ≠ PNone → validate_id rt id = Raised e →
  ∃ w', top_level_except rt data e0 w = (Raised e, w') ∧ ext w' = ext w.
Proof.
  intros <- Hid He.
  destruct e0; unfold top_level_except, mbind, M_bind, bind, logger;
    rewrite (create_error_response_rejected _ e) by done; by eexists.
Qed.

(** X25. A request object whose id the response model rejects gets no
    answer at all, whatever it asks for: every envelope is built around
    the id, so each attempt to answer fails, the last one in the outer
    handler, and [handle_jsonrpc] ends with the validation error. *)
Theorem rejected_id_is_never_answered tools body d id e w :
  parses rt body (PDict d) →
  od_get d "id" = Some id →
  id ≠ PNone →
  validate_id rt id = Raised e →
  ∃ w', handle_jsonrpc rt tools body w = (Raised e, w').
Proof.
  intros Hparse Hget Hid He.
  rewrite (handle_jsonrpc_parsed _ _ _ _ _ Hparse). simpl.
  destruct (single_request_rejected tools d id e w Hget Hid He)
    as (e' & w' & Hrun).
  unfold try_except. rewrite Hrun.
  destruct (top_level_except_rejected (Some (PDict d)) id e e' w')
    as (w2 & -> & _); [by simpl; rewrite Hget|done..|].
  by eexists.
Qed.

(** X26. The handler of a tool invoked by such a request runs all the
    same: what it does to the collaborators is done, and the caller gets
    no answer. *)
Theorem rejected_id_still_runs_the_handler tools body d id e method params
    tool f o x w :
  parses rt body (PDict d) →
  is_request (PDict d) id method params →
  id ≠ PNone →
  validate_id rt id = Raised e →
  od_get tools method = Some tool →
  runs tool f →
  f params (ext w) = (o, x) →
  ∃ w', handle_jsonrpc rt tools body w = (Raised e, w') ∧ ext w' = x.
Proof.
  intros Hparse Hreq Hid He Htool Hrun Hf.
  rewrite (handle_jsonrpc_parsed _ _ _ _ _ Hparse). simpl.
  unfold try_except at 1.
  rewrite (single_request_dispatch rt _ _ _ _ _ _ _ Hreq Htool).
  destruct Hreq as (d' & [= <-] & _ & _ & Hget & _).
  unfold try_except, mbind, M_bind, bind.
  rewrite (call_handler_runs _ _ _ _ _ _ Hrun), Hf.
  assert (∀ e0 w1, ext w1 = x →
            ∃ w', (let (o, w'0) := single_request_except rt method id e0 w1 in
                   match o with
                   | Returned a => (Returned a, w'0)
                   | Raised e1 => top_level_except rt (Some (PDict d)) e1 w'0
                   end) = (Raised e, w') ∧ ext w' = x) as Hexcept.
  { intros e0 w1 Hw1.
    destruct (single_request_except_rejected method id e e0 w1 Hid He)
      as (w2 & -> & Hw2).
    destruct (top_level_except_rejected (Some (PDict d)) id e e w2)
      as (w3 & -> & Hw3); [done..|].
    exists w3. split; [done|]. congruence. }
  destruct o as [r|e0]; [|by apply Hexcept].
  rewrite (create_success_response_rejected _ e) by done.
  by apply Hexcept.
Qed.

End rejected.

(** * Runs of the small service *)

Import ToolsSpec ToolsFacts Service.

Lemma accepted_one_rt1 : accepted_id rt1 (PInt 1) (PInt 1).
Proof. by exists (inl 1%Z). Defined.

Lemma parses_batch : parses rt1 (bytes_of batch_text) (PList batch).
Proof. split; [discriminate|]. by exists batch_text. Defined.

Lemma parses_scalar : parses rt1 (bytes_of "7") (PInt 7).
Proof. split; [discriminate|]. by exists "7". Defined.

Lemma invalid_envelope_is_refused_witness :
  _handle_single_request rt0 tools0 (PDict untagged) w0
  = (Returned (error_envelope (PInt 1) "无效的请求" (-32600)), w0).
Proof.
  apply (invalid_envelope_is_refused rt0 tools0 untagged (PInt 1) w0).
  - left. discriminate.
  - exact accepted_one.
Defined.

Lemma accepted_five : accepted_id rt0 (PStr "5") (PInt 5).
Proof. by exists (inl 5%Z). Defined.

Lemma accepted_five_rt1 : accepted_id rt1 (PStr "5") (PInt 5).
Proof. by exists (inl 5%Z). Defined.

(** The id of the request is the string ["5"], the id of the answer the
    integer [5]. *)
Lemma unknown_method_is_not_found_witness :
  _handle_single_request rt0 tools0 (PDict nameless) w0
  = (Returned
       (error_envelope (PInt 5)
          ("方法未找到: " +:+ py_str rt0 (PStr "tools/nope")) (-32601)),
     w0).
Proof.
  apply (unknown_method_is_not_found rt0 tools0 nameless (PStr "tools/nope")
           (PInt 5) w0).
  - reflexivity.
  - reflexivity.
  - reflexivity.
  - reflexivity.
  - intros s [= <-]. reflexivity.
  - exact accepted_five.
Defined.

(** The batch holds a request for [boom]: the tool is not run, nothing
    is logged. *)
Lemma batch_is_refused_as_a_whole_witness :
  handle_jsonrpc rt1 tools0 (bytes_of batch_text) w0
  = (Returned (error_envelope PNone "不支持批量请求" (-32600)), w0).
Proof.
  apply (batch_is_refused_as_a_whole rt1 tools0 (bytes_of batch_text) batch
           w0).
  exact parses_batch.
Defined.

Lemma scalar_body_is_an_internal_error_witness :
  handle_jsonrpc rt1 tools0 (bytes_of "7") w0
  = (Returned (error_envelope PNone "Internal error" (-32603)),
     with_log w0 ERROR
       ("处理JSON-RPC请求时发生未捕获的异常: '" +:+ type_name_of (PInt 7)
        +:+ "' object has no attribute 'get'")).
Proof.
  apply (scalar_body_is_an_internal_error rt1 tools0 (bytes_of "7") (PInt 7)
           w0).
  - exact parses_scalar.
  - reflexivity.
  - reflexivity.
Defined.

Lemma parses_listy : parses rt1 (bytes_of listy_text) (PDict listy).
Proof. split; [discriminate|]. by exists listy_text. Defined.

Lemma parses_odd_id : parses rt1 (bytes_of odd_id_text) (PDict odd_id).
Proof. split; [discriminate|]. by exists odd_id_text. Defined.

Lemma unhashable_method_is_an_internal_error_witness :
  handle_jsonrpc rt1 tools0 (bytes_of listy_text) w0
  = (Returned (error_envelope (PInt 1) "Internal error" (-32603)),
     with_log w0 ERROR
       ("处理JSON-RPC请求时发生未捕获的异常: unhashable type: '"
        +:+ type_name_of (PList [PStr "tools/list"]) +:+ "'")).
Proof.
  apply (unhashable_method_is_an_internal_error rt1 tools0
           (bytes_of listy_text) listy (PList [PStr "tools/list"]) (PInt 1)
           w0).
  - exact parses_listy.
  - reflexivity.
  - reflexivity.
  - reflexivity.
  - exact accepted_one_rt1.
Defined.

Lemma tools_call_unknown_tool_witness :
  _handle_single_request rt0 tools0 (call_request "nope") w0
  = (Returned
       (error_envelope (PInt 1)
          ("工具未找到: "
           +:+ py_str rt0
                 (default PNone
                    (od_get [("name", PStr "nope"); ("parameters", PDict [])]
                       "name")))
          (-32601)),
     with_log w0 WARNING
       ("处理请求 'tools/call' 时发生MCP错误: 工具未找到: "
        +:+ py_str rt0
              (default PNone
                 (od_get [("name", PStr "nope"); ("parameters", PDict [])]
                    "name"))
        +:+ " (代码: -32601)")).
Proof.
  apply (tools_call_unknown_tool rt0 tools0 (call_request "nope") (PInt 1)
           (PInt 1) (call_params "nope")
           [("name", PStr "nope"); ("parameters", PDict [])] w0).
  - exact tools0_meta_call.
  - exact (call_request_shape "nope").
  - reflexivity.
  - reflexivity.
  - exact accepted_one.
Defined.

Lemma responses_are_well_formed_witness :
  media_type (error_envelope PNone "无效的空请求" (-32600)) = "application/json"
  ∧ envelope_field (error_envelope PNone "无效的空请求" (-32600)) "jsonrpc"
    = Some (PStr "2.0")
  ∧ has_field (error_envelope PNone "无效的空请求" (-32600)) "result"
    && has_field (error_envelope PNone "无效的空请求" (-32600)) "error" = false
  ∧ (has_field (error_envelope PNone "无效的空请求" (-32600)) "error" = true →
     is_Some (error_code (error_envelope PNone "无效的空请求" (-32600)))
     ∧ is_Some (error_message (error_envelope PNone "无效的空请求" (-32600)))).
Proof.
  apply (responses_are_well_formed rt0 tools0 [] w0
           (error_envelope PNone "无效的空请求" (-32600)) w0).
  reflexivity.
Defined.

Lemma parses_nameless : parses rt1 (bytes_of nameless_text) (PDict nameless).
Proof. split; [discriminate|]. by exists nameless_text. Defined.

(** The id of the request is the string ["5"], the id of the answer the
    integer [5]. *)
Lemma request_object_is_answered_witness :
  ∃ r w', handle_jsonrpc rt1 tools0 (bytes_of nameless_text) w0
          = (Returned r, w')
          ∧ is_envelope r
          ∧ envelope_id r = PInt 5.
Proof.
  apply (request_object_is_answered rt1 tools0 (bytes_of nameless_text)
           nameless (PInt 5) w0).
  - exact parses_nameless.
  - exact accepted_five_rt1.
Defined.

Lemma unserialisable_result_is_an_internal_error_witness :
  _handle_single_request rt0 tools1 (direct_request "raw") w0
  = (Returned
       (error_envelope (PInt 1)
          ("服务器内部错误: Object of type " +:+ "bytes"
           +:+ " is not JSON serializable") (-32603)),
     with_log (with_ext w0 ()) ERROR
       ("处理请求 '" +:+ "tools/raw" +:+ "' 时发生错误: Object of type "
        +:+ "bytes" +:+ " is not JSON serializable")).
Proof.
  apply (unserialisable_result_is_an_internal_error rt0 tools1
           (direct_request "raw") (PInt 1) (PInt 1) "tools/raw" (PDict [])
           raw (always (Returned (PObj "bytes"))) (PObj "bytes") "bytes" ()
           w0).
  - exact (direct_request_shape "raw").
  - reflexivity.
  - left. reflexivity.
  - exact accepted_one.
  - reflexivity.
  - reflexivity.
Defined.

Lemma rejected_id_is_never_answered_witness :
  ∃ w', handle_jsonrpc rt1 tools0 (bytes_of odd_id_text) w0
        = (Raised (PyException "ValidationError"
                     "1 validation error for MCPResponse"), w').
Proof.
  apply (rejected_id_is_never_answered rt1 tools0 (bytes_of odd_id_text)
           odd_id (PList [PInt 1])).
  - exact parses_odd_id.
  - reflexivity.
  - discriminate.
  - reflexivity.
Defined.

Lemma rejected_id_still_runs_the_handler_witness :
  ∃ w', handle_jsonrpc rt1 tools0 (bytes_of odd_id_text) w0
        = (Raised (PyException "ValidationError"
                     "1 validation error for MCPResponse"), w')
        ∧ ext w' = ().
Proof.
  apply (rejected_id_still_runs_the_handler rt1 tools0 (bytes_of odd_id_text)
           odd_id (PList [PInt 1]) _ "tools/quiet" (PDict []) quiet
           (always (Returned PNone)) (Returned PNone) () w0).
  - exact parses_odd_id.
  - by eexists.
  - discriminate.
  - reflexivity.
  - reflexivity.
  - left. reflexivity.
  - reflexivity.
Defined.


Lemma controller_is_tracked_once_witness :
  NoDup (oid <$> controllers
                   (register_controller
                      {| running_threads := [];
                         controllers := [tracked 1 "DeviceController"] |}
                      (tracked 2 "AppController")))
  ∧ oid (tracked 2 "AppController")
    ∈ oid <$> controllers
                (register_controller
                   {| running_threads := [];
                      controllers := [tracked 1 "DeviceController"] |}
                   (tracked 2 "AppController"))
  ∧ controllers {| running_threads := [];
                   controllers := [tracked 1 "DeviceController"] |}
    `prefix_of` controllers
                  (register_controller
                     {| running_threads := [];
                        controllers := [tracked 1 "DeviceController"] |}
                     (tracked 2 "AppController"))
  ∧ register_controller
      (register_controller
         {| running_threads := [];
            controllers := [tracked 1 "DeviceController"] |}
         (tracked 2 "AppController"))
      (tracked 2 "AppController")
    = register_controller
        {| running_threads := [];
           controllers := [tracked 1 "DeviceController"] |}
        (tracked 2 "AppController")
  ∧ running_threads
      (register_controller
         {| running_threads := [];
            controllers := [tracked 1 "DeviceController"] |}
         (tracked 2 "AppController"))
    = running_threads {| running_threads := [];
                         controllers := [tracked 1 "DeviceController"] |}.
Proof.
  apply (controller_is_tracked_once
           {| running_threads := [];
              controllers := [tracked 1 "DeviceController"] |}
           (tracked 2 "AppController")).
  apply (bool_decide_unpack _). reflexivity.
Defined.

Lemma create_tools_android0 : Tools.create_tools android0 = Returned new0.
Proof. vm_compute. reflexivity. Defined.

Lemma description_and_hints_witness :
  (Schema.newline
   ∉ chars (description
              (made "clear_text" "清除输入框文本"
                 (PDict [("destructiveHint", PBool true)]))))
  ∧ hint (made "clear_text" "清除输入框文本"
            (PDict [("destructiveHint", PBool true)])) "readOnlyHint"
    = mentions (description
                  (made "clear_text" "清除输入框文本"
                     (PDict [("destructiveHint", PBool true)])))
        ["获取"; "查询"; "列出"]
  ∧ hint (made "clear_text" "清除输入框文本"
            (PDict [("destructiveHint", PBool true)])) "destructiveHint"
    = negb (mentions (description
                        (made "clear_text" "清除输入框文本"
                           (PDict [("destructiveHint", PBool true)])))
              ["获取"; "查询"; "列出"])
      && mentions (description
                     (made "clear_text" "清除输入框文本"
                        (PDict [("destructiveHint", PBool true)])))
           ["删除"; "卸载"; "清除"]
  ∧ hint (made "clear_text" "清除输入框文本"
            (PDict [("destructiveHint", PBool true)])) "readOnlyHint"
    && hint (made "clear_text" "清除输入框文本"
               (PDict [("destructiveHint", PBool true)])) "destructiveHint"
    = false.
Proof.
  apply (description_and_hints android0 new0
           (made "clear_text" "清除输入框文本"
              (PDict [("destructiveHint", PBool true)]))).
  - exact create_tools_android0.
  - left.
Defined.

Lemma conventional_signature_has_empty_schema_witness :
  Schema._build_input_schema (tool_method "
        获取屏幕尺寸

        Returns:
            屏幕尺寸 {width, height}
        ")
  = Returned (PDict [("type", PStr "object"); ("properties", PDict [])]).
Proof.
  apply conventional_signature_has_empty_schema.
  repeat constructor.
Defined.

Lemma properties_follow_the_signature_witness :
  ∃ schema,
    Schema._build_input_schema SchemaSpec.install_method = Returned schema
    ∧ (SchemaSpec.properties_of schema).*1
      = Schema.param_name
          <$> List.filter (λ p, negb (Schema.skipped p))
                (Schema.parameters SchemaSpec.install_method).
Proof.
  apply (properties_follow_the_signature SchemaSpec.install_method).
  apply (bool_decide_unpack _). reflexivity.
Defined.

Lemma android_tools_are_served_witness :
  ∃ new server w',
    Tools.create_tools android0 = Returned new
    ∧ Tools.register_android_tools MCPServer_init (λ x, (Returned android0, x))
        w0
      = (Returned server, w')
    ∧ ext w' = ()
    ∧ tools_listed (_handle_tools_list (Server.tools server) PNone)
      = tool_entry <$> new
    ∧ (∀ tool, tool ∈ new →
         od_get (Server.tools server) ("tools/" +:+ name tool) = Some tool)
    ∧ meta_call_intact (Server.tools server)
    ∧ controllers (server_resources server)
      = [Tools.device_controller android0; Tools.app_controller android0;
         Tools.system_controller android0; Tools.advanced_controller android0;
         Tools.multi_device_controller android0].
Proof.
  apply (proj2 (android_tools_are_served (λ x, (Returned android0, x)) PNone
                  w0) android0 ()).
  - reflexivity.
  - apply (bool_decide_unpack _). reflexivity.
  - intros m Hin.
    repeat (apply elem_of_cons in Hin as [-> | Hin];
            [split; discriminate|]).
    by apply elem_of_nil in Hin.
  - apply (bool_decide_unpack _). reflexivity.
Defined.

(** * Runs of the small fleet *)

Import Coordinator CoordinatorSpec CoordinatorFacts Fleet FleetSpec FleetFacts
  GroupFacts ParseFacts FleetRuns.

Lemma emulator_connected (x : ()) : connected adb0 "emulator-5554" x.
Proof.
  destruct x. unfold connected. apply (bool_decide_unpack _). by vm_compute.
Defined.

Lemma mailbox_is_fifo_witness :
  ∃ msgs st1 x1 st2 st3,
    send_all None adb0 clock0 "emulator-5554" ["hello"; "world"] Fleet.init ()
    = (st1, x1)
    ∧ device_messaging None adb0 clock0 "receive" (Some "emulator-5554") None
        5 st1 x1
      = (messages_reply (inbox Fleet.init "emulator-5554" ++ msgs), st2, x1)
    ∧ content_of <$> msgs = Some <$> ["hello"; "world"]
    ∧ Forall (λ msg, sender_of msg = Some (default "unknown" (given None)))
        msgs
    ∧ device_messaging None adb0 clock0 "receive" (Some "emulator-5554") None
        5 st2 x1
      = (messages_reply [], st3, x1)
    ∧ (∀ d', d' ≠ "emulator-5554" →
             inbox st2 d' = inbox Fleet.init d').
Proof.
  apply (mailbox_is_fifo None adb0 clock0 "emulator-5554" ["hello"; "world"]
           5 Fleet.init ()).
  - discriminate.
  - repeat constructor; discriminate.
  - exact emulator_connected.
  - lia.
Defined.

Lemma unconnected_device_gets_nothing_witness :
  ∃ st',
    device_messaging None adb0 clock0 "send" (Some "pixel-7") (Some "hello")
      5 Fleet.init ()
    = (reply false ("设备 " +:+ "pixel-7" +:+ " 不存在或未连接"), st',
       asked adb0 ())
    ∧ (∀ d', inbox st' d' = inbox Fleet.init d')
    ∧ device_groups st' = device_groups Fleet.init.
Proof.
  apply (unconnected_device_gets_nothing None adb0 clock0 "pixel-7" "hello" 5
           Fleet.init ()).
  - discriminate.
  - discriminate.
  - unfold connected. apply (bool_decide_unpack _). by vm_compute.
Defined.

Example busy_inbox :
  inbox busy "emulator-5554" = [mail "hello"; mail "world"].
Proof. reflexivity. Qed.

(** Two messages wait: the receive with the negative timeout fails, the
    next one gets both. *)
Lemma negative_timeout_keeps_the_messages_witness :
  ∃ st1 st2,
    device_messaging None adb0 clock0 "receive" (Some "emulator-5554") None
      (-1) busy ()
    = (reply false "接收消息失败: 'timeout' must be a non-negative number",
       st1, ())
    ∧ (∀ d', inbox st1 d' = inbox busy d')
    ∧ device_messaging None adb0 clock0 "receive" (Some "emulator-5554") None
        5 st1 ()
      = (messages_reply (inbox busy "emulator-5554"), st2, ()).
Proof.
  apply (negative_timeout_keeps_the_messages None adb0 clock0
           "emulator-5554" (-1) 5 busy ()).
  - discriminate.
  - lia.
  - lia.
Defined.

Lemma connected_adb1 (d : string) (x : list string) :
  d = "emulator-5554" ∨ d = "emulator-5556" → connected adb1 d x.
Proof.
  unfold connected.
  intros [-> | ->]; apply (bool_decide_unpack _); by vm_compute.
Defined.

Lemma unconnected_adb1 (x : list string) : ¬ connected adb1 "pixel-7" x.
Proof. unfold connected. apply (bool_decide_unpack _). by vm_compute. Defined.

(** The group [lab] holds the first emulator.  Created again with the two
    emulators, the second first, it holds the two in that order.  Created
    with a list in which two devices are not connected, it is left as it
    was and the first of the two is named. *)
Lemma group_creation_is_all_or_nothing_witness :
  (∃ st',
     device_group_actions adb1 "create" (Some "lab")
       (Some ["emulator-5556"; "emulator-5554"]) None lab []
     = (reply true ("已创建设备组 " +:+ "lab"), st', asked adb1 [])
     ∧ od_get (device_groups st') "lab"
       = Some ["emulator-5556"; "emulator-5554"]
     ∧ (∀ g', g' ≠ "lab" →
              od_get (device_groups st') g' = od_get (device_groups lab) g')
     ∧ message_queues st' = message_queues lab)
  ∧ device_group_actions adb1 "create" (Some "lab")
      (Some ["emulator-5556"; "pixel-7"; "pixel-8"]) None lab []
    = (reply false ("设备 " +:+ "pixel-7" +:+ " 不存在或未连接"), lab,
       asked adb1 []).
Proof.
  split.
  - destruct (group_creation_is_all_or_nothing adb1 "lab"
                ["emulator-5556"; "emulator-5554"] None lab [])
      as [Hall _]; [discriminate..|].
    apply Hall.
    constructor; [apply connected_adb1; by right|].
    constructor; [apply connected_adb1; by left|]. constructor.
  - destruct (group_creation_is_all_or_nothing adb1 "lab"
                ["emulator-5556"; "pixel-7"; "pixel-8"] None lab [])
      as [_ Hnone]; [discriminate..|].
    apply (Hnone ["emulator-5556"] "pixel-7" ["pixel-8"]).
    + reflexivity.
    + constructor; [apply connected_adb1; by right | constructor].
    + apply unconnected_adb1.
Defined.

Example pair_run :
  run_on adb1 "shell date" ["emulator-5554"; "emulator-5556"] []
  = ([("", "error: closed", 1%Z); ("ok", "", 0%Z)],
     ["emulator-5554"; "emulator-5556"]).
Proof. reflexivity. Qed.

(** A group of two: the command fails on the first member and is run on
    the second all the same, where it succeeds. *)
Lemma group_command_runs_on_every_member_witness :
  device_group_actions adb1 "execute" (Some "pair") None (Some "shell date")
    pair []
  = (PDict [("success", PBool true);
            ("results",
             PList (zip_with result_entry ["emulator-5554"; "emulator-5556"]
                      (run_on adb1 "shell date"
                         ["emulator-5554"; "emulator-5556"] []).1))],
     pair,
     (run_on adb1 "shell date" ["emulator-5554"; "emulator-5556"] []).2)
  ∧ length (run_on adb1 "shell date" ["emulator-5554"; "emulator-5556"] []).1
    = length ["emulator-5554"; "emulator-5556"].
Proof.
  apply (group_command_runs_on_every_member adb1 "pair" "shell date"
           ["emulator-5554"; "emulator-5556"] None pair []).
  - discriminate.
  - discriminate.
  - reflexivity.
Defined.

Lemma deleted_group_is_gone_witness :
  ∃ st',
    device_group_actions adb0 "delete" (Some "lab") None (Some "shell date")
      lab ()
    = (reply true ("已删除设备组 " +:+ "lab"), st', ())
    ∧ od_get (device_groups st') "lab" = None
    ∧ (∀ g', g' ≠ "lab" →
             od_get (device_groups st') g' = od_get (device_groups lab) g')
    ∧ message_queues st' = message_queues lab
    ∧ device_group_actions adb0 "execute" (Some "lab") None
        (Some "shell date") st' ()
      = (reply false ("设备组 " +:+ "lab" +:+ " 不存在"), st', ())
    ∧ device_group_actions adb0 "delete" (Some "lab") None
        (Some "shell date") st' ()
      = (reply false ("设备组 " +:+ "lab" +:+ " 不存在"), st', ()).
Proof.
  apply (deleted_group_is_gone adb0 "lab" ["emulator-5554"] None "shell date"
           lab ()).
  - discriminate.
  - discriminate.
  - apply (bool_decide_unpack _). reflexivity.
  - reflexivity.
Defined.

Lemma door_wf : wf door.
Proof. apply (perform_wf {| action := "create"; lock_name := Some "door";
                            timeout := 5 |}), init_wf. Defined.

Lemma controller_cleanup_releases_everything_witness :
  wf (cleanup door lab).1
  ∧ sync_locks (cleanup door lab).1 = sync_locks door
  ∧ shared_data (cleanup door lab).1 = shared_data door
  ∧ (∀ L, is_Some (sync_locks door !! L) →
          signalled L (cleanup door lab).1)
  ∧ (∀ L t, L ≠ "" → is_Some (sync_locks door !! L) →
            success_of
              (sync_operations "wait" (Some L) t (cleanup door lab).1).1
            = true)
  ∧ (∀ d, inbox (cleanup door lab).2 d = [])
  ∧ device_groups (cleanup door lab).2 = device_groups lab.
Proof.
  apply (controller_cleanup_releases_everything door lab).
  exact door_wf.
Defined.

Lemma adb_listing_is_read_back_witness :
  parse_devices (adb_devices_output [emulator]) = [emulator].
Proof.
  apply (adb_listing_is_read_back [emulator]).
  repeat constructor; discriminate.
Defined.
